(** * BullsEyeDryFire backend: the authentication core

    A shallow embedding of [AuthService], [AuthRepository], [AuthDto],
    the Prisma client extension and the [authenticate] middleware, with
    the properties of the specification stated over it.

    The database table, the cache and the logger are one explicit state
    threaded through every operation; a thrown exception is a result that
    keeps the state reached so far (there are no transactions in the
    source). *)

From Stdlib Require Import ZArith Lia Bool Ascii String.
From stdpp Require Import base option list strings gmap fin_maps pretty.

Local Open Scope string_scope.
Local Open Scope Z_scope.

(** ** Enumerations of the schema *)

Inductive Role := USER | ADMIN.
Inductive UserType := GUEST | REGISTERED.
Inductive SignupMethod := EMAIL | GOOGLE.

(** [z.enum(['forgotPassword', 'emailVerification'])] of the validation
    schemas. *)
Inductive OtpType := ForgotPassword | EmailVerification.

Definition otpTypeName (t : OtpType) : string :=
  match t with
  | ForgotPassword => "forgotPassword"
  | EmailVerification => "emailVerification"
  end.

#[global] Instance Role_eq_dec : EqDecision Role.
Proof. solve_decision. Defined.
#[global] Instance UserType_eq_dec : EqDecision UserType.
Proof. solve_decision. Defined.
#[global] Instance SignupMethod_eq_dec : EqDecision SignupMethod.
Proof. solve_decision. Defined.
#[global] Instance OtpType_eq_dec : EqDecision OtpType.
Proof. solve_decision. Defined.

(** ** The User row

    The columns the authentication code reads or writes. Timestamps are
    milliseconds since the epoch, as [Date.getTime] gives them. *)

Record User := mkUser {
  id : string;
  username : string;
  email : string;
  isEmailVerified : bool;
  phone : option string;
  password : string;
  role : Role;
  userType : UserType;
  refreshToken : option string;
  signupMethod : SignupMethod;
  isActive : bool;
  isDeleted : bool;
  deletedAt : option Z;
  otpCode : option string;
  otpExpiresAt : option Z;
  profilePicture : option string
}.

(** ** Errors *)

Inductive HttpStatusCode :=
  | BAD_REQUEST | UNAUTHORIZED | FORBIDDEN | NOT_FOUND | CONFLICT
  | UNPROCESSABLE_ENTITY | INTERNAL_SERVER_ERROR.

Record ValidationError := mkVE { field : string; ve_message : string }.

Record AppError := mkAppError {
  message : string;
  statusCode : HttpStatusCode;
  errors : list ValidationError
}.

Module AppErr.
Definition badRequest (m : string) (es : list ValidationError) : AppError :=
    mkAppError m BAD_REQUEST es.
Definition unauthorized (m : string) (es : list ValidationError) : AppError :=
    mkAppError m UNAUTHORIZED es.
Definition forbidden (m : string) (es : list ValidationError) : AppError :=
    mkAppError m FORBIDDEN es.
Definition notFound (m : string) (es : list ValidationError) : AppError :=
    mkAppError m NOT_FOUND es.
Definition conflict (m : string) (es : list ValidationError) : AppError :=
    mkAppError m CONFLICT es.
End AppErr.

(** What a [throw] can carry: an [AppError] of the service, an error of
    the Prisma client (record to update not found, unique constraint,
    invalid arguments), the error of the token library or the error of
    the mail transport. *)
Inductive PrismaError := P2025_NotFound | P2002_Unique | P_Validation.

Inductive Thrown :=
  | App (e : AppError)
  | Prisma (e : PrismaError)
  | JwtError
  | MailError.

(** ** The cache

    Modelled from the spec: the cache utilities ([cacheGet], [cacheSet],
    [cacheDel], [makeKey]) are not among the sources. The spec describes
    a key-value store with a time to live per entry, whose get returns
    the value or null. A key is kept as the list of the parts given to
    [makeKey]; an entry carries the instant (ms) at which it lapses. *)

Record AuthUser := mkAuthUser {
  au_id : string;
  au_username : string;
  au_email : string;
  au_role : Role;
  au_userType : UserType;
  au_isEmailVerified : bool;
  au_isActive : bool
}.

Inductive CacheValue :=
  | CUser (u : User)
  | CString (s : string)
  | CAuthUser (a : AuthUser).

Record CacheEntry := mkEntry { value : CacheValue; expiresAt : Z }.

Abbreviation CacheKey := (list string).
Abbreviation Cache := (gmap (list string) CacheEntry).

Definition makeKey (parts : list string) : CacheKey := parts.

Inductive Level := LInfo | LWarn | LError | LDebug.

Record State := mkState {
  db : list User;
  cache : Cache;
  logs : list (Level * string)
}.

(** ** Exceptions over state *)

Inductive Result (A : Type) :=
  | Ok (a : A)
  | Throw (e : Thrown).
Arguments Ok {A} a.
Arguments Throw {A} e.

Definition M (A : Type) : Type := State -> Result A * State.

Definition ret {A} (a : A) : M A := fun s => (Ok a, s).
Definition throw {A} (e : Thrown) : M A := fun s => (Throw e, s).
Definition bind {A B} (m : M A) (k : A -> M B) : M B :=
  fun s => match m s with
           | (Ok a, s') => k a s'
           | (Throw e, s') => (Throw e, s')
           end.
(** [try { m } catch { h }] *)
Definition tryCatch {A} (m : M A) (h : Thrown -> M A) : M A :=
  fun s => match m s with
           | (Ok a, s') => (Ok a, s')
           | (Throw e, s') => h e s'
           end.

Notation "'let*' x ':=' m 'in' k" := (bind m (fun x => k))
  (at level 10, x name, m at level 200, k at level 200,
   format "'[v' 'let*'  x  ':='  m  'in' '/' k ']'").
Notation "m ';;' k" := (bind m (fun _ => k))
  (at level 100, k at level 200, right associativity).

Definition throwApp {A} (e : AppError) : M A := throw (App e).

Definition getDb : M (list User) := fun s => (Ok (db s), s).
Definition setDb (d : list User) : M unit :=
  fun s => (Ok tt, mkState d (cache s) (logs s)).
Definition getCache : M Cache := fun s => (Ok (cache s), s).
Definition setCache (c : Cache) : M unit :=
  fun s => (Ok tt, mkState (db s) c (logs s)).
(** Modelled from the spec: the logger of [@/utils] is not among the
    sources; a call appends its level and message to the log. *)
Definition logger (l : Level) (msg : string) : M unit :=
  fun s => (Ok tt, mkState (db s) (cache s) (logs s ++ [(l, msg)])).

(** The value under [k] at instant [now], if the entry has not lapsed. *)
Definition live (now : Z) (c : Cache) (k : CacheKey) : option CacheValue :=
  match c !! k with
  | Some e => if now <? expiresAt e then Some (value e) else None
  | None => None
  end.

Definition liveString (t : Z) (c : Cache) (k : CacheKey) : option string :=
  match live t c k with Some (CString s) => Some s | _ => None end.

Definition liveUser (t : Z) (c : Cache) (k : CacheKey) : option User :=
  match live t c k with Some (CUser u) => Some u | _ => None end.

Definition liveAuthUser (t : Z) (c : Cache) (k : CacheKey) : option AuthUser :=
  match live t c k with Some (CAuthUser a) => Some a | _ => None end.

Definition cacheGet (now : Z) (k : CacheKey) : M (option CacheValue) :=
  let* c := getCache in
  ret (live now c k).

Definition cacheSet (now : Z) (k : CacheKey) (v : CacheValue) (ttlSeconds : Z)
  : M unit :=
  let* c := getCache in
  setCache (<[k := mkEntry v (now + ttlSeconds * 1000)]> c).

Definition cacheDel (k : CacheKey) : M unit :=
  let* c := getCache in
  setCache (delete k c).

Definition cacheGetUser (now : Z) (k : CacheKey) : M (option User) :=
  let* c := getCache in
  ret (liveUser now c k).

Definition cacheGetString (now : Z) (k : CacheKey) : M (option string) :=
  let* c := getCache in
  ret (liveString now c k).

Definition cacheGetAuthUser (now : Z) (k : CacheKey) : M (option AuthUser) :=
  let* c := getCache in
  ret (liveAuthUser now c k).

(** ** Collaborators that are not among the sources

    [hashPassword], [comparePassword] and [generateTokens] of [@/utils],
    the signature check behind [verifyToken] and [verifyRefreshToken], and
    the [verifyIdToken] of the Firebase SDK, are taken as parameters of
    the development. A decoder returns [None] where the library throws.
    The hash takes the salt it draws; [generateTokens] takes the clock. *)

Record JwtPayload := mkJwt { jwt_id : option string; jwt_exp : option Z }.

Record TokenPayload := mkTokenPayload {
  tp_id : string; tp_email : string; tp_role : Role
}.

Module Token.
Record Pair := mk { accessToken : string; refreshToken : string }.
End Token.

Record DecodedIdToken := mkDecoded {
  uid : string;
  dt_email : option string;
  dt_email_verified : option bool;
  dt_name : option string;
  dt_picture : option string;
  dt_phone_number : option string
}.

Class Utils := {
  hashPassword : string -> string -> string;
  comparePassword : string -> string -> bool;
  generateTokens : Z -> TokenPayload -> Token.Pair;
  decodeAccess : string -> option JwtPayload;
  decodeRefresh : string -> option JwtPayload;
  verifyIdToken : string -> option DecodedIdToken
}.

(** Modelled from the spec: [verifyToken] and [verifyRefreshToken] are not
    among the sources. The spec gives them as returning the decoded
    payload or failing when the token is expired, malformed or badly
    signed. The payload of a well-signed token is a function of the token
    alone; it is rejected from the second of its expiry claim on. *)
Definition unexpired (now : Z) (d : JwtPayload) : bool :=
  match jwt_exp d with
  | Some exp => now / 1000 <? exp
  | None => true
  end.

Definition verifyToken `{U : Utils} (now : Z) (token : string)
  : option JwtPayload :=
  match decodeAccess token with
  | Some d => if unexpired now d then Some d else None
  | None => None
  end.

Definition verifyRefreshToken `{U : Utils} (now : Z) (token : string)
  : option JwtPayload :=
  match decodeRefresh token with
  | Some d => if unexpired now d then Some d else None
  | None => None
  end.

(** What one call draws from outside: the clock, the random numbers, the
    identifier the database gives a new row, and whether the mail
    transport delivers. A call reads the clock once here: the instants
    at which one call computes an expiry and, some statements later,
    writes a cache entry are taken as one, where the source reads the
    clock at each of them. A statement for which the two must be told
    apart names the lapse of the cache entry as a condition of its
    own. *)
Record Env := mkEnv {
  now : Z;
  otpRandom : Z;
  uuid : string;
  salt : string;
  salt' : string;
  random36 : string;
  random36' : string;
  emailDelivered : bool
}.

(** JavaScript truthiness of a string and of a number. *)
Definition truthy (s : string) : bool := negb (String.eqb s "").
Definition truthyO (s : option string) : bool :=
  match s with Some x => truthy x | None => false end.
Definition truthyZ (z : option Z) : bool :=
  match z with Some x => negb (x =? 0) | None => false end.

(** ** The Prisma client with its extension (prisma.config) *)

Inductive Where := ById (i : string) | ByEmail (e : string) | ByPhone (p : string).

Definition matches (w : Where) (u : User) : bool :=
  match w with
  | ById i => String.eqb (id u) i
  | ByEmail e => String.eqb (email u) e
  | ByPhone p => match phone u with Some q => String.eqb q p | None => false end
  end.

Definition findUnique (w : Where) : M (option User) :=
  let* d := getDb in ret (find (matches w) d).

(** [data] of a create: the payload the repository spreads, plus its two
    defaults. *)
Record CreateData := mkCreate {
  c_username : string;
  c_email : string;
  c_phone : option string;
  c_password : string;
  c_signupMethod : SignupMethod;
  c_isEmailVerified : bool;
  c_profilePicture : option string;
  c_userType : UserType
}.

(** [data] of an update: [None] leaves the column alone; a nullable column
    set to null is [Some None]. *)
Record UpdateData := mkUpdate {
  d_username : option string;
  d_email : option string;
  d_phone : option string;
  d_password : option string;
  d_signupMethod : option SignupMethod;
  d_isEmailVerified : option bool;
  d_userType : option UserType;
  d_refreshToken : option (option string);
  d_otpCode : option (option string);
  d_otpExpiresAt : option (option Z);
  d_profilePicture : option string
}.

Definition noData : UpdateData :=
  mkUpdate None None None None None None None None None None None.

Definition applyData (d : UpdateData) (u : User) : User :=
  {| id := id u;
     username := default (username u) (d_username d);
     email := default (email u) (d_email d);
     isEmailVerified := default (isEmailVerified u) (d_isEmailVerified d);
     phone := match d_phone d with Some p => Some p | None => phone u end;
     password := default (password u) (d_password d);
     role := role u;
     userType := default (userType u) (d_userType d);
     refreshToken := default (refreshToken u) (d_refreshToken d);
     signupMethod := default (signupMethod u) (d_signupMethod d);
     isActive := isActive u;
     isDeleted := isDeleted u;
     deletedAt := deletedAt u;
     otpCode := default (otpCode u) (d_otpCode d);
     otpExpiresAt := default (otpExpiresAt u) (d_otpExpiresAt d);
     profilePicture :=
       match d_profilePicture d with Some p => Some p | None => profilePicture u end |}.

(** The unique indexes of the User table: id, email, phone. *)
Definition clashes (u v : User) : bool :=
  String.eqb (email u) (email v)
  || match phone u, phone v with
     | Some p, Some q => String.eqb p q
     | _, _ => false
     end.

(** Whether an update writes a column that has a unique index. *)
Definition touchesUnique (d : UpdateData) : bool :=
  bool_decide (is_Some (d_email d)) || bool_decide (is_Some (d_phone d)).

Fixpoint updateFirst (p : User -> bool) (f : User -> User) (l : list User)
  : list User :=
  match l with
  | [] => []
  | u :: r => if p u then f u :: r else u :: updateFirst p f r
  end.

Section Prisma.
Context `{U : Utils}.

  (** [user.create] of the extension: the password is hashed when it is
      truthy, then the row is inserted with the defaults of the schema. *)
Definition prisma_user_create (e : Env) (c : CreateData) : M User :=
    let pw := if truthy (c_password c)
              then hashPassword (salt e) (c_password c) else c_password c in
    let u := {| id := uuid e;
                username := c_username c;
                email := c_email c;
                isEmailVerified := c_isEmailVerified c;
                phone := c_phone c;
                password := pw;
                role := USER;
                userType := c_userType c;
                refreshToken := None;
                signupMethod := c_signupMethod c;
                isActive := true;
                isDeleted := false;
                deletedAt := None;
                otpCode := None;
                otpExpiresAt := None;
                profilePicture := c_profilePicture c |} in
    let* d := getDb in
    if existsb (fun v => String.eqb (id v) (id u) || clashes u v) d
    then throw (Prisma P2002_Unique)
    else (setDb (d ++ [u]);; ret u).

  (** [user.update] of the extension: a truthy password in [data] is
      hashed, then the row selected by [where] is updated. *)
Definition hashedData (e : Env) (data : UpdateData) : UpdateData :=
    if truthyO (d_password data)
    then mkUpdate (d_username data) (d_email data) (d_phone data)
           (hashPassword (salt e) <$> d_password data)
           (d_signupMethod data) (d_isEmailVerified data) (d_userType data)
           (d_refreshToken data) (d_otpCode data) (d_otpExpiresAt data)
           (d_profilePicture data)
    else data.

Definition prisma_user_update (e : Env) (w : Where) (data : UpdateData)
    : M User :=
    let data' := hashedData e data in
    let* d := getDb in
    match find (matches w) d with
    | None => throw (Prisma P2025_NotFound)
    | Some u =>
        let u' := applyData data' u in
        if touchesUnique data'
           && existsb (fun v => negb (String.eqb (id v) (id u)) && clashes u' v) d
        then throw (Prisma P2002_Unique)
        else (setDb (updateFirst (matches w) (applyData data') d);; ret u')
    end.
End Prisma.

(** ** AuthRepository *)

Definition USER_CACHE_TTL : Z := 15 * 60.
Definition OTP_CACHE_TTL : Z := 10 * 60.

(** [SignupInput & { isEmailVerified?, profilePicture?, userType? }] *)
Record CreatePayload := mkPayload {
  p_username : string;
  p_email : string;
  p_phone : option string;
  p_password : string;
  p_signupMethod : SignupMethod;
  p_isEmailVerified : option bool;
  p_profilePicture : option string;
  p_userType : option UserType
}.

Module AuthRepository.
Section Repo.
Context `{U : Utils}.

Definition create (e : Env) (payload : CreatePayload) : M User :=
    let* user := prisma_user_create e
      {| c_username := p_username payload;
         c_email := p_email payload;
         c_phone := p_phone payload;
         c_password := p_password payload;
         c_signupMethod := p_signupMethod payload;
         c_isEmailVerified := default false (p_isEmailVerified payload);
         c_profilePicture := p_profilePicture payload;
         c_userType := default REGISTERED (p_userType payload) |} in
    cacheSet (now e) (makeKey ["user"; id user]) (CUser user) USER_CACHE_TTL;;
    cacheSet (now e) (makeKey ["user"; "email"; email user]) (CUser user) USER_CACHE_TTL;;
    ret user.

Definition findByEmail (e : Env) (email : string) (useCache : bool)
    : M (option User) :=
    let* cached :=
      (if useCache
       then cacheGetUser (now e) (makeKey ["user"; "email"; email])
       else ret None) in
    match cached with
    | Some u => ret (Some u)
    | None =>
        let* user := findUnique (ByEmail email) in
        match user with
        | Some u =>
            (if useCache
             then cacheSet (now e) (makeKey ["user"; "email"; email]) (CUser u)
                    USER_CACHE_TTL
             else ret tt);;
            ret (Some u)
        | None => ret None
        end
    end.

Definition findByPhone (e : Env) (phone : string) (useCache : bool)
    : M (option User) :=
    let* cached :=
      (if useCache
       then cacheGetUser (now e) (makeKey ["user"; "phone"; phone])
       else ret None) in
    match cached with
    | Some u => ret (Some u)
    | None =>
        let* user := findUnique (ByPhone phone) in
        match user with
        | Some u =>
            (if useCache
             then cacheSet (now e) (makeKey ["user"; "phone"; phone]) (CUser u)
                    USER_CACHE_TTL
             else ret tt);;
            ret (Some u)
        | None => ret None
        end
    end.

Definition findById (e : Env) (i : string) : M (option User) :=
    let cacheKey := makeKey ["user"; i] in
    let* cached := cacheGetUser (now e) cacheKey in
    match cached with
    | Some u => ret (Some u)
    | None =>
        let* user := findUnique (ById i) in
        match user with
        | Some u =>
            cacheSet (now e) cacheKey (CUser u) USER_CACHE_TTL;;
            ret (Some u)
        | None => ret None
        end
    end.

Definition findByEmailWithPassword (email : string) : M (option User) :=
    findUnique (ByEmail email).

Definition updateOtp (e : Env) (email otp : string) (otpExpiresAt : Z)
    : M User :=
    let* user := prisma_user_update e (ByEmail email)
      (mkUpdate None None None None None None None None
         (Some (Some otp)) (Some (Some otpExpiresAt)) None) in
    cacheDel (makeKey ["user"; "email"; email]);;
    cacheDel (makeKey ["user"; id user]);;
    ret user.

Definition verifyEmail (e : Env) (email : string) : M User :=
    let* user := prisma_user_update e (ByEmail email)
      (mkUpdate None None None None None (Some true) None None
         (Some None) (Some None) None) in
    cacheDel (makeKey ["user"; "email"; email]);;
    cacheDel (makeKey ["user"; id user]);;
    ret user.

Definition updatePassword (e : Env) (email password : string) : M User :=
    let* user := prisma_user_update e (ByEmail email)
      (mkUpdate None None None (Some password) None None None None
         (Some None) (Some None) None) in
    cacheDel (makeKey ["user"; "email"; email]);;
    cacheDel (makeKey ["user"; id user]);;
    ret user.

Definition updateRefreshToken (e : Env) (userId : string)
      (refreshToken : option string) : M User :=
    let* user := prisma_user_update e (ById userId)
      (mkUpdate None None None None None None None (Some refreshToken)
         None None None) in
    cacheDel (makeKey ["user"; userId]);;
    ret user.

Definition updateProfile (e : Env) (userId : string) (data : UpdateData)
    : M User :=
    let* user := prisma_user_update e (ById userId) data in
    cacheDel (makeKey ["user"; userId]);;
    cacheDel (makeKey ["user"; "email"; email user]);;
    (if truthyO (phone user)
     then cacheDel (makeKey ["user"; "phone"; default "" (phone user)])
     else ret tt);;
    ret user.

Definition setOtpCache (e : Env) (email : string) (type : OtpType)
      (otp : string) : M unit :=
    cacheSet (now e) (makeKey ["otp"; otpTypeName type; email]) (CString otp)
      OTP_CACHE_TTL.

Definition getOtpCache (e : Env) (email : string) (type : OtpType)
    : M (option string) :=
    cacheGetString (now e) (makeKey ["otp"; otpTypeName type; email]).

Definition deleteOtpCache (email : string) (type : OtpType) : M unit :=
    cacheDel (makeKey ["otp"; otpTypeName type; email]).

Definition blacklistToken (e : Env) (token : string) (expiresIn : Z)
    : M unit :=
    cacheSet (now e) (makeKey ["blacklist"; "token"; token]) (CString "1")
      expiresIn.

Definition isTokenBlacklisted (e : Env) (token : string) : M bool :=
    let* exists_ := cacheGet (now e) (makeKey ["blacklist"; "token"; token]) in
    ret (bool_decide (is_Some exists_)).
End Repo.
End AuthRepository.

(** ** AuthDto

    A response object spreads the row, then overwrites four keys with
    [undefined]. In a [UserView] a key that may be [undefined] is an
    option: [None] is [undefined]. *)

Record UserView := mkView {
  v_id : string;
  v_username : string;
  v_email : string;
  v_isEmailVerified : bool;
  v_phone : option string;
  v_password : option string;
  v_role : Role;
  v_userType : UserType;
  v_refreshToken : option (option string);
  v_signupMethod : SignupMethod;
  v_isActive : bool;
  v_isDeleted : bool;
  v_deletedAt : option Z;
  v_otpCode : option (option string);
  v_otpExpiresAt : option (option Z);
  v_profilePicture : option string
}.

(** [{ ...data }] *)
Definition spread (u : User) : UserView :=
  {| v_id := id u; v_username := username u; v_email := email u;
     v_isEmailVerified := isEmailVerified u; v_phone := phone u;
     v_password := Some (password u); v_role := role u;
     v_userType := userType u; v_refreshToken := Some (refreshToken u);
     v_signupMethod := signupMethod u; v_isActive := isActive u;
     v_isDeleted := isDeleted u; v_deletedAt := deletedAt u;
     v_otpCode := Some (otpCode u); v_otpExpiresAt := Some (otpExpiresAt u);
     v_profilePicture := profilePicture u |}.

Inductive Response :=
  | RUser (user : UserView)
  | RLogin (user : UserView) (token : Token.Pair)
  | RVerified (verified : bool) (email : string)
  | REmail (email : string)
  | RMessage (message : string).

Module AuthDto.
Definition safeData (data : User) : UserView :=
    let d := spread data in
    {| v_id := v_id d; v_username := v_username d; v_email := v_email d;
       v_isEmailVerified := v_isEmailVerified d; v_phone := v_phone d;
       v_password := None;
       v_role := v_role d; v_userType := v_userType d;
       v_refreshToken := None;
       v_signupMethod := v_signupMethod d; v_isActive := v_isActive d;
       v_isDeleted := v_isDeleted d; v_deletedAt := v_deletedAt d;
       v_otpCode := None;
       v_otpExpiresAt := None;
       v_profilePicture := v_profilePicture d |}.

Definition toResponse (data : User) : Response := RUser (safeData data).

Definition toSignupResponse (data : User) : Response := toResponse data.

Definition toLoginResponse (data : User) (token : Token.Pair) : Response :=
    match toResponse data with
    | RUser u => RLogin u token
    | r => r
    end.

Definition toListResponse (data : list User) : list Response :=
    map (fun item => toResponse item) data.

Definition toNullableResponse (data : option User) : option Response :=
    match data with
    | Some d => Some (toResponse d)
    | None => None
    end.
End AuthDto.

(** ** Strings of the service *)

(** [s.split('@')[0]] *)
Fixpoint beforeAt (s : string) : string :=
  match s with
  | EmptyString => EmptyString
  | String c r => if Ascii.eqb c "@"%char then EmptyString else String c (beforeAt r)
  end.

(** [s.slice(2)], [s.substring(2, 9)], [s.slice(-6)] *)
Definition slice2 (s : string) : string :=
  String.substring 2 (String.length s - 2) s.
Definition substring_2_9 (s : string) : string :=
  String.substring 2 (Nat.min 9 (String.length s) - 2) s.
Definition sliceLast6 (s : string) : string :=
  String.substring (String.length s - 6) 6 s.

(** [Math.floor(100000 + Math.random() * 900000).toString()], with
    [otpRandom] the integer part of [Math.random() * 900000]. *)
Definition generateOtp (e : Env) : string := pretty (100000 + otpRandom e).

(** The schema's [/^\d{6}$/] for a submitted code. *)
Definition isDigit (c : Ascii.ascii) : bool :=
  let n := Ascii.nat_of_ascii c in (48 <=? n)%nat && (n <=? 57)%nat.
Definition sixDigits (s : string) : bool :=
  (String.length s =? 6)%nat && forallb isDigit (list_ascii_of_string s).

(** ** Inputs of the service (validation schemas) *)

Record SignupInput := mkSignup {
  su_username : string;
  su_email : string;
  su_phone : option string;
  su_password : string;
  su_signupMethod : SignupMethod
}.

Definition signupPayload (p : SignupInput) : CreatePayload :=
  mkPayload (su_username p) (su_email p) (su_phone p) (su_password p)
    (su_signupMethod p) None None None.

Record LoginInput := mkLogin { li_email : string; li_password : string }.

Record VerifyOtpInput := mkVerifyOtp {
  vo_email : string; vo_otp : string; vo_type : OtpType
}.

Record ResendOtpInput := mkResend { ro_email : string; ro_type : OtpType }.

Record ResetPasswordInput := mkReset { rp_email : string; rp_password : string }.

Record ChangePasswordInput := mkChange {
  currentPassword : string; newPassword : string
}.

Record UpdateProfileInput := mkProfile {
  up_username : option string;
  up_phone : option string;
  up_profilePicture : option string
}.

Record GoogleAuthInput := mkGoogle { idToken : string; ga_username : option string }.

Record ConvertGuestToRegisteredInput := mkConvert {
  cg_email : string; cg_password : string; cg_username : option string
}.

(** Modelled from the spec: [sendEmail] of [@/utils] is not among the
    sources. The spec gives the mail transport as a send that returns or
    fails; whether it does is drawn from outside. *)
Definition sendEmail (e : Env) (to subject : string) : M unit :=
  if emailDelivered e then ret tt else throw MailError.

Definition tokenPayload (user : User) : TokenPayload :=
  mkTokenPayload (id user) (email user) (role user).

(** ** [verifyFirebaseToken] of firebase.util *)

Record FirebaseUser := mkFirebaseUser {
  fb_uid : string;
  fb_email : string;
  emailVerified : bool;
  name : option string;
  picture : option string;
  phoneNumber : option string
}.

Definition verifyFirebaseToken `{U : Utils} (idToken : string) : M FirebaseUser :=
  match verifyIdToken idToken with
  | Some d =>
      ret {| fb_uid := uid d;
             fb_email := if truthyO (dt_email d) then default "" (dt_email d) else "";
             emailVerified := default false (dt_email_verified d);
             name := dt_name d;
             picture := dt_picture d;
             phoneNumber := dt_phone_number d |}
  | None =>
      logger LError "Firebase token verification failed";;
      throwApp (AppErr.unauthorized "Invalid or expired Firebase token" [])
  end.

(** ** AuthService *)

Module AuthService.
Section Service.
Context `{U : Utils}.

Definition signup (e : Env) (payload : SignupInput) : M Response :=
    let* existingUser := AuthRepository.findByEmail e (su_email payload) true in
    match existingUser with
    | Some _ =>
        throwApp (mkAppError "Email already exists" CONFLICT
                    [mkVE "email" "Email already exists"])
    | None =>
        let otpCode := generateOtp e in
        let otpExpiresAt := now e + 10 * 60 * 1000 in
        let* user := AuthRepository.create e (signupPayload payload) in
        AuthRepository.updateOtp e (su_email payload) otpCode otpExpiresAt;;
        AuthRepository.setOtpCache e (su_email payload) EmailVerification otpCode;;
        tryCatch
          (sendEmail e (su_email payload) "Verify Your Email Address";;
           logger LInfo "Verification email sent")
          (fun _ => logger LError "Failed to send verification email");;
        ret (AuthDto.toSignupResponse user)
    end.

Definition login (e : Env) (payload : LoginInput) : M Response :=
    let* found := AuthRepository.findByEmailWithPassword (li_email payload) in
    match found with
    | None =>
        throwApp (AppErr.unauthorized "Invalid email or password"
                    [mkVE "email" "Invalid email or password"])
    | Some user =>
        if negb (isActive user) then
          throwApp (AppErr.forbidden "Account is deactivated"
                      [mkVE "email" "Account is deactivated"])
        else if isDeleted user then
          throwApp (AppErr.forbidden "Account has been deleted"
                      [mkVE "email" "Account has been deleted"])
        else if negb (comparePassword (li_password payload) (password user)) then
          throwApp (AppErr.unauthorized "Invalid email or password"
                      [mkVE "email" "Invalid email or password"])
        else if negb (isEmailVerified user) then
          throwApp (AppErr.unauthorized "Please verify your email before logging in"
                      [mkVE "email" "Please verify your email before logging in"])
        else
          let token := generateTokens (now e) (tokenPayload user) in
          AuthRepository.updateRefreshToken e (id user) (Some (Token.refreshToken token));;
          ret (AuthDto.toLoginResponse user token)
    end.

  (** The check of the submitted code: the cache first, the row as a
      fallback. *)
Definition checkOtp (e : Env) (email otp : string) (type : OtpType) : M unit :=
    let* cachedOtp := AuthRepository.getOtpCache e email type in
    if negb (truthyO cachedOtp) || negb (bool_decide (cachedOtp = Some otp)) then
      let* user := AuthRepository.findByEmail e email false in
      if match user with
         | None => true
         | Some u => negb (truthyO (otpCode u))
                     || negb (bool_decide (otpCode u = Some otp))
         end
      then throwApp (AppErr.badRequest "Invalid or expired OTP code"
                       [mkVE "otp" "Invalid or expired OTP code"])
      else if match user ≫= otpExpiresAt with
              | None => true
              | Some t => t <? now e
              end
      then throwApp (AppErr.badRequest "OTP code has expired"
                       [mkVE "otp" "OTP code has expired"])
      else ret tt
    else ret tt.

  (** [type] has the two values of the schema's enum, so the final
      [throw AppError.badRequest('Invalid verification type')] of the
      source has no case here. *)
Definition verifyOtp (e : Env) (payload : VerifyOtpInput) : M Response :=
    let email := vo_email payload in
    let otp := vo_otp payload in
    let type := vo_type payload in
    checkOtp e email otp type;;
    match type with
    | EmailVerification =>
        let* user := AuthRepository.verifyEmail e email in
        AuthRepository.deleteOtpCache email type;;
        logger LInfo "Email verified successfully";;
        let token := generateTokens (now e) (tokenPayload user) in
        AuthRepository.updateRefreshToken e (id user) (Some (Token.refreshToken token));;
        ret (AuthDto.toLoginResponse user token)
    | ForgotPassword =>
        AuthRepository.deleteOtpCache email type;;
        ret (RVerified true email)
    end.

Definition resendOtp (e : Env) (payload : ResendOtpInput) : M Response :=
    let email := ro_email payload in
    let type := ro_type payload in
    let* user := AuthRepository.findByEmail e email true in
    match user with
    | None => throwApp (AppErr.notFound "User not found" [])
    | Some _ =>
        let otpCode := generateOtp e in
        let otpExpiresAt := now e + 10 * 60 * 1000 in
        AuthRepository.updateOtp e email otpCode otpExpiresAt;;
        AuthRepository.setOtpCache e email type otpCode;;
        tryCatch
          (sendEmail e email
             (match type with
              | ForgotPassword => "Reset Your Password"
              | EmailVerification => "Verify Your Email Address"
              end);;
           logger LInfo "OTP email sent")
          (fun _ =>
             logger LError "Failed to send OTP email";;
             throwApp (AppErr.badRequest "Failed to send OTP email" []));;
        ret (REmail email)
    end.

Definition forgotPassword (e : Env) (email : string) : M Response :=
    let* user := AuthRepository.findByEmail e email true in
    match user with
    | None => throwApp (AppErr.notFound "User not found"
                          [mkVE "email" "User not found"])
    | Some _ =>
        let otpCode := generateOtp e in
        let otpExpiresAt := now e + 10 * 60 * 1000 in
        AuthRepository.updateOtp e email otpCode otpExpiresAt;;
        AuthRepository.setOtpCache e email ForgotPassword otpCode;;
        tryCatch
          (sendEmail e email "Reset Your Password";;
           logger LInfo "Password reset email sent")
          (fun _ =>
             logger LError "Failed to send password reset email";;
             throwApp (AppErr.badRequest "Failed to send password reset email" []));;
        ret (REmail email)
    end.

Definition resetPassword (e : Env) (payload : ResetPasswordInput) : M Response :=
    let email := rp_email payload in
    let* user := AuthRepository.findByEmail e email false in
    match user with
    | None => throwApp (AppErr.notFound "User not found"
                          [mkVE "email" "User not found"])
    | Some _ =>
        let* updatedUser := AuthRepository.updatePassword e email (rp_password payload) in
        AuthRepository.deleteOtpCache email ForgotPassword;;
        ret (AuthDto.toResponse updatedUser)
    end.

Definition refreshToken (e : Env) (presented : string) : M Response :=
    let* isBlacklisted := AuthRepository.isTokenBlacklisted e presented in
    if isBlacklisted then
      throwApp (AppErr.unauthorized "Token has been revoked" [])
    else
      match verifyRefreshToken (now e) presented with
      | None => throwApp (AppErr.unauthorized "Invalid or expired refresh token" [])
      | Some decoded =>
          let* found :=
            match jwt_id decoded with
            | Some i => AuthRepository.findById e i
            | None => throw (Prisma P_Validation)
            end in
          match found with
          | None => throwApp (AppErr.unauthorized "User not found" [])
          | Some user =>
              if negb (bool_decide (refreshToken user = Some presented)) then
                throwApp (AppErr.unauthorized "Invalid refresh token" [])
              else if negb (isActive user) || isDeleted user then
                throwApp (AppErr.forbidden "Account is deactivated or deleted" [])
              else
                let token := generateTokens (now e) (tokenPayload user) in
                AuthRepository.updateRefreshToken e (id user) (Some (Token.refreshToken token));;
                ret (AuthDto.toLoginResponse user token)
          end
      end.

Definition logout (e : Env) (userId presented : string) : M Response :=
    let* decoded :=
      match verifyRefreshToken (now e) presented with
      | Some d => ret d
      | None => throw JwtError
      end in
    (if truthyZ (jwt_exp decoded) then
       let expiresIn := default 0 (jwt_exp decoded) - now e / 1000 in
       if 0 <? expiresIn
       then AuthRepository.blacklistToken e presented expiresIn
       else ret tt
     else ret tt);;
    AuthRepository.updateRefreshToken e userId None;;
    ret (RMessage "Logged out successfully").

Definition changePassword (e : Env) (userId : string)
      (payload : ChangePasswordInput) : M Response :=
    let* byId := AuthRepository.findById e userId in
    let* found := AuthRepository.findByEmailWithPassword
      (match byId with
       | Some u => if truthy (email u) then email u else ""
       | None => ""
       end) in
    match found with
    | None => throwApp (AppErr.notFound "User not found" [])
    | Some user =>
        if negb (String.eqb (id user) userId) then
          throwApp (AppErr.notFound "User not found" [])
        else if negb (comparePassword (currentPassword payload) (password user)) then
          throwApp (AppErr.badRequest "Current password is incorrect" [])
        else
          let hashedPassword := hashPassword (salt' e) (newPassword payload) in
          let* updatedUser :=
            AuthRepository.updatePassword e (email user) hashedPassword in
          ret (AuthDto.toResponse updatedUser)
    end.

Definition getMe (e : Env) (userId : string) : M Response :=
    let* user := AuthRepository.findById e userId in
    match user with
    | None => throwApp (AppErr.notFound "User not found" [])
    | Some u => ret (AuthDto.toResponse u)
    end.

Definition updateProfile (e : Env) (userId : string)
      (data : UpdateProfileInput) : M Response :=
    let* user := AuthRepository.updateProfile e userId
      (mkUpdate (up_username data) None (up_phone data) None None None None
         None None None (up_profilePicture data)) in
    ret (AuthDto.toResponse user).

  (** [Object.keys(updateData).length > 0] *)
Definition hasKeys (d : UpdateData) : bool :=
    bool_decide (is_Some (d_username d)) || bool_decide (is_Some (d_email d))
    || bool_decide (is_Some (d_phone d)) || bool_decide (is_Some (d_password d))
    || bool_decide (is_Some (d_signupMethod d))
    || bool_decide (is_Some (d_isEmailVerified d))
    || bool_decide (is_Some (d_userType d))
    || bool_decide (is_Some (d_refreshToken d))
    || bool_decide (is_Some (d_otpCode d))
    || bool_decide (is_Some (d_otpExpiresAt d))
    || bool_decide (is_Some (d_profilePicture d)).

Definition googleAuth (e : Env) (payload : GoogleAuthInput) : M Response :=
    let* firebaseUser := verifyFirebaseToken (idToken payload) in
    if negb (truthy (fb_email firebaseUser)) then
      throwApp (AppErr.badRequest "Email is required for Google authentication"
                  [mkVE "idToken" "Email is required for Google authentication"])
    else
      let* existing := AuthRepository.findByEmail e (fb_email firebaseUser) true in
      match existing with
      | Some user =>
          if negb (bool_decide (signupMethod user = GOOGLE)) then
            throwApp (AppErr.conflict
              "An account with this email already exists. Please use email/password login."
              [mkVE "email" "Account already exists with email/password"])
          else
            let setPicture :=
              truthyO (picture firebaseUser)
              && negb (bool_decide (picture firebaseUser = profilePicture user)) in
            let setUsername :=
              truthyO (name firebaseUser)
              && negb (bool_decide (name firebaseUser = Some (username user)))
              && (negb (truthy (username user))
                  || String.eqb (username user) (beforeAt (email user))) in
            let setVerified :=
              emailVerified firebaseUser && negb (isEmailVerified user) in
            let updateData :=
              mkUpdate (if setUsername then name firebaseUser else None)
                None None None None
                (if setVerified then Some true else None)
                None None None None
                (if setPicture then picture firebaseUser else None) in
            let* user :=
              (if hasKeys updateData
               then AuthRepository.updateProfile e (id user) updateData
               else ret user) in
            if negb (isActive user) || isDeleted user then
              throwApp (AppErr.forbidden "Account is deactivated or deleted"
                          [mkVE "email" "Account is deactivated or deleted"])
            else
              let token := generateTokens (now e) (tokenPayload user) in
              AuthRepository.updateRefreshToken e (id user)
                (Some (Token.refreshToken token));;
              ret (AuthDto.toLoginResponse user token)
      | None =>
          let generatedUsername :=
            if truthyO (ga_username payload) then default "" (ga_username payload)
            else if truthyO (name firebaseUser) then default "" (name firebaseUser)
            else beforeAt (fb_email firebaseUser) in
          let randomPassword :=
            "google_" +:+ pretty (now e) +:+ "_" +:+ slice2 (random36 e) in
          let* newUser := AuthRepository.create e
            {| p_username := generatedUsername;
               p_email := fb_email firebaseUser;
               p_phone := if truthyO (phoneNumber firebaseUser)
                          then phoneNumber firebaseUser else None;
               p_password := randomPassword;
               p_signupMethod := GOOGLE;
               p_isEmailVerified := Some (emailVerified firebaseUser);
               p_profilePicture := picture firebaseUser;
               p_userType := Some REGISTERED |} in
          let setVerified :=
            emailVerified firebaseUser && negb (isEmailVerified newUser) in
          let setPicture :=
            truthyO (picture firebaseUser)
            && negb (bool_decide (picture firebaseUser = profilePicture newUser)) in
          let updateData :=
            mkUpdate None None None None None
              (if setVerified then Some true else None)
              None None None None
              (if setPicture then picture firebaseUser else None) in
          let* finalUser :=
            (if hasKeys updateData
             then AuthRepository.updateProfile e (id newUser) updateData
             else ret newUser) in
          let token := generateTokens (now e) (tokenPayload finalUser) in
          AuthRepository.updateRefreshToken e (id finalUser)
            (Some (Token.refreshToken token));;
          logger LInfo "Google user created";;
          ret (AuthDto.toLoginResponse finalUser token)
      end.

Definition guestLogin (e : Env) (username : option string) : M Response :=
    let timestamp := now e in
    let randomSuffix := substring_2_9 (random36 e) in
    let guestEmail :=
      "guest_" +:+ pretty timestamp +:+ "_" +:+ randomSuffix +:+ "@guest.local" in
    let guestUsername :=
      if truthyO username then default "" username
      else "Guest_" +:+ sliceLast6 (pretty timestamp) in
    let randomPassword :=
      "guest_" +:+ pretty timestamp +:+ "_" +:+ slice2 (random36' e) in
    let* guestUser := AuthRepository.create e
      {| p_username := guestUsername;
         p_email := guestEmail;
         p_phone := None;
         p_password := randomPassword;
         p_signupMethod := EMAIL;
         p_isEmailVerified := Some true;
         p_profilePicture := None;
         p_userType := Some GUEST |} in
    let token := generateTokens (now e) (tokenPayload guestUser) in
    AuthRepository.updateRefreshToken e (id guestUser)
      (Some (Token.refreshToken token));;
    logger LInfo "Guest user created";;
    ret (AuthDto.toLoginResponse guestUser token).

Definition convertGuestToRegistered (e : Env) (userId : string)
      (payload : ConvertGuestToRegisteredInput) : M Response :=
    let email := cg_email payload in
    let* found := AuthRepository.findById e userId in
    match found with
    | None => throwApp (AppErr.notFound "User not found" [])
    | Some user =>
        if negb (bool_decide (userType user = GUEST)) then
          throwApp (AppErr.badRequest "User is already registered"
                      [mkVE "userType" "User is already registered"])
        else
          let* existingUser := AuthRepository.findByEmail e email true in
          if match existingUser with
             | Some x => negb (String.eqb (id x) userId)
             | None => false
             end
          then throwApp (AppErr.conflict "Email already exists"
                           [mkVE "email" "Email already exists"])
          else
            AuthRepository.updateProfile e userId
              (mkUpdate
                 (Some (if truthyO (cg_username payload)
                        then default "" (cg_username payload)
                        else username user))
                 (Some email) None (Some (cg_password payload)) (Some EMAIL)
                 None None None None None None);;
            let* finalUser := prisma_user_update e (ById userId)
              (mkUpdate None None None None None (Some false) (Some REGISTERED)
                 None None None None) in
            let token := generateTokens (now e) (tokenPayload finalUser) in
            AuthRepository.updateRefreshToken e (id finalUser)
              (Some (Token.refreshToken token));;
            let otpCode := generateOtp e in
            let otpExpiresAt := now e + 10 * 60 * 1000 in
            AuthRepository.updateOtp e email otpCode otpExpiresAt;;
            AuthRepository.setOtpCache e email EmailVerification otpCode;;
            tryCatch
              (sendEmail e email "Verify Your Email Address";;
               logger LInfo "Verification email sent after guest conversion")
              (fun _ => logger LError "Failed to send verification email");;
            logger LInfo "Guest converted to registered user";;
            ret (AuthDto.toLoginResponse finalUser token)
    end.
End Service.
End AuthService.

(** ** The request gate (auth.middleware) *)

Record Request := mkRequest {
  authorization : option string;
  cookieAccessToken : option string
}.

Definition USER_MIDDLEWARE_CACHE_TTL : Z := 5 * 60.

Section Middleware.
Context `{U : Utils}.

  (** [authHeader?.startsWith('Bearer ') ? authHeader.substring(7)
       : req.cookies?.accessToken] *)
Definition bearerToken (req : Request) : option string :=
    match authorization req with
    | Some h =>
        if String.prefix "Bearer " h
        then Some (String.substring 7 (String.length h - 7) h)
        else cookieAccessToken req
    | None => cookieAccessToken req
    end.

  (** Returns the user attached to the request before [next()]. *)
Definition authenticate (e : Env) (req : Request) : M AuthUser :=
    let token := bearerToken req in
    if negb (truthyO token) then
      throwApp (AppErr.unauthorized "Authentication required. Please login." [])
    else
      let token := default "" token in
      let* isBlacklisted := AuthRepository.isTokenBlacklisted e token in
      if isBlacklisted then
        throwApp (AppErr.unauthorized "Token has been revoked. Please login again." [])
      else
        match verifyToken (now e) token with
        | None =>
            logger LWarn "Token verification failed";;
            throwApp (AppErr.unauthorized
                        "Invalid or expired token. Please login again." [])
        | Some decoded =>
            if negb (truthyO (jwt_id decoded)) then
              throwApp (AppErr.unauthorized "Invalid token payload." [])
            else
              let userId := default "" (jwt_id decoded) in
              let cacheKey := makeKey ["auth"; "user"; userId] in
              let* cached := cacheGetAuthUser (now e) cacheKey in
              let* cachedUser :=
                match cached with
                | Some c => ret c
                | None =>
                    let* found := AuthRepository.findById e userId in
                    match found with
                    | None =>
                        throwApp (AppErr.unauthorized
                                    "User not found. Please login again." [])
                    | Some user =>
                        if negb (isActive user) || isDeleted user then
                          throwApp (AppErr.forbidden
                                      "Account is deactivated or deleted." [])
                        else if negb (isEmailVerified user)
                                && negb (bool_decide (userType user = GUEST)) then
                          throwApp (AppErr.unauthorized
                            "Please verify your email before accessing this resource." [])
                        else
                          let c := {| au_id := id user;
                                      au_username := username user;
                                      au_email := email user;
                                      au_role := role user;
                                      au_userType := userType user;
                                      au_isEmailVerified := isEmailVerified user;
                                      au_isActive := isActive user |} in
                          cacheSet (now e) cacheKey (CAuthUser c)
                            USER_MIDDLEWARE_CACHE_TTL;;
                          ret c
                    end
                end in
              logger LDebug "User authenticated";;
              ret cachedUser
        end.

(** Returns the user attached to the request, if any; [next()] is called
    on every path. *)
Definition optionalAuth (e : Env) (req : Request) : M (option AuthUser) :=
    let token := bearerToken req in
    if negb (truthyO token) then ret None
    else
      let token := default "" token in
      tryCatch
        (let* isBlacklisted := AuthRepository.isTokenBlacklisted e token in
         if isBlacklisted then ret None
         else
           match verifyToken (now e) token with
           | None => throw JwtError
           | Some decoded =>
               if truthyO (jwt_id decoded) then
                 let userId := default "" (jwt_id decoded) in
                 let cacheKey := makeKey ["auth"; "user"; userId] in
                 let* cached := cacheGetAuthUser (now e) cacheKey in
                 match cached with
                 | Some c => ret (Some c)
                 | None =>
                     let* found := AuthRepository.findById e userId in
                     match found with
                     | Some user =>
                         if isActive user && negb (isDeleted user)
                            && isEmailVerified user then
                           let c := {| au_id := id user;
                                       au_username := username user;
                                       au_email := email user;
                                       au_role := role user;
                                       au_userType := userType user;
                                       au_isEmailVerified := isEmailVerified user;
                                       au_isActive := isActive user |} in
                           cacheSet (now e) cacheKey (CAuthUser c)
                             USER_MIDDLEWARE_CACHE_TTL;;
                           ret (Some c)
                         else ret None
                     | None => ret None
                     end
                 end
               else ret None
           end)
        (fun _ =>
           logger LDebug "Optional auth failed - continuing without user";;
           ret None).

Definition roleName (r : Role) : string :=
    match r with USER => "USER" | ADMIN => "ADMIN" end.

(** [authorize(...allowedRoles)] applied to the user of the request. *)
Definition authorize (allowedRoles : list Role) (user : option AuthUser)
    : M unit :=
    match user with
    | None => throwApp (AppErr.unauthorized "Authentication required" [])
    | Some u =>
        if negb (bool_decide (au_role u ∈ allowedRoles)) then
          throwApp (AppErr.forbidden
                      ("Access denied. Required roles: "
                       +:+ String.concat ", " (map roleName allowedRoles)) [])
        else ret tt
    end.

Definition requireEmailVerification (user : option AuthUser) : M unit :=
    match user with
    | None => throwApp (AppErr.unauthorized "Authentication required" [])
    | Some u =>
        if negb (au_isEmailVerified u) then
          throwApp (AppErr.forbidden
                      "Please verify your email before accessing this resource." [])
        else ret tt
    end.
End Middleware.


(** ** A reference instance of the collaborators

    Used to run the operations on concrete inputs. The hash is symbolic:
    the salt and the password are kept apart by a separator, and only a
    hash of the password verifies it. A token spells out its kind, its
    subject and the second at which it lapses. *)

Module Reference.
Fixpoint splitOn (c : ascii) (s : string) : list string :=
    match s with
    | EmptyString => [EmptyString]
    | String a r =>
        if Ascii.eqb a c then EmptyString :: splitOn c r
        else match splitOn c r with
             | x :: xs => String a x :: xs
             | [] => [String a EmptyString]
             end
    end.

Definition digitValue (c : ascii) : option Z :=
    if isDigit c then Some (Z.of_nat (nat_of_ascii c) - 48) else None.

Fixpoint parseDecFrom (acc : Z) (s : string) : option Z :=
    match s with
    | EmptyString => Some acc
    | String c r =>
        match digitValue c with
        | Some d => parseDecFrom (10 * acc + d) r
        | None => None
        end
    end.

Definition parseDec (s : string) : option Z :=
    if truthy s then parseDecFrom 0 s else None.

Definition hash (salt pw : string) : string :=
    "$2b$" +:+ salt +:+ "$" +:+ pw.

Definition compare (pw hashed : string) : bool :=
    match splitOn "$" hashed with
    | "" :: "2b" :: _ :: rest => String.eqb (String.concat "$" rest) pw
    | _ => false
    end.

Definition ACCESS_TTL : Z := 15 * 60.
Definition REFRESH_TTL : Z := 7 * 24 * 60 * 60.

Definition sign (kind : string) (t : Z) (ttl : Z) (p : TokenPayload) : string :=
    kind +:+ "." +:+ tp_id p +:+ "." +:+ pretty (t / 1000 + ttl).

Definition decode (kind : string) (token : string) : option JwtPayload :=
    match splitOn "." token with
    | [k; i; x] =>
        if String.eqb k kind then
          match parseDec x with
          | Some exp => Some (mkJwt (Some i) (Some exp))
          | None => None
          end
        else None
    | _ => None
    end.

Definition firebase (idToken : string) : option DecodedIdToken :=
    match splitOn ":" idToken with
    | ["google"; u; mail] =>
        Some (mkDecoded u (Some mail) (Some true) (Some u) None None)
    | _ => None
    end.

#[export] Instance utils : Utils := {|
    hashPassword := hash;
    comparePassword := compare;
    generateTokens := fun t p =>
      Token.mk (sign "access" t ACCESS_TTL p) (sign "refresh" t REFRESH_TTL p);
    decodeAccess := decode "access";
    decodeRefresh := decode "refresh";
    verifyIdToken := firebase
  |}.
End Reference.

(** ** Running the operations *)

Definition st0 : State := mkState [] ∅ [].

Definition run {A} (m : M A) (s : State) : Result A := fst (m s).
Definition exec {A} (m : M A) (s : State) : State := snd (m s).

Definition isOk {A} (r : Result A) : bool :=
  match r with Ok _ => true | Throw _ => false end.

Definition threwStatus {A} (r : Result A) : option HttpStatusCode :=
  match r with Throw (App e) => Some (statusCode e) | _ => None end.

Definition threwMessage {A} (r : Result A) : option string :=
  match r with Throw (App e) => Some (message e) | _ => None end.

Module Scenario.
Import Reference.

Definition env (t : Z) (r : Z) (i : string) (mail : bool) : Env :=
    mkEnv t r i "saltA" "saltB" "0.k3j9x2m7q" "0.z8y7x6w5v" mail.

Definition alice : SignupInput :=
    mkSignup "alice" "a@x.com" None "Secret123!" EMAIL.

  (** signup at t = 1000 s, code 123456 *)
Definition afterSignup : State :=
    exec (AuthService.signup (env 1000000 23456 "u1" true) alice) st0.

(** A deactivated row and a soft-deleted row, as an administrator or
    the delete hook of the extension leaves them. *)
Definition carol : User :=
    mkUser "u8" "carol" "c@x.com" true None (hash "saltC" "CarolPw1!") USER
      REGISTERED None EMAIL false false None None None None.

Definition dave : User :=
    mkUser "u9" "dave" "d@x.com" true None (hash "saltD" "DavePw1!") USER
      REGISTERED None EMAIL true true (Some 500000) None None None.

Definition stCarolDave : State := mkState [carol; dave] ∅ [].

Definition afterVerify : State :=
    exec (AuthService.verifyOtp (env 1060000 0 "" true)
            (mkVerifyOtp "a@x.com" "123456" EmailVerification)) afterSignup.

(** alice logs in at t = 1070 s and holds the refresh token of that
    login. *)
Definition afterLogin : State :=
    exec (AuthService.login (env 1070000 0 "" true)
            (mkLogin "a@x.com" "Secret123!")) afterVerify.

Definition aliceRefresh : string := "refresh.u1.605870".

Definition afterChange : State :=
    exec (AuthService.changePassword (env 1080000 0 "" true) "u1"
            (mkChange "Secret123!" "NewSecret456!")) afterLogin.

Definition afterReset : State :=
    exec (AuthService.resetPassword (env 1080000 0 "" true)
            (mkReset "a@x.com" "NewSecret456!")) afterLogin.

(** A guest logs in at t = 3000 s, calls a protected route, converts the
    account at t = 3020 s and calls a protected route again with the
    access token of the guest login. *)
Definition guestBearer : Request :=
    mkRequest (Some "Bearer access.g1.3900") None.

Definition afterGuestLogin : State :=
    exec (AuthService.guestLogin (env 3000000 0 "g1" true) None) afterLogin.

Definition afterGuestRequest : State :=
    exec (authenticate (env 3010000 0 "" true) guestBearer) afterGuestLogin.

Definition afterConvert : State :=
    exec (AuthService.convertGuestToRegistered (env 3020000 33333 "" true) "g1"
            (mkConvert "g@x.com" "GuestPw1!" None)) afterGuestRequest.

(** After the signup, a password reset is requested at t = 1100 s: the
    row now carries the code 222222, the cache one code per purpose. *)
Definition afterForgot : State :=
    exec (AuthService.forgotPassword (env 1100000 122222 "" true) "a@x.com")
      afterSignup.

Definition afterForgotVerified : State :=
    exec (AuthService.verifyOtp (env 1200000 0 "" true)
            (mkVerifyOtp "a@x.com" "222222" ForgotPassword)) afterForgot.
End Scenario.

(** ** Notions used in the statements *)

(** The four keys a response must not carry. *)
Definition sanitized (v : UserView) : Prop :=
  v_password v = None /\ v_otpCode v = None
  /\ v_otpExpiresAt v = None /\ v_refreshToken v = None.

Definition userOf (r : Response) : option UserView :=
  match r with
  | RUser u | RLogin u _ => Some u
  | _ => None
  end.

Definition safeResponse (r : Response) : Prop :=
  forall v, userOf r = Some v -> sanitized v.

(** Every value a computation returns satisfies [Q]. *)
Definition returns {A} (m : M A) (Q : A -> Prop) : Prop :=
  forall st a st', m st = (Ok a, st') -> Q a.

(** The calls of the controller. *)
Inductive Operation :=
  | OpSignup (p : SignupInput)
  | OpLogin (p : LoginInput)
  | OpVerifyOtp (p : VerifyOtpInput)
  | OpResetPassword (p : ResetPasswordInput)
  | OpRefreshToken (presented : string)
  | OpChangePassword (userId : string) (p : ChangePasswordInput)
  | OpGetMe (userId : string)
  | OpUpdateProfile (userId : string) (p : UpdateProfileInput)
  | OpGoogleAuth (p : GoogleAuthInput)
  | OpGuestLogin (username : option string)
  | OpConvertGuestToRegistered (userId : string) (p : ConvertGuestToRegisteredInput)
  | OpResendOtp (p : ResendOtpInput)
  | OpForgotPassword (email : string)
  | OpLogout (userId presented : string).

Definition perform `{U : Utils} (e : Env) (op : Operation) : M Response :=
  match op with
  | OpSignup p => AuthService.signup e p
  | OpLogin p => AuthService.login e p
  | OpVerifyOtp p => AuthService.verifyOtp e p
  | OpResetPassword p => AuthService.resetPassword e p
  | OpRefreshToken t => AuthService.refreshToken e t
  | OpChangePassword i p => AuthService.changePassword e i p
  | OpGetMe i => AuthService.getMe e i
  | OpUpdateProfile i p => AuthService.updateProfile e i p
  | OpGoogleAuth p => AuthService.googleAuth e p
  | OpGuestLogin n => AuthService.guestLogin e n
  | OpConvertGuestToRegistered i p => AuthService.convertGuestToRegistered e i p
  | OpResendOtp p => AuthService.resendOtp e p
  | OpForgotPassword m => AuthService.forgotPassword e m
  | OpLogout i t => AuthService.logout e i t
  end.

(** The same call with the mail transport working or failing. *)
Definition withMail (b : bool) (e : Env) : Env :=
  mkEnv (now e) (otpRandom e) (uuid e) (salt e) (salt' e)
    (random36 e) (random36' e) b.

(** The two errors of a login that must not tell an unknown email from a
    wrong password. *)
Definition invalidCredentials : AppError :=
  AppErr.unauthorized "Invalid email or password"
    [mkVE "email" "Invalid email or password"].

Definition emailExists : AppError :=
  mkAppError "Email already exists" CONFLICT
    [mkVE "email" "Email already exists"].

(** The code staged for (email, type) as the spec words it: the cache
    entry of that key, and the copy on the row when there is no live
    entry and its expiry lies ahead. *)
Definition stagedOtp (t : Z) (st : State) (email : string) (type : OtpType)
  : option string :=
  match liveString t (cache st) (makeKey ["otp"; otpTypeName type; email]) with
  | Some c => Some c
  | None =>
      match find (matches (ByEmail email)) (db st) with
      | Some u =>
          match otpCode u, otpExpiresAt u with
          | Some c, Some x => if t <? x then Some c else None
          | _, _ => None
          end
      | None => None
      end
  end.

(** What the code of [verifyOtp] accepts: the live cache entry of the
    key, or else the code on the row found by email while the clock has
    not passed its expiry. *)
Definition otpAccepted (t : Z) (st : State) (email otp : string)
    (type : OtpType) : Prop :=
  liveString t (cache st) (makeKey ["otp"; otpTypeName type; email]) = Some otp
  \/ exists u x,
       find (matches (ByEmail email)) (db st) = Some u
       /\ otpCode u = Some otp /\ otpExpiresAt u = Some x /\ t <= x.

(** The projection of a row that the request gate attaches to the
    request. *)
Definition projection (user : User) : AuthUser :=
  {| au_id := id user;
     au_username := username user;
     au_email := email user;
     au_role := role user;
     au_userType := userType user;
     au_isEmailVerified := isEmailVerified user;
     au_isActive := isActive user |}.

Definition invalidOtp : AppError :=
  AppErr.badRequest "Invalid or expired OTP code"
    [mkVE "otp" "Invalid or expired OTP code"].

Definition userNotFound : AppError :=
  AppErr.notFound "User not found" [mkVE "email" "User not found"].

Definition unverifiedLogin : AppError :=
  AppErr.unauthorized "Please verify your email before logging in"
    [mkVE "email" "Please verify your email before logging in"].

Definition expiredOtp : AppError :=
  AppErr.badRequest "OTP code has expired"
    [mkVE "otp" "OTP code has expired"].

(** A user cached under the key of an id is a user of that id. *)
Definition userCacheCoherent (st : State) : Prop :=
  forall (i : string) (en : CacheEntry) (u : User),
    cache st !! makeKey ["user"; i] = Some en ->
    value en = CUser u -> id u = i.

(** A computation keeps an invariant of the state, also when it throws. *)
Definition preserves (I : State -> Prop) {A} (m : M A) : Prop :=
  forall st, I st -> I (snd (m st)).

(** The states the service and the request gate can bring about. *)
Inductive reachable `{U : Utils} : State -> Prop :=
  | reach_init : reachable st0
  | reach_perform (e : Env) (op : Operation) (st : State) :
      reachable st -> reachable (exec (perform e op) st)
  | reach_authenticate (e : Env) (req : Request) (st : State) :
      reachable st -> reachable (exec (authenticate e req) st).


(** Every stored row and every cached user satisfies [P]; every user the
    request gate has cached satisfies [Q]. *)
Definition usersSatisfy (P : User -> Prop) (Q : AuthUser -> Prop)
    (st : State) : Prop :=
  (forall u, In u (db st) -> P u)
  /\ (forall k en u, cache st !! k = Some en -> value en = CUser u -> P u)
  /\ (forall k en c, cache st !! k = Some en -> value en = CAuthUser c -> Q c).

(** The updates the service issues: none makes a row a guest, and one
    that withdraws the verification makes the row REGISTERED. *)
Definition benign (d : UpdateData) : Prop :=
  d_userType d = Some REGISTERED
  \/ (d_userType d = None /\ d_isEmailVerified d <> Some false).

(** No stored, cached or attached user is an administrator. *)
Definition onlyUsers : State -> Prop :=
  usersSatisfy (fun u => role u = USER) (fun c => au_role c = USER).

(** Every guest is verified, and the gate has cached verified users
    only. *)
Definition guestsVerified : State -> Prop :=
  usersSatisfy (fun u => userType u = GUEST -> isEmailVerified u = true)
    (fun c => au_isEmailVerified c = true).
(** * Properties *)

Example cache_roundtrip :
  fst ((cacheSet 5 (makeKey ["otp"; "forgotPassword"; "a@x.com"]) (CString "123456") 600;;
        cacheGetString 6 (makeKey ["otp"; "forgotPassword"; "a@x.com"])) st0)
  = Ok (Some "123456").
Proof. vm_compute. reflexivity. Qed.

Example generateOtp_ex :
  generateOtp (mkEnv 0 23456 "" "" "" "" "" true) = "123456"
  /\ sixDigits "123456" = true /\ sliceLast6 "1700000123456" = "123456"
  /\ slice2 "0.abcdefghijk" = "abcdefghijk"
  /\ substring_2_9 "0.abcdefghijk" = "abcdefg"
  /\ beforeAt "alice@x.com" = "alice".
Proof. vm_compute. repeat split. Qed.

(** The scenario of the spec: signup, verification of the code, login. *)
Example signup_verify_login :
  let e := Scenario.env 1070000 0 "" true in
  isOk (run (AuthService.login (U := Reference.utils) e
               (mkLogin "a@x.com" "Secret123!")) Scenario.afterVerify) = true
  /\ threwMessage (run (AuthService.login (U := Reference.utils) e
               (mkLogin "a@x.com" "Secret123")) Scenario.afterVerify)
     = Some "Invalid email or password".
Proof. vm_compute. split; reflexivity. Qed.

(** ** The cache and the table *)

Lemma live_delete_eq (t : Z) (c : Cache) (k : CacheKey) :
  live t (delete k c) k = None.
Proof. unfold live. by rewrite lookup_delete_eq. Qed.

Lemma live_delete_ne (t : Z) (c : Cache) (k k' : CacheKey) :
  k ≠ k' -> live t (delete k c) k' = live t c k'.
Proof. intros. unfold live. by rewrite lookup_delete_ne. Qed.

Lemma live_insert_ne (t : Z) (c : Cache) (k k' : CacheKey) (en : CacheEntry) :
  k ≠ k' -> live t (<[k := en]> c) k' = live t c k'.
Proof. intros. unfold live. by rewrite lookup_insert_ne. Qed.

Lemma live_insert_eq (t : Z) (c : Cache) (k : CacheKey) (en : CacheEntry) :
  live t (<[k := en]> c) k = if t <? expiresAt en then Some (value en) else None.
Proof. unfold live. by rewrite lookup_insert_eq. Qed.

Lemma sixDigits_truthy (otp : string) : sixDigits otp = true -> truthy otp = true.
Proof. by destruct otp. Qed.

Lemma find_updateFirst_same (p : User -> bool) (f : User -> User) (l : list User) :
  (forall u, p u = true -> p (f u) = true) ->
  find p (updateFirst p f l) = f <$> find p l.
Proof.
  intros Hp. induction l as [|u r IH]; simpl; [done|].
  destruct (p u) eqn:Hu; simpl.
  - by rewrite (Hp u Hu).
  - by rewrite Hu.
Qed.

(** A search that the update does not disturb finds the same row, or its
    updated version. *)
Lemma find_updateFirst_other (p q : User -> bool) (f : User -> User) (l : list User) :
  (forall u, p (f u) = p u) ->
  match find p l with
  | None => find p (updateFirst q f l) = None
  | Some r => find p (updateFirst q f l) = Some r
              \/ find p (updateFirst q f l) = Some (f r)
  end.
Proof.
  intros Hp. induction l as [|u r IH]; simpl; [done|].
  destruct (q u) eqn:Hq; simpl.
  - rewrite Hp. destruct (p u); [by right|].
    destruct (find p r); auto.
  - destruct (p u); [by left|]. exact IH.
Qed.

Section Facts.
Context `{U : Utils}.

(** ** Closed forms of the repository calls *)

Lemma prisma_user_update_eq (e : Env) (w : Where) (data : UpdateData) (st : State) :
  prisma_user_update e w data st =
  match find (matches w) (db st) with
  | None => (Throw (Prisma P2025_NotFound), st)
  | Some u =>
      if touchesUnique (hashedData e data)
         && existsb (fun v => negb (String.eqb (id v) (id u))
                              && clashes (applyData (hashedData e data) u) v) (db st)
      then (Throw (Prisma P2002_Unique), st)
      else (Ok (applyData (hashedData e data) u),
            mkState (updateFirst (matches w) (applyData (hashedData e data)) (db st))
              (cache st) (logs st))
  end.
Proof.
  unfold prisma_user_update, bind, getDb. simpl.
  destruct (find (matches w) (db st)); [|done].
  by destruct (touchesUnique _ && _).
Qed.

Lemma findByEmail_nocache_eq (e : Env) (email : string) (st : State) :
  AuthRepository.findByEmail e email false st
  = (Ok (find (matches (ByEmail email)) (db st)), st).
Proof.
  unfold AuthRepository.findByEmail, bind, ret, findUnique, getDb. simpl.
  by destruct (find _ _).
Qed.

(** ** C10 *)

(** C10. When the live cache entry for (email, forgotPassword) holds the
    submitted six-digit code, [verifyOtp] returns
    [{ verified: true, email }] whatever the table holds (also when it
    holds no row for the email); the table and the log are left as they
    were and only the cache entry is deleted. *)
Theorem verifyOtp_forgotPassword_cache_hit
    (e : Env) (st : State) (email otp : string) :
  sixDigits otp = true ->
  run (AuthRepository.getOtpCache e email ForgotPassword) st = Ok (Some otp) ->
  AuthService.verifyOtp e (mkVerifyOtp email otp ForgotPassword) st
  = (Ok (RVerified true email),
     mkState (db st)
       (delete (makeKey ["otp"; "forgotPassword"; email]) (cache st))
       (logs st)).
Proof.
  intros Hd Hc. apply sixDigits_truthy in Hd.
  unfold run in Hc. simpl in Hc. injection Hc as Hc.
  unfold AuthService.verifyOtp, AuthService.checkOtp, bind. simpl.
  rewrite Hc. simpl. rewrite Hd, bool_decide_eq_true_2 by done. reflexivity.
Qed.

(** ** C6 *)

(** C6, as amended. In one state, a login for an email with no row and a
    login for the email of an active, non-deleted row with a password
    that does not verify end alike: the same Unauthorized error with the
    message "Invalid email or password", and the state untouched. *)
Theorem login_enumeration_resistance
    (e1 e2 : Env) (st : State) (p1 p2 : LoginInput) (u : User) :
  find (matches (ByEmail (li_email p1))) (db st) = None ->
  find (matches (ByEmail (li_email p2))) (db st) = Some u ->
  isActive u = true -> isDeleted u = false ->
  comparePassword (li_password p2) (password u) = false ->
  AuthService.login e1 p1 st = (Throw (App invalidCredentials), st)
  /\ AuthService.login e2 p2 st = (Throw (App invalidCredentials), st).
Proof.
  intros H1 H2 Ha Hdel Hpw.
  unfold AuthService.login, AuthRepository.findByEmailWithPassword,
    findUnique, bind, getDb. simpl.
  rewrite H1, H2, Ha, Hdel, Hpw. simpl. split; reflexivity.
Qed.

(** A row that is deactivated or deleted answers Forbidden before the
    password is looked at. *)
Lemma login_inactive_forbidden (e : Env) (st : State) (p : LoginInput) (u : User) :
  find (matches (ByEmail (li_email p))) (db st) = Some u ->
  isActive u = false \/ isDeleted u = true ->
  threwStatus (run (AuthService.login e p) st) = Some FORBIDDEN.
Proof.
  intros H [Hx|Hx];
    unfold run, AuthService.login, AuthRepository.findByEmailWithPassword,
      findUnique, bind, getDb; simpl; rewrite H, Hx; simpl; [done|].
  by destruct (isActive u).
Qed.

End Facts.

Lemma verifyOtp_forgotPassword_cache_hit_witness :
  let e := Scenario.env 5000 0 "" true in
  let st := mkState []
    {[ makeKey ["otp"; "forgotPassword"; "ghost@x.com"] := mkEntry (CString "654321") 600000 ]}
    [] in
  AuthService.verifyOtp (U := Reference.utils) e
    (mkVerifyOtp "ghost@x.com" "654321" ForgotPassword) st
  = (Ok (RVerified true "ghost@x.com"),
     mkState [] (delete (makeKey ["otp"; "forgotPassword"; "ghost@x.com"]) (cache st)) []).
Proof.
  intros e st.
  apply (verifyOtp_forgotPassword_cache_hit (U := Reference.utils) e st
           "ghost@x.com" "654321"); vm_compute; reflexivity.
Defined.

Lemma login_enumeration_resistance_witness :
  let e := Scenario.env 1070000 0 "" true in
  AuthService.login (U := Reference.utils) e (mkLogin "nobody@x.com" "Secret123!")
    Scenario.afterVerify
  = (Throw (App invalidCredentials), Scenario.afterVerify)
  /\ AuthService.login (U := Reference.utils) e (mkLogin "a@x.com" "secret123")
       Scenario.afterVerify
     = (Throw (App invalidCredentials), Scenario.afterVerify).
Proof.
  intros e.
  eapply (login_enumeration_resistance (U := Reference.utils) e e
            Scenario.afterVerify (mkLogin "nobody@x.com" "Secret123!")
            (mkLogin "a@x.com" "secret123"));
    vm_compute; reflexivity.
Defined.

(** C6, counterexample. With a deactivated row in the table, the login
    for an unknown email answers Unauthorized and the login for the
    deactivated row with a wrong password answers Forbidden: the two runs
    differ in status and message. *)
Lemma login_deactivated_distinguishable :
  let e := Scenario.env 1070000 0 "" true in
  let st := Scenario.stCarolDave in
  find (matches (ByEmail "nobody@x.com")) (db st) = None
  /\ find (matches (ByEmail "c@x.com")) (db st) = Some Scenario.carol
  /\ @comparePassword Reference.utils "wrong" (password Scenario.carol) = false
  /\ run (AuthService.login (U := Reference.utils) e (mkLogin "nobody@x.com" "wrong")) st
     = Throw (App invalidCredentials)
  /\ run (AuthService.login (U := Reference.utils) e (mkLogin "c@x.com" "wrong")) st
     = Throw (App (AppErr.forbidden "Account is deactivated"
                     [mkVE "email" "Account is deactivated"])).
Proof. vm_compute. repeat split. Qed.

Section SignupFacts.
Context `{U : Utils}.

Lemma prisma_user_update_throws (e : Env) (w : Where) (data : UpdateData)
    (st : State) (x : Thrown) (st' : State) :
  prisma_user_update e w data st = (Throw x, st') ->
  (exists pe, x = Prisma pe) /\ st' = st.
Proof.
  rewrite prisma_user_update_eq.
  destruct (find _ _); [destruct (_ && _)|]; intros [= <- <-]; eauto.
Qed.

Lemma prisma_user_create_throws (e : Env) (c : CreateData)
    (st : State) (x : Thrown) (st' : State) :
  prisma_user_create e c st = (Throw x, st') ->
  (exists pe, x = Prisma pe) /\ st' = st.
Proof.
  unfold prisma_user_create, bind, getDb, setDb, throw, ret. simpl.
  destruct (existsb _ _); intros [= <- <-]; eauto.
Qed.

Lemma bind_eq {A B} (m : M A) (k : A -> M B) (st : State) :
  bind m k st = match m st with
                | (Ok a, s') => k a s'
                | (Throw x, s') => (Throw x, s')
                end.
Proof. reflexivity. Qed.

Lemma findByEmail_cache_eq (e : Env) (email : string) (st : State) :
  AuthRepository.findByEmail e email true st =
  match liveUser (now e) (cache st) (makeKey ["user"; "email"; email]) with
  | Some u => (Ok (Some u), st)
  | None =>
      match find (matches (ByEmail email)) (db st) with
      | Some u =>
          (Ok (Some u),
           mkState (db st)
             (<[makeKey ["user"; "email"; email] :=
                  mkEntry (CUser u) (now e + USER_CACHE_TTL * 1000)]> (cache st))
             (logs st))
      | None => (Ok None, st)
      end
  end.
Proof.
  unfold AuthRepository.findByEmail, bind, ret, findUnique, getDb,
    cacheGetUser, getCache. simpl.
  destruct (liveUser _ _ _); [done|]. simpl. by destruct (find _ _).
Qed.

Lemma findByEmail_db (e : Env) (email : string) (b : bool) (st : State) :
  db (snd (AuthRepository.findByEmail e email b st)) = db st.
Proof.
  destruct b; [rewrite findByEmail_cache_eq|by rewrite findByEmail_nocache_eq].
  destruct (liveUser _ _ _); [done|]. by destruct (find _ _).
Qed.

(** ** C5 *)

(** C5, as amended. [signup] fails with Conflict "Email already exists"
    exactly when [findByEmail] finds a user for the email, in a live
    entry of the user cache or in a row of the table, whether or not
    that row is soft-deleted; in that case the table is left as it was. *)
Theorem signup_conflict (e : Env) (p : SignupInput) (st : State) :
  (run (AuthService.signup e p) st = Throw (App emailExists)
   <-> is_Some (liveUser (now e) (cache st) (makeKey ["user"; "email"; su_email p]))
       \/ is_Some (find (matches (ByEmail (su_email p))) (db st)))
  /\ (run (AuthService.signup e p) st = Throw (App emailExists) ->
      db (exec (AuthService.signup e p) st) = db st).
Proof.
  unfold run, exec, AuthService.signup. rewrite bind_eq, findByEmail_cache_eq.
  destruct (liveUser _ _ _) as [c|] eqn:Hc; simpl.
  { split; [split; eauto|done]. }
  destruct (find _ _) as [u|] eqn:Hf; simpl.
  { split; [split; eauto|done]. }
  match goal with |- (fst ?x = _ <-> _) /\ _ =>
    assert (Hx : fst x <> Throw (App emailExists)) end.
  { unfold AuthRepository.create, AuthRepository.updateOtp,
      AuthRepository.setOtpCache, tryCatch, sendEmail.
    rewrite !bind_eq.
    destruct (prisma_user_create _ _ _) as [[a|x] s1] eqn:Hcr.
    2:{ apply prisma_user_create_throws in Hcr as [[pe ->] _]. done. }
    simpl. rewrite !bind_eq.
    match goal with |- context [prisma_user_update ?a ?b ?c ?d] =>
      destruct (prisma_user_update a b c d) as [[a'|x'] s2] eqn:Hup end.
    2:{ apply prisma_user_update_throws in Hup as [[pe ->] _]. done. }
    simpl. destruct (emailDelivered e); simpl; done. }
  split; [|done]. split; [done|].
  intros [[? [=]]|[? [=]]].
Qed.

End SignupFacts.

(** C5, counterexample. The email of a soft-deleted row is refused with
    Conflict like any other known email. *)
Lemma signup_soft_deleted_email_conflict :
  let e := Scenario.env 2000000 11111 "u10" true in
  find (matches (ByEmail "d@x.com")) (db Scenario.stCarolDave) = Some Scenario.dave
  /\ isDeleted Scenario.dave = true
  /\ run (AuthService.signup (U := Reference.utils) e
            (mkSignup "dave2" "d@x.com" None "Another1!" EMAIL)) Scenario.stCarolDave
     = Throw (App emailExists).
Proof. vm_compute. repeat split. Qed.

Section PasswordFacts.
Context `{U : Utils}.

Lemma updatePassword_ok (e : Env) (mail pw : string) (st : State)
    (u' : User) (st' : State) :
  truthy pw = true ->
  AuthRepository.updatePassword e mail pw st = (Ok u', st') ->
  password u' = hashPassword (salt e) pw
  /\ find (matches (ByEmail mail)) (db st') = Some u'
  /\ exists u, find (matches (ByEmail mail)) (db st) = Some u
       /\ id u' = id u /\ email u' = email u.
Proof.
  intros Hpw. unfold AuthRepository.updatePassword. rewrite bind_eq.
  rewrite prisma_user_update_eq.
  destruct (find _ (db st)) as [u|] eqn:Hf; [|done].
  unfold hashedData. simpl. rewrite Hpw. simpl.
  intros [= <- <-]. simpl. split; [done|]. split; [|eauto].
  rewrite find_updateFirst_same, Hf; [done|].
  intros v Hv. exact Hv.
Qed.

(** The sibling path: [resetPassword] hands the clear password to the
    repository, and the extension hashes it once. *)
Lemma resetPassword_stores_hash (e : Env) (p : ResetPasswordInput)
    (st : State) (r : Response) (st' : State) :
  truthy (rp_password p) = true ->
  AuthService.resetPassword e p st = (Ok r, st') ->
  exists u', find (matches (ByEmail (rp_email p))) (db st') = Some u'
    /\ password u' = hashPassword (salt e) (rp_password p).
Proof.
  intros Hpw. unfold AuthService.resetPassword.
  rewrite bind_eq, findByEmail_nocache_eq.
  destruct (find _ _) as [u|]; [|done].
  rewrite bind_eq.
  destruct (AuthRepository.updatePassword _ _ _ _) as [[u'|x] s1] eqn:Hup; [|done].
  apply updatePassword_ok in Hup as (Hp & Hf & _); [|done].
  intros [= _ <-]. exists u'. simpl. by split.
Qed.

(** [changePassword] hashes the new password itself and hands the hash to
    the repository, where the extension hashes it again: the row holds
    the hash of the hash. *)
Lemma changePassword_stores_double_hash (e : Env) (userId : string)
    (p : ChangePasswordInput) (st : State) (r : Response) (st' : State) :
  truthy (hashPassword (salt' e) (newPassword p)) = true ->
  AuthService.changePassword e userId p st = (Ok r, st') ->
  exists u', id u' = userId
    /\ find (matches (ByEmail (email u'))) (db st') = Some u'
    /\ password u' = hashPassword (salt e) (hashPassword (salt' e) (newPassword p)).
Proof.
  intros Hpw. unfold AuthService.changePassword.
  rewrite bind_eq.
  destruct (AuthRepository.findById e userId st) as [[byId|x] s1]; [|done].
  rewrite bind_eq. unfold AuthRepository.findByEmailWithPassword, findUnique.
  rewrite bind_eq. simpl.
  destruct (find _ _) as [u|] eqn:Hf; [|done].
  destruct (String.eqb (id u) userId) eqn:Hid; [|done]. simpl.
  destruct (comparePassword _ _); [|done]. simpl.
  rewrite bind_eq.
  destruct (AuthRepository.updatePassword _ _ _ _) as [[u'|x] s2] eqn:Hup; [|done].
  apply updatePassword_ok in Hup as (Hp & Hf' & v & Hv & Hi & He); [|done].
  intros [= _ <-]. exists u'.
  assert (Hvu : v = u).
  { destruct (find_some _ _ Hf) as [_ Hm]. simpl in Hm.
    apply String.eqb_eq in Hm. rewrite <- Hm in Hf. congruence. }
  subst v. apply String.eqb_eq in Hid.
  rewrite He. repeat split; congruence.
Qed.

(** A current password that does not verify is refused with BadRequest. *)
Lemma changePassword_needs_current (e : Env) (userId : string)
    (p : ChangePasswordInput) (st : State) (u : User) :
  run (AuthRepository.findById e userId) st = Ok (Some u) ->
  truthy (email u) = true ->
  find (matches (ByEmail (email u))) (db st) = Some u ->
  id u = userId ->
  comparePassword (currentPassword p) (password u) = false ->
  run (AuthService.changePassword e userId p) st
  = Throw (App (AppErr.badRequest "Current password is incorrect" [])).
Proof.
  intros Hby Ht Hf Hi Hc. unfold run, AuthService.changePassword in *.
  rewrite bind_eq.
  destruct (AuthRepository.findById e userId st) as [[byId|x] s1] eqn:Hb;
    simpl in Hby; [|done].
  injection Hby as ->. rewrite Ht.
  assert (Hdb : db s1 = db st).
  { unfold AuthRepository.findById, cacheGetUser, findUnique, cacheSet in Hb.
    simpl in Hb. unfold bind, ret, getCache, getDb, setCache in Hb. simpl in Hb.
    destruct (liveUser _ _ _); [by injection Hb as _ <-|].
    destruct (find _ _); by injection Hb as _ <-. }
  unfold AuthRepository.findByEmailWithPassword, findUnique.
  rewrite !bind_eq. simpl. rewrite Hdb, Hf.
  apply String.eqb_eq in Hi. rewrite Hi. simpl. by rewrite Hc.
Qed.

End PasswordFacts.

(** C2, at a concrete input. alice, whose password is "Secret123!",
    changes it to "NewSecret456!": the call succeeds, the row then holds
    the hash of the hash of the new password, the new password does not
    verify against it and the login with it is refused; the same
    password set through [resetPassword] verifies. *)
Theorem changePassword_new_password_does_not_verify :
  let e := Scenario.env 1080000 0 "" true in
  let e' := Scenario.env 1090000 0 "" true in
  isOk (run (AuthService.changePassword (U := Reference.utils) e "u1"
               (mkChange "Secret123!" "NewSecret456!")) Scenario.afterLogin) = true
  /\ password <$> find (matches (ById "u1")) (db Scenario.afterChange)
     = Some (Reference.hash "saltA" (Reference.hash "saltB" "NewSecret456!"))
  /\ (fun u => @comparePassword Reference.utils "NewSecret456!" (password u))
       <$> find (matches (ById "u1")) (db Scenario.afterChange)
     = Some false
  /\ run (AuthService.login (U := Reference.utils) e'
            (mkLogin "a@x.com" "NewSecret456!")) Scenario.afterChange
     = Throw (App invalidCredentials)
  /\ isOk (run (AuthService.login (U := Reference.utils) e'
            (mkLogin "a@x.com" "NewSecret456!")) Scenario.afterReset) = true.
Proof.
  vm_compute. repeat split.
Qed.

Section LogoutFacts.
Context `{U : Utils}.

Lemma updateRefreshToken_eq (e : Env) (userId : string) (t : option string)
    (st : State) :
  AuthRepository.updateRefreshToken e userId t st =
  match find (matches (ById userId)) (db st) with
  | None => (Throw (Prisma P2025_NotFound), st)
  | Some u =>
      let d := mkUpdate None None None None None None None (Some t)
                 None None None in
      (Ok (applyData d u),
       mkState (updateFirst (matches (ById userId)) (applyData d) (db st))
         (delete (makeKey ["user"; userId]) (cache st)) (logs st))
  end.
Proof.
  unfold AuthRepository.updateRefreshToken. rewrite bind_eq, prisma_user_update_eq.
  by destruct (find _ _).
Qed.

(** A token that [verifyRefreshToken] rejects makes [logout] throw at its
    first statement: nothing is written. *)
Lemma logout_rejected_token (e : Env) (userId presented : string) (st : State) :
  verifyRefreshToken (now e) presented = None ->
  AuthService.logout e userId presented st = (Throw JwtError, st).
Proof.
  intros Hv. unfold AuthService.logout. rewrite bind_eq, Hv. reflexivity.
Qed.

(** A token that verifies and carries an expiry is put on the blacklist
    for the seconds it has left, and the stored refresh token of the row
    is cleared. *)
Lemma logout_valid_token (e : Env) (userId presented : string) (st : State)
    (d : JwtPayload) (exp : Z) (u : User) :
  verifyRefreshToken (now e) presented = Some d ->
  jwt_exp d = Some exp -> exp <> 0 ->
  find (matches (ById userId)) (db st) = Some u ->
  let st' := exec (AuthService.logout e userId presented) st in
  run (AuthService.logout e userId presented) st
  = Ok (RMessage "Logged out successfully")
  /\ cache st' !! makeKey ["blacklist"; "token"; presented]
     = Some (mkEntry (CString "1") (now e + (exp - now e / 1000) * 1000))
  /\ 0 < exp - now e / 1000
  /\ (refreshToken <$> find (matches (ById userId)) (db st')) = Some None.
Proof.
  intros Hv Hexp Hnz Hf. unfold run, exec, AuthService.logout.
  rewrite bind_eq, Hv. simpl. rewrite bind_eq.
  unfold truthyZ. rewrite Hexp. simpl.
  assert (Hlt : (now e / 1000 <? exp) = true).
  { unfold verifyRefreshToken in Hv. destruct (decodeRefresh presented) as [d'|]; [|done].
    unfold unexpired in Hv. destruct (jwt_exp d') as [x|] eqn:Hx.
    - destruct (now e / 1000 <? x) eqn:Hl; [|done].
      injection Hv as ->. congruence.
    - injection Hv as ->. congruence. }
  assert (Hpos : (0 <? exp - now e / 1000) = true) by lia.
  rewrite Hpos. replace (exp =? 0) with false by lia. simpl.
  rewrite bind_eq, updateRefreshToken_eq. simpl. rewrite Hf. simpl.
  repeat split.
  - rewrite lookup_delete_ne by done. by rewrite lookup_insert_eq.
  - lia.
  - rewrite find_updateFirst_same, Hf; [done|]. intros v Hm. exact Hm.
Qed.

End LogoutFacts.

(** C4, at a concrete input. alice holds the refresh token of her login;
    once that token has expired, [logout] with it throws the error of
    the token check, and her row still stores the token: the refresh
    token is not cleared. The same holds for a token that is not
    well-formed. *)
Theorem logout_expired_token_keeps_refreshToken :
  let e := Scenario.env 700000000 0 "" true in
  let st := Scenario.afterLogin in
  (refreshToken <$> find (matches (ById "u1")) (db st))
  = Some (Some Scenario.aliceRefresh)
  /\ verifyRefreshToken (U := Reference.utils) (now e) Scenario.aliceRefresh = None
  /\ AuthService.logout (U := Reference.utils) e "u1" Scenario.aliceRefresh st
     = (Throw JwtError, st)
  /\ AuthService.logout (U := Reference.utils) e "u1" "garbage" st
     = (Throw JwtError, st)
  /\ (refreshToken <$> find (matches (ById "u1"))
        (db (exec (AuthService.logout (U := Reference.utils) e "u1"
                     Scenario.aliceRefresh) st)))
     = Some (Some Scenario.aliceRefresh).
Proof. vm_compute. repeat split. Qed.

(** While the token is still valid the same call blacklists it and clears
    the field. *)
Example logout_valid_token_ex :
  let e := Scenario.env 1100000 0 "" true in
  let st' := exec (AuthService.logout (U := Reference.utils) e "u1"
                     Scenario.aliceRefresh) Scenario.afterLogin in
  run (AuthService.logout (U := Reference.utils) e "u1" Scenario.aliceRefresh)
    Scenario.afterLogin = Ok (RMessage "Logged out successfully")
  /\ cache st' !! makeKey ["blacklist"; "token"; Scenario.aliceRefresh]
     = Some (mkEntry (CString "1") (1100000 + (605870 - 1100) * 1000))
  /\ (refreshToken <$> find (matches (ById "u1")) (db st')) = Some None
  /\ threwMessage (run (AuthService.refreshToken (U := Reference.utils)
                          (Scenario.env 1200000 0 "" true) Scenario.aliceRefresh) st')
     = Some "Token has been revoked".
Proof. vm_compute. repeat split. Qed.

Section MailFacts.
Context `{U : Utils}.

(** The repository and the extension do not look at the mail transport. *)
Lemma findByEmail_withMail (b : bool) (e : Env) :
  AuthRepository.findByEmail (withMail b e) = AuthRepository.findByEmail e.
Proof. reflexivity. Qed.
Lemma findById_withMail (b : bool) (e : Env) :
  AuthRepository.findById (withMail b e) = AuthRepository.findById e.
Proof. reflexivity. Qed.
Lemma create_withMail (b : bool) (e : Env) :
  AuthRepository.create (withMail b e) = AuthRepository.create e.
Proof. reflexivity. Qed.
Lemma updateOtp_withMail (b : bool) (e : Env) :
  AuthRepository.updateOtp (withMail b e) = AuthRepository.updateOtp e.
Proof. reflexivity. Qed.
Lemma setOtpCache_withMail (b : bool) (e : Env) :
  AuthRepository.setOtpCache (withMail b e) = AuthRepository.setOtpCache e.
Proof. reflexivity. Qed.
Lemma updateProfile_withMail (b : bool) (e : Env) :
  AuthRepository.updateProfile (withMail b e) = AuthRepository.updateProfile e.
Proof. reflexivity. Qed.
Lemma updateRefreshToken_withMail (b : bool) (e : Env) :
  AuthRepository.updateRefreshToken (withMail b e) = AuthRepository.updateRefreshToken e.
Proof. reflexivity. Qed.
Lemma prisma_user_update_withMail (b : bool) (e : Env) :
  prisma_user_update (withMail b e) = prisma_user_update e.
Proof. reflexivity. Qed.
Lemma generateOtp_withMail (b : bool) (e : Env) :
  generateOtp (withMail b e) = generateOtp e.
Proof. reflexivity. Qed.

Ltac drop_mail :=
  rewrite ?findByEmail_withMail, ?findById_withMail, ?create_withMail,
    ?updateOtp_withMail, ?setOtpCache_withMail, ?updateProfile_withMail,
    ?updateRefreshToken_withMail, ?prisma_user_update_withMail,
    ?generateOtp_withMail;
  change (now (withMail _ ?e)) with (now e).



Lemma resendOtp_mail (e : Env) (p : ResendOtpInput) (st : State) :
  let good := AuthService.resendOtp (withMail true e) p st in
  let bad := AuthService.resendOtp (withMail false e) p st in
  isOk (fst bad) = false
  /\ (isOk (fst good) = true ->
      fst bad = Throw (App (AppErr.badRequest "Failed to send OTP email" []))
      /\ db (snd bad) = db (snd good) /\ cache (snd bad) = cache (snd good)).
Proof.
  unfold AuthService.resendOtp. drop_mail. simpl.
  rewrite !(bind_eq (AuthRepository.findByEmail _ _ _)).
  destruct (AuthRepository.findByEmail _ _ _ _) as [[[x|]|x] s0]; simpl; try done.
  rewrite !(bind_eq (AuthRepository.updateOtp _ _ _ _)).
  destruct (AuthRepository.updateOtp _ _ _ _ _) as [[u'|y] s2]; simpl; try done.
Qed.

Lemma forgotPassword_mail (e : Env) (mail : string) (st : State) :
  let good := AuthService.forgotPassword (withMail true e) mail st in
  let bad := AuthService.forgotPassword (withMail false e) mail st in
  isOk (fst bad) = false
  /\ (isOk (fst good) = true ->
      fst bad = Throw (App (AppErr.badRequest "Failed to send password reset email" []))
      /\ db (snd bad) = db (snd good) /\ cache (snd bad) = cache (snd good)).
Proof.
  unfold AuthService.forgotPassword. drop_mail. simpl.
  rewrite !(bind_eq (AuthRepository.findByEmail _ _ _)).
  destruct (AuthRepository.findByEmail _ _ _ _) as [[[x|]|x] s0]; simpl; try done.
  rewrite !(bind_eq (AuthRepository.updateOtp _ _ _ _)).
  destruct (AuthRepository.updateOtp _ _ _ _ _) as [[u'|y] s2]; simpl; try done.
Qed.

End MailFacts.

(** The four calls of C9 on concrete states, with the transport failing. *)
Example mail_failure_runs :
  let e := Scenario.env 1000000 23456 "u1" false in
  isOk (run (AuthService.signup (U := Reference.utils) e Scenario.alice) st0) = true
  /\ logs (exec (AuthService.signup (U := Reference.utils) e Scenario.alice) st0)
     = [(LError, "Failed to send verification email")]
  /\ run (AuthService.resendOtp (U := Reference.utils) e
            (mkResend "a@x.com" EmailVerification)) Scenario.afterSignup
     = Throw (App (AppErr.badRequest "Failed to send OTP email" []))
  /\ run (AuthService.forgotPassword (U := Reference.utils) e "a@x.com")
       Scenario.afterSignup
     = Throw (App (AppErr.badRequest "Failed to send password reset email" []))
  /\ isOk (run (AuthService.resendOtp (U := Reference.utils) (withMail true e)
            (mkResend "a@x.com" EmailVerification)) Scenario.afterSignup) = true.
Proof. vm_compute. repeat split. Qed.
(** ** What a computation returns *)

Lemma returns_ret {A} (a : A) (Q : A -> Prop) : Q a -> returns (ret a) Q.
Proof. intros H st b st' [= <- _]. exact H. Qed.

Lemma returns_throw {A} (x : Thrown) (Q : A -> Prop) : returns (throw x) Q.
Proof. intros st b st' [=]. Qed.

Lemma returns_throwApp {A} (x : AppError) (Q : A -> Prop) : returns (throwApp x) Q.
Proof. intros st b st' [=]. Qed.

Lemma returns_bind {A B} (m : M A) (k : A -> M B) (Q : B -> Prop) :
  (forall a, returns (k a) Q) -> returns (bind m k) Q.
Proof.
  intros H st b st'. rewrite bind_eq.
  destruct (m st) as [[a|x] s1]; [apply H|done].
Qed.

Lemma toResponse_safe (u : User) : safeResponse (AuthDto.toResponse u).
Proof. intros v [= <-]. by repeat split. Qed.

Lemma toLoginResponse_safe (u : User) (t : Token.Pair) :
  safeResponse (AuthDto.toLoginResponse u t).
Proof. intros v [= <-]. by repeat split. Qed.

Lemma verified_safe (b : bool) (s : string) : safeResponse (RVerified b s).
Proof. intros v [=]. Qed.

Lemma email_safe (s : string) : safeResponse (REmail s).
Proof. intros v [=]. Qed.

Lemma message_safe (s : string) : safeResponse (RMessage s).
Proof. intros v [=]. Qed.

Ltac returns_safe :=
  repeat first
    [ apply returns_throw
    | apply returns_throwApp
    | apply returns_ret;
        first [ apply toResponse_safe | apply toLoginResponse_safe
              | apply verified_safe | apply email_safe | apply message_safe ]
    | apply returns_bind; intros ?
    | match goal with
      | |- returns (if ?b then _ else _) _ => destruct b
      | |- returns (match ?x with _ => _ end) _ => destruct x
      end
    | progress cbv zeta ].

Section ResponseFacts.
Context `{U : Utils}.

(** ** C8 *)

(** C8. Whatever an operation of the service returns, the user
    representation in it has [password], [otpCode], [otpExpiresAt] and
    [refreshToken] undefined. *)
Theorem responses_are_sanitized (e : Env) (op : Operation) (st : State)
    (r : Response) (v : UserView) :
  run (perform e op) st = Ok r -> userOf r = Some v -> sanitized v.
Proof.
  intros Hrun Hv.
  assert (Hs : returns (perform e op) safeResponse).
  { destruct op; simpl.
    - unfold AuthService.signup, AuthDto.toSignupResponse. returns_safe.
    - unfold AuthService.login. returns_safe.
    - unfold AuthService.verifyOtp. returns_safe.
    - unfold AuthService.resetPassword. returns_safe.
    - unfold AuthService.refreshToken. returns_safe.
    - unfold AuthService.changePassword. returns_safe.
    - unfold AuthService.getMe. returns_safe.
    - unfold AuthService.updateProfile. returns_safe.
    - unfold AuthService.googleAuth. returns_safe.
    - unfold AuthService.guestLogin. returns_safe.
    - unfold AuthService.convertGuestToRegistered. returns_safe.
    - unfold AuthService.resendOtp. returns_safe.
    - unfold AuthService.forgotPassword. returns_safe.
    - unfold AuthService.logout. returns_safe. }
  unfold run in Hrun. destruct (perform e op st) as [r' st'] eqn:Hp.
  simpl in Hrun. subst r'. exact (Hs st r st' Hp v Hv).
Qed.

End ResponseFacts.

Lemma responses_are_sanitized_witness :
  sanitized
    (mkView "u1" "alice" "a@x.com" true None None USER REGISTERED None EMAIL
       true false None None None None).
Proof.
  eapply (responses_are_sanitized (U := Reference.utils)
            (Scenario.env 1070000 0 "" true)
            (OpLogin (mkLogin "a@x.com" "Secret123!")) Scenario.afterVerify);
    vm_compute; reflexivity.
Defined.

Section RefreshFacts.
Context `{U : Utils}.

Lemma findById_eq (e : Env) (i : string) (st : State) :
  AuthRepository.findById e i st =
  match liveUser (now e) (cache st) (makeKey ["user"; i]) with
  | Some u => (Ok (Some u), st)
  | None =>
      match find (matches (ById i)) (db st) with
      | Some u =>
          (Ok (Some u),
           mkState (db st)
             (<[makeKey ["user"; i] :=
                  mkEntry (CUser u) (now e + USER_CACHE_TTL * 1000)]> (cache st))
             (logs st))
      | None => (Ok None, st)
      end
  end.
Proof.
  unfold AuthRepository.findById, bind, ret, findUnique, getDb,
    cacheGetUser, getCache. simpl.
  destruct (liveUser _ _ _); [done|]. simpl. by destruct (find _ _).
Qed.

Lemma isTokenBlacklisted_eq (e : Env) (token : string) (st : State) :
  AuthRepository.isTokenBlacklisted e token st
  = (Ok (bool_decide (is_Some (live (now e) (cache st)
                                 (makeKey ["blacklist"; "token"; token])))), st).
Proof. reflexivity. Qed.

Lemma liveUser_lookup (t : Z) (c : Cache) (k : CacheKey) (u : User) :
  liveUser t c k = Some u ->
  exists en, c !! k = Some en /\ value en = CUser u.
Proof.
  unfold liveUser, live. destruct (c !! k) as [en|]; [|done].
  destruct (t <? expiresAt en); [|done].
  destruct (value en) eqn:Hv; try done. intros [= ->]. eauto.
Qed.

(** The user [findById] yields has the id asked for, in a coherent cache. *)
Lemma findById_id (e : Env) (i : string) (st : State) (u : User) (st' : State) :
  userCacheCoherent st ->
  AuthRepository.findById e i st = (Ok (Some u), st') ->
  id u = i /\ db st' = db st
  /\ delete (makeKey ["user"; i]) (cache st') = delete (makeKey ["user"; i]) (cache st).
Proof.
  intros Hco. rewrite findById_eq.
  destruct (liveUser _ _ _) as [c|] eqn:Hc.
  - intros [= -> <-]. apply liveUser_lookup in Hc as (en & Hl & Hv).
    split; [exact (Hco i en u Hl Hv)|done].
  - destruct (find _ _) as [r|] eqn:Hf; [|done].
    intros [= -> <-]. simpl. apply find_some in Hf as [_ Hm].
    apply String.eqb_eq in Hm. split; [done|]. split; [done|].
    by rewrite delete_insert_eq.
Qed.

Lemma verifyRefreshToken_decode (t : Z) (token : string) (d : JwtPayload) :
  verifyRefreshToken t token = Some d -> decodeRefresh token = Some d.
Proof.
  unfold verifyRefreshToken. destruct (decodeRefresh token) as [d'|]; [|done].
  destruct (unexpired t d'); [|done]. by intros [= ->].
Qed.

(** ** C3 *)

(** C3, as amended. After [refreshToken] succeeded on a token and stored
    a refresh token different from it, the call with the superseded
    token fails with Unauthorized, at any later clock; and when that
    token is neither blacklisted nor expired by then, the failure is the
    comparison with the stored token ("Invalid refresh token"). The
    rotation is the comparison with the stored token and nothing else: a
    call that returns the presented token again supersedes nothing. *)
Theorem refreshToken_rotation (e1 e2 : Env) (st st' : State) (tokenA : string)
    (v : UserView) (pair : Token.Pair) :
  userCacheCoherent st ->
  AuthService.refreshToken e1 tokenA st = (Ok (RLogin v pair), st') ->
  Token.refreshToken pair <> tokenA ->
  (refreshToken <$> find (matches (ById (v_id v))) (db st'))
  = Some (Some (Token.refreshToken pair))
  /\ threwStatus (run (AuthService.refreshToken e2 tokenA) st') = Some UNAUTHORIZED
  /\ (run (AuthRepository.isTokenBlacklisted e2 tokenA) st' = Ok false ->
      is_Some (verifyRefreshToken (now e2) tokenA) ->
      run (AuthService.refreshToken e2 tokenA) st'
      = Throw (App (AppErr.unauthorized "Invalid refresh token" []))).
Proof.
  intros Hco Hfirst Hnew.
  unfold AuthService.refreshToken in Hfirst.
  rewrite bind_eq, isTokenBlacklisted_eq in Hfirst.
  destruct (bool_decide _); [done|].
  destruct (verifyRefreshToken (now e1) tokenA) as [d|] eqn:Hv1; [|done].
  apply verifyRefreshToken_decode in Hv1.
  rewrite bind_eq in Hfirst.
  destruct (jwt_id d) as [i|] eqn:Hi; [|done].
  destruct (AuthRepository.findById e1 i st) as [[[user|]|x] s1] eqn:Hfind;
    [|done|done].
  apply findById_id in Hfind as (Hid & Hdb & Hca); [|done].
  destruct (bool_decide (refreshToken user = Some tokenA)); [|done].
  destruct (negb (isActive user) || isDeleted user); [done|].
  simpl in Hfirst. rewrite bind_eq, updateRefreshToken_eq in Hfirst.
  rewrite Hid, Hdb in Hfirst.
  destruct (find (matches (ById i)) (db st)) as [row|] eqn:Hrow; [|done].
  simpl in Hfirst. injection Hfirst as Hv Hpair Hst.
  assert (Hvid : v_id v = i) by (by rewrite <- Hv).
  assert (Hfound : find (matches (ById i)) (db st')
                   = Some (applyData (mkUpdate None None None None None None None
                             (Some (Some (Token.refreshToken pair))) None None None) row)).
  { rewrite <- Hst, <- Hpair. simpl.
    rewrite find_updateFirst_same, Hrow; [done|]. intros w Hw. exact Hw. }
  assert (Hmiss : forall t, liveUser t (cache st') (makeKey ["user"; i]) = None).
  { intros t. rewrite <- Hst. simpl. unfold liveUser. by rewrite live_delete_eq. }
  assert (Hsecond : forall d2, verifyRefreshToken (now e2) tokenA = Some d2 ->
    bool_decide (is_Some (live (now e2) (cache st')
                            (makeKey ["blacklist"; "token"; tokenA]))) = false ->
    AuthService.refreshToken e2 tokenA st'
    = (Throw (App (AppErr.unauthorized "Invalid refresh token" [])),
       snd (AuthRepository.findById e2 i st'))).
  { intros d2 Hv2 Hbl. unfold AuthService.refreshToken.
    rewrite bind_eq, isTokenBlacklisted_eq, Hbl, Hv2.
    apply verifyRefreshToken_decode in Hv2. rewrite Hv1 in Hv2.
    injection Hv2 as <-. rewrite Hi, bind_eq, findById_eq, Hmiss, Hfound. simpl.
    rewrite bool_decide_eq_false_2; [done|]. congruence. }
  split; [by rewrite Hvid, Hfound|]. split.
  - unfold run.
    destruct (bool_decide (is_Some (live (now e2) (cache st')
                (makeKey ["blacklist"; "token"; tokenA])))) eqn:Hbl.
    { unfold AuthService.refreshToken.
      by rewrite bind_eq, isTokenBlacklisted_eq, Hbl. }
    destruct (verifyRefreshToken (now e2) tokenA) as [d2|] eqn:Hv2.
    { by rewrite (Hsecond d2). }
    unfold AuthService.refreshToken.
    by rewrite bind_eq, isTokenBlacklisted_eq, Hbl, Hv2.
  - unfold run. rewrite isTokenBlacklisted_eq. simpl. intros [= Hbl] [d2 Hv2].
    by rewrite (Hsecond d2).
Qed.

End RefreshFacts.
(** ** The user cache stays coherent *)

Lemma preserves_ret (I : State -> Prop) {A} (a : A) : preserves I (ret a).
Proof. by intros st. Qed.

Lemma preserves_throw (I : State -> Prop) {A} (x : Thrown) :
  preserves I (throw (A := A) x).
Proof. by intros st. Qed.

Lemma preserves_throwApp (I : State -> Prop) {A} (x : AppError) :
  preserves I (throwApp (A := A) x).
Proof. by intros st. Qed.

Lemma preserves_bind (I : State -> Prop) {A B} (m : M A) (k : A -> M B) :
  preserves I m -> (forall a, preserves I (k a)) -> preserves I (bind m k).
Proof.
  intros Hm Hk st H. rewrite bind_eq. specialize (Hm st H).
  destruct (m st) as [[a|x] s1]; [by apply Hk|done].
Qed.

Lemma preserves_tryCatch (I : State -> Prop) {A} (m : M A) (h : Thrown -> M A) :
  preserves I m -> (forall x, preserves I (h x)) -> preserves I (tryCatch m h).
Proof.
  intros Hm Hh st H. unfold tryCatch. specialize (Hm st H).
  destruct (m st) as [[a|x] s1]; [done|by apply Hh].
Qed.

Lemma coherent_same_cache (st st' : State) :
  cache st' = cache st -> userCacheCoherent st -> userCacheCoherent st'.
Proof. intros Hc H i en u. rewrite Hc. apply H. Qed.

Lemma coherent_logger (l : Level) (msg : string) :
  preserves userCacheCoherent (logger l msg).
Proof. intros st. by apply coherent_same_cache. Qed.

Lemma coherent_sendEmail (e : Env) (to subject : string) :
  preserves userCacheCoherent (sendEmail e to subject).
Proof. intros st. unfold sendEmail. by destruct (emailDelivered e). Qed.

Lemma coherent_cacheDel (k : CacheKey) : preserves userCacheCoherent (cacheDel k).
Proof.
  intros st H i en u. simpl. intros Hl. apply lookup_delete_Some in Hl as [_ Hl].
  by apply H.
Qed.

Lemma coherent_cacheSet_user (t : Z) (u : User) (ttl : Z) :
  preserves userCacheCoherent (cacheSet t (makeKey ["user"; id u]) (CUser u) ttl).
Proof.
  intros st H i en v. simpl. intros Hl Hv.
  apply lookup_insert_Some in Hl as [[Hk <-]|[_ Hl]].
  - simpl in Hv. injection Hk as <-. congruence.
  - by apply (H i en v).
Qed.

Lemma coherent_cacheSet_other (t : Z) (k : CacheKey) (v : CacheValue) (ttl : Z) :
  (forall i, k <> makeKey ["user"; i]) ->
  preserves userCacheCoherent (cacheSet t k v ttl).
Proof.
  intros Hk st H i en u. simpl. intros Hl.
  apply lookup_insert_Some in Hl as [[Hk' _]|[_ Hl]]; [by destruct (Hk i)|].
  by apply H.
Qed.

Lemma coherent_cacheGet (t : Z) (k : CacheKey) :
  preserves userCacheCoherent (cacheGetAuthUser t k).
Proof. by intros st. Qed.

Section Coherence.
Context `{U : Utils}.

Lemma coherent_update (e : Env) (w : Where) (d : UpdateData) :
  preserves userCacheCoherent (prisma_user_update e w d).
Proof.
  intros st H. rewrite prisma_user_update_eq.
  destruct (find _ _); [destruct (_ && _)|]; by try apply (coherent_same_cache st).
Qed.

Lemma coherent_findById (e : Env) (i : string) :
  preserves userCacheCoherent (AuthRepository.findById e i).
Proof.
  intros st H. rewrite findById_eq.
  destruct (liveUser _ _ _); [done|].
  destruct (find _ _) as [u|] eqn:Hf; [|done].
  apply find_some in Hf as [_ Hm]. apply String.eqb_eq in Hm. subst i.
  apply (coherent_cacheSet_user (now e) u USER_CACHE_TTL st H).
Qed.

Lemma coherent_findByEmail (e : Env) (mail : string) (b : bool) :
  preserves userCacheCoherent (AuthRepository.findByEmail e mail b).
Proof.
  intros st H. destruct b; [|by rewrite findByEmail_nocache_eq].
  rewrite findByEmail_cache_eq.
  destruct (liveUser _ _ _); [done|].
  destruct (find _ _) as [u|]; [|done].
  by apply (coherent_cacheSet_other (now e) _ (CUser u) USER_CACHE_TTL).
Qed.

Lemma coherent_findByEmailWithPassword (mail : string) :
  preserves userCacheCoherent (AuthRepository.findByEmailWithPassword mail).
Proof. by intros st. Qed.

Lemma coherent_create (e : Env) (p : CreatePayload) :
  preserves userCacheCoherent (AuthRepository.create e p).
Proof.
  unfold AuthRepository.create. apply preserves_bind.
  - intros st H. unfold prisma_user_create, bind, getDb, setDb, throw, ret. simpl.
    destruct (existsb _ _); by try apply (coherent_same_cache st).
  - intros u. apply preserves_bind; [apply coherent_cacheSet_user|intros _].
    apply preserves_bind; [by apply coherent_cacheSet_other|intros _].
    apply preserves_ret.
Qed.

Lemma coherent_updateOtp (e : Env) (mail otp : string) (x : Z) :
  preserves userCacheCoherent (AuthRepository.updateOtp e mail otp x).
Proof.
  unfold AuthRepository.updateOtp.
  repeat first [apply coherent_update | apply coherent_cacheDel
               | apply preserves_ret | apply preserves_bind; [|intros ?]].
Qed.

Lemma coherent_verifyEmail (e : Env) (mail : string) :
  preserves userCacheCoherent (AuthRepository.verifyEmail e mail).
Proof.
  unfold AuthRepository.verifyEmail.
  repeat first [apply coherent_update | apply coherent_cacheDel
               | apply preserves_ret | apply preserves_bind; [|intros ?]].
Qed.

Lemma coherent_updatePassword (e : Env) (mail pw : string) :
  preserves userCacheCoherent (AuthRepository.updatePassword e mail pw).
Proof.
  unfold AuthRepository.updatePassword.
  repeat first [apply coherent_update | apply coherent_cacheDel
               | apply preserves_ret | apply preserves_bind; [|intros ?]].
Qed.

Lemma coherent_updateRefreshToken (e : Env) (i : string) (t : option string) :
  preserves userCacheCoherent (AuthRepository.updateRefreshToken e i t).
Proof.
  unfold AuthRepository.updateRefreshToken.
  repeat first [apply coherent_update | apply coherent_cacheDel
               | apply preserves_ret | apply preserves_bind; [|intros ?]].
Qed.

Lemma coherent_updateProfile (e : Env) (i : string) (d : UpdateData) :
  preserves userCacheCoherent (AuthRepository.updateProfile e i d).
Proof.
  unfold AuthRepository.updateProfile.
  repeat first [apply coherent_update | apply coherent_cacheDel
               | apply preserves_ret
               | match goal with
                 | |- preserves _ (if ?b then _ else _) => destruct b
                 end
               | apply preserves_bind; [|intros ?]].
Qed.

Lemma coherent_setOtpCache (e : Env) (mail : string) (t : OtpType) (otp : string) :
  preserves userCacheCoherent (AuthRepository.setOtpCache e mail t otp).
Proof. by apply coherent_cacheSet_other. Qed.

Lemma coherent_getOtpCache (e : Env) (mail : string) (t : OtpType) :
  preserves userCacheCoherent (AuthRepository.getOtpCache e mail t).
Proof. by intros st. Qed.

Lemma coherent_deleteOtpCache (mail : string) (t : OtpType) :
  preserves userCacheCoherent (AuthRepository.deleteOtpCache mail t).
Proof. apply coherent_cacheDel. Qed.

Lemma coherent_blacklistToken (e : Env) (token : string) (x : Z) :
  preserves userCacheCoherent (AuthRepository.blacklistToken e token x).
Proof. by apply coherent_cacheSet_other. Qed.

Lemma coherent_isTokenBlacklisted (e : Env) (token : string) :
  preserves userCacheCoherent (AuthRepository.isTokenBlacklisted e token).
Proof. by intros st. Qed.

Lemma coherent_verifyFirebaseToken (t : string) :
  preserves userCacheCoherent (verifyFirebaseToken t).
Proof.
  unfold verifyFirebaseToken. destruct (verifyIdToken t); [apply preserves_ret|].
  apply preserves_bind; [apply coherent_logger|intros _]. apply preserves_throwApp.
Qed.

End Coherence.

Create HintDb coherent.
#[global] Hint Resolve preserves_ret preserves_throw preserves_throwApp
  coherent_logger coherent_sendEmail coherent_cacheDel coherent_cacheGet
  coherent_update coherent_findById coherent_findByEmail
  coherent_findByEmailWithPassword coherent_create coherent_updateOtp
  coherent_verifyEmail coherent_updatePassword coherent_updateRefreshToken
  coherent_updateProfile coherent_setOtpCache coherent_getOtpCache
  coherent_deleteOtpCache coherent_blacklistToken coherent_isTokenBlacklisted
  coherent_verifyFirebaseToken : coherent.

Ltac coherent :=
  repeat first
    [ solve [auto with coherent]
    | apply coherent_cacheSet_other; solve [done]
    | match goal with
      | |- preserves _ (if ?b then _ else _) => destruct b
      | |- preserves _ (match ?x with _ => _ end) => destruct x
      | |- preserves _ (tryCatch _ _) => apply preserves_tryCatch; [|intros ?]
      | |- preserves _ (bind _ _) => apply preserves_bind; [|intros ?]
      end
    | progress cbv zeta ].

Section Invariant.
Context `{U : Utils}.

Lemma coherent_perform (e : Env) (op : Operation) :
  preserves userCacheCoherent (perform e op).
Proof.
  destruct op; simpl.
  - unfold AuthService.signup. coherent.
  - unfold AuthService.login. coherent.
  - unfold AuthService.verifyOtp, AuthService.checkOtp. coherent.
  - unfold AuthService.resetPassword. coherent.
  - unfold AuthService.refreshToken. coherent.
  - unfold AuthService.changePassword. coherent.
  - unfold AuthService.getMe. coherent.
  - unfold AuthService.updateProfile. coherent.
  - unfold AuthService.googleAuth. coherent.
  - unfold AuthService.guestLogin. coherent.
  - unfold AuthService.convertGuestToRegistered. coherent.
  - unfold AuthService.resendOtp. coherent.
  - unfold AuthService.forgotPassword. coherent.
  - unfold AuthService.logout. coherent.
Qed.

Lemma coherent_authenticate (e : Env) (req : Request) :
  preserves userCacheCoherent (authenticate e req).
Proof. unfold authenticate. coherent. Qed.

(** Every state the service and the gate bring about from the empty
    state has a coherent user cache. *)
Lemma reachable_coherent (st : State) : reachable st -> userCacheCoherent st.
Proof.
  induction 1 as [|e op st _ IH|e req st _ IH].
  - intros i en u. simpl. by rewrite lookup_empty.
  - by apply coherent_perform.
  - by apply coherent_authenticate.
Qed.

End Invariant.

Lemma reachable_afterLogin : reachable (U := Reference.utils) Scenario.afterLogin.
Proof.
  apply (reach_perform _ (OpLogin _)).
  apply (reach_perform _ (OpVerifyOtp _)).
  apply (reach_perform _ (OpSignup _)).
  apply reach_init.
Qed.

Lemma refreshToken_rotation_witness :
  let e1 := Scenario.env 1200000 0 "" true in
  let e2 := Scenario.env 1300000 0 "" true in
  let st' := exec (AuthService.refreshToken (U := Reference.utils) e1
                     Scenario.aliceRefresh) Scenario.afterLogin in
  (refreshToken <$> find (matches (ById "u1")) (db st'))
  = Some (Some "refresh.u1.606000")
  /\ threwStatus (run (AuthService.refreshToken (U := Reference.utils) e2
                         Scenario.aliceRefresh) st') = Some UNAUTHORIZED
  /\ (run (AuthRepository.isTokenBlacklisted e2 Scenario.aliceRefresh) st' = Ok false ->
      is_Some (verifyRefreshToken (U := Reference.utils) (now e2) Scenario.aliceRefresh) ->
      run (AuthService.refreshToken (U := Reference.utils) e2 Scenario.aliceRefresh) st'
      = Throw (App (AppErr.unauthorized "Invalid refresh token" []))).
Proof.
  intros e1 e2 st'.
  apply (refreshToken_rotation (U := Reference.utils) e1 e2 Scenario.afterLogin st'
           Scenario.aliceRefresh
           (mkView "u1" "alice" "a@x.com" true None None USER REGISTERED None
              EMAIL true false None None None None)
           (Token.mk "access.u1.2100" "refresh.u1.606000")).
  - apply (reachable_coherent (U := Reference.utils)), reachable_afterLogin.
  - vm_compute. reflexivity.
  - vm_compute. discriminate.
Defined.

(** The claim as stated fails: alice refreshes in the second in which
    her login issued the token. The call succeeds and persists the token
    it returns, which is the presented one again (the reference signer,
    like any signer whose output is a function of the payload and of the
    second of issue, has nothing else to tell them apart), and ten
    seconds later the call with the presented token succeeds once
    more. *)
Example refreshToken_same_second :
  let e := Scenario.env 1070500 0 "" true in
  let e' := Scenario.env 1080000 0 "" true in
  let st' := exec (AuthService.refreshToken (U := Reference.utils) e
                     Scenario.aliceRefresh) Scenario.afterLogin in
  run (AuthService.refreshToken (U := Reference.utils) e Scenario.aliceRefresh)
    Scenario.afterLogin
  = Ok (RLogin
          (mkView "u1" "alice" "a@x.com" true None None USER REGISTERED None
             EMAIL true false None None None None)
          (Token.mk "access.u1.1970" Scenario.aliceRefresh))
  /\ (refreshToken <$> find (matches (ById "u1")) (db st'))
     = Some (Some Scenario.aliceRefresh)
  /\ isOk (run (AuthService.refreshToken (U := Reference.utils) e'
                  Scenario.aliceRefresh) st') = true.
Proof. vm_compute. repeat split; reflexivity. Qed.

(** With the reference signer the returned refresh token differs from
    every refresh token of the same subject issued in another second. *)
Lemma reference_refresh_tokens_differ (t1 t2 : Z) (p : TokenPayload) :
  t1 / 1000 <> t2 / 1000 ->
  Token.refreshToken (generateTokens (Utils := Reference.utils) t1 p)
  <> Token.refreshToken (generateTokens (Utils := Reference.utils) t2 p).
Proof.
  simpl. unfold Reference.sign. intros Hne Heq.
  simplify_eq/=. lia.
Qed.

Lemma updateFirst_In (q : User -> bool) (f : User -> User) (l : list User) (u : User) :
  find q l = Some u -> In (f u) (updateFirst q f l).
Proof.
  induction l as [|v r IH]; simpl; [done|].
  destruct (q v) eqn:Hq.
  - intros [= ->]. by left.
  - intros H. right. by apply IH.
Qed.

Lemma find_is_Some (p : User -> bool) (l : list User) (u : User) :
  In u l -> p u = true -> is_Some (find p l).
Proof.
  intros Hin Hp. destruct (find p l) eqn:Hf; [eauto|].
  by rewrite (find_none _ _ Hf u Hin) in Hp.
Qed.

Section OtpFacts.
Context `{U : Utils}.

Lemma verifyEmail_eq (e : Env) (mail : string) (st : State) :
  AuthRepository.verifyEmail e mail st =
  match find (matches (ByEmail mail)) (db st) with
  | None => (Throw (Prisma P2025_NotFound), st)
  | Some u =>
      let d := mkUpdate None None None None None (Some true) None None
                 (Some None) (Some None) None in
      (Ok (applyData d u),
       mkState (updateFirst (matches (ByEmail mail)) (applyData d) (db st))
         (delete (makeKey ["user"; id u])
            (delete (makeKey ["user"; "email"; mail]) (cache st)))
         (logs st))
  end.
Proof.
  unfold AuthRepository.verifyEmail. rewrite bind_eq, prisma_user_update_eq.
  by destruct (find _ _).
Qed.

Lemma checkOtp_state (e : Env) (mail otp : string) (type : OtpType) (st : State) :
  snd (AuthService.checkOtp e mail otp type st) = st.
Proof.
  unfold AuthService.checkOtp. rewrite bind_eq. simpl.
  destruct (_ || _); [|done].
  rewrite bind_eq, findByEmail_nocache_eq.
  destruct (find _ _) as [u|]; simpl; [|done].
  destruct (_ || _); [done|]. by destruct (otpExpiresAt u) as [x|]; [destruct (x <? now e)|].
Qed.

(** The check of [verifyOtp] passes exactly on the codes of
    [otpAccepted]. *)
Lemma checkOtp_accepts (e : Env) (mail otp : string) (type : OtpType) (st : State) :
  truthy otp = true ->
  fst (AuthService.checkOtp e mail otp type st) = Ok tt
  <-> otpAccepted (now e) st mail otp type.
Proof.
  intros Ht. unfold AuthService.checkOtp, otpAccepted. rewrite bind_eq. simpl.
  destruct (liveString _ _ _) as [c|] eqn:Hc; simpl.
  - destruct (bool_decide (Some c = Some otp)) eqn:Hb.
    + apply bool_decide_eq_true in Hb. injection Hb as ->. rewrite Ht. simpl.
      split; auto.
    + apply bool_decide_eq_false in Hb. rewrite orb_true_r.
      rewrite bind_eq, findByEmail_nocache_eq.
      destruct (find _ _) as [u|] eqn:Hf; simpl.
      2:{ split; [done|]. intros [?|(u & x & [=] & _)]. congruence. }
      destruct (otpCode u) as [o|] eqn:Ho; simpl.
      2:{ split; [done|]. intros [?|(u' & x & [= <-] & ? & _)]; congruence. }
      destruct (bool_decide (Some o = Some otp)) eqn:Hb2.
      2:{ apply bool_decide_eq_false in Hb2. rewrite orb_true_r.
          split; [done|]. intros [?|(u' & x & [= <-] & ? & _)]; congruence. }
      apply bool_decide_eq_true in Hb2. injection Hb2 as ->. rewrite Ht. simpl.
      destruct (otpExpiresAt u) as [x|] eqn:Hx; simpl.
      2:{ split; [done|]. intros [?|(u' & x & [= <-] & ? & ? & _)]; congruence. }
      destruct (x <? now e) eqn:Hlt.
      * split; [done|]. intros [?|(u' & x' & [= <-] & ? & ? & ?)]; [congruence|].
        assert (x' = x) by congruence. lia.
      * split; [|done]. intros _. right. exists u, x. repeat split; auto. lia.
  - rewrite bind_eq, findByEmail_nocache_eq.
    destruct (find _ _) as [u|] eqn:Hf; simpl.
    2:{ split; [done|]. intros [?|(u & x & [=] & _)]. congruence. }
    destruct (otpCode u) as [o|] eqn:Ho; simpl.
    2:{ split; [done|]. intros [?|(u' & x & [= <-] & ? & _)]; congruence. }
    destruct (bool_decide (Some o = Some otp)) eqn:Hb2.
    2:{ apply bool_decide_eq_false in Hb2. rewrite orb_true_r.
        split; [done|]. intros [?|(u' & x & [= <-] & ? & _)]; congruence. }
    apply bool_decide_eq_true in Hb2. injection Hb2 as ->. rewrite Ht. simpl.
    destruct (otpExpiresAt u) as [x|] eqn:Hx; simpl.
    2:{ split; [done|]. intros [?|(u' & x & [= <-] & ? & ? & _)]; congruence. }
    destruct (x <? now e) eqn:Hlt.
    * split; [done|]. intros [?|(u' & x' & [= <-] & ? & ? & ?)]; [congruence|].
      assert (x' = x) by congruence. lia.
    * split; [|done]. intros _. right. exists u, x. repeat split; auto. lia.
Qed.

Lemma verifyOtp_eq (e : Env) (p : VerifyOtpInput) (st : State) :
  AuthService.verifyOtp e p st =
  match fst (AuthService.checkOtp e (vo_email p) (vo_otp p) (vo_type p) st) with
  | Throw x => (Throw x, st)
  | Ok _ =>
      match vo_type p with
      | ForgotPassword =>
          (Ok (RVerified true (vo_email p)),
           mkState (db st)
             (delete (makeKey ["otp"; "forgotPassword"; vo_email p]) (cache st))
             (logs st))
      | EmailVerification =>
          match AuthRepository.verifyEmail e (vo_email p) st with
          | (Throw x, s1) => (Throw x, s1)
          | (Ok user, s1) =>
              let token := generateTokens (now e) (tokenPayload user) in
              match AuthRepository.updateRefreshToken e (id user)
                      (Some (Token.refreshToken token))
                      (mkState (db s1)
                         (delete (makeKey ["otp"; "emailVerification"; vo_email p])
                            (cache s1))
                         (logs s1 ++ [(LInfo, "Email verified successfully")])) with
              | (Throw x, s2) => (Throw x, s2)
              | (Ok _, s2) => (Ok (AuthDto.toLoginResponse user token), s2)
              end
          end
      end
  end.
Proof.
  unfold AuthService.verifyOtp. rewrite bind_eq.
  pose proof (checkOtp_state e (vo_email p) (vo_otp p) (vo_type p) st) as Hs.
  destruct (AuthService.checkOtp _ _ _ _ _) as [[[]|x] s1]; simpl in *; subst s1;
    [|done].
  destruct (vo_type p); [done|].
  rewrite bind_eq. destruct (AuthRepository.verifyEmail _ _ _) as [[user|x] s1]; [|done].
  rewrite bind_eq. simpl. rewrite bind_eq. simpl. rewrite bind_eq.
  by destruct (AuthRepository.updateRefreshToken _ _ _ _) as [[?|?] ?].
Qed.

(** ** C1 *)

(** C1, as amended. For a six-digit code, [verifyOtp] succeeds exactly
    when the code is the live cache entry of (email, type), or is the
    code on the row found by email while the clock has not passed its
    expiry (whatever the purpose it was issued for), and, for
    emailVerification, a row with the email exists. After a successful
    emailVerification a second call with the same (email, otp, type)
    fails with BadRequest. *)
Theorem verifyOtp_acceptance (e : Env) (st : State) (mail otp : string)
    (type : OtpType) :
  sixDigits otp = true ->
  (isOk (run (AuthService.verifyOtp e (mkVerifyOtp mail otp type)) st) = true
   <-> otpAccepted (now e) st mail otp type
       /\ (type = EmailVerification ->
           is_Some (find (matches (ByEmail mail)) (db st))))
  /\ (type = EmailVerification ->
      forall r st' e',
        AuthService.verifyOtp e (mkVerifyOtp mail otp type) st = (Ok r, st') ->
        run (AuthService.verifyOtp e' (mkVerifyOtp mail otp type)) st'
        = Throw (App invalidOtp)).
Proof.
  intros Hd. apply sixDigits_truthy in Hd.
  pose proof (checkOtp_accepts e mail otp type st Hd) as Hacc.
  split.
  - unfold run. rewrite verifyOtp_eq. simpl.
    destruct (fst (AuthService.checkOtp e mail otp type st)) as [[]|x] eqn:Hck.
    2:{ simpl. split; [done|]. intros [Ha _]. apply Hacc in Ha. done. }
    destruct type; simpl.
    { split; [|done]. intros _. split; [by apply Hacc|done]. }
    rewrite verifyEmail_eq.
    destruct (find (matches (ByEmail mail)) (db st)) as [row|] eqn:Hrow; simpl.
    2:{ split; [done|]. intros [_ H]. by destruct (H eq_refl). }
    rewrite updateRefreshToken_eq. simpl.
    match goal with |- context [find ?q ?l] =>
      assert (Hi : is_Some (find q l)) end.
    { eapply find_is_Some; [by apply updateFirst_In|]. simpl.
      by apply String.eqb_eq. }
    destruct Hi as [w ->]. simpl.
    split; [|done]. intros _. split; [by apply Hacc|eauto].
  - intros -> r st' e' Hrun. rewrite verifyOtp_eq in Hrun. simpl in Hrun.
    destruct (fst (AuthService.checkOtp e mail otp EmailVerification st));
      [|done].
    rewrite verifyEmail_eq in Hrun.
    destruct (find (matches (ByEmail mail)) (db st)) as [row|] eqn:Hrow; [|done].
    simpl in Hrun. rewrite updateRefreshToken_eq in Hrun. simpl in Hrun.
    destruct (find (matches (ById (id row))) _) as [w|]; [|done].
    injection Hrun as _ <-.
    unfold run. rewrite verifyOtp_eq. simpl.
    unfold AuthService.checkOtp. rewrite bind_eq. simpl.
    unfold liveString. rewrite live_delete_ne, live_delete_eq by done. simpl.
    rewrite bind_eq, findByEmail_nocache_eq. simpl.
    set (f1 := applyData (mkUpdate None None None None None (Some true) None None
                            (Some None) (Some None) None)).
    set (f2 := applyData _).
    assert (H1 : find (matches (ByEmail mail))
                   (updateFirst (matches (ByEmail mail)) f1 (db st)) = Some (f1 row)).
    { rewrite find_updateFirst_same, Hrow; [done|]. intros v Hv. exact Hv. }
    pose proof (find_updateFirst_other (matches (ByEmail mail))
                  (matches (ById (id row))) f2
                  (updateFirst (matches (ByEmail mail)) f1 (db st))) as H2.
    rewrite H1 in H2. destruct H2 as [-> | ->]; try done.
Qed.

End OtpFacts.

Lemma verifyOtp_acceptance_witness :
  let e := Scenario.env 1060000 0 "" true in
  (isOk (run (AuthService.verifyOtp (U := Reference.utils) e
                (mkVerifyOtp "a@x.com" "123456" EmailVerification))
           Scenario.afterSignup) = true
   <-> otpAccepted (now e) Scenario.afterSignup "a@x.com" "123456" EmailVerification
       /\ (EmailVerification = EmailVerification ->
           is_Some (find (matches (ByEmail "a@x.com")) (db Scenario.afterSignup))))
  /\ (EmailVerification = EmailVerification ->
      forall r st' e',
        AuthService.verifyOtp (U := Reference.utils) e
          (mkVerifyOtp "a@x.com" "123456" EmailVerification) Scenario.afterSignup
        = (Ok r, st') ->
        run (AuthService.verifyOtp (U := Reference.utils) e'
               (mkVerifyOtp "a@x.com" "123456" EmailVerification)) st'
        = Throw (App invalidOtp)).
Proof.
  intros e.
  apply (verifyOtp_acceptance (U := Reference.utils) e Scenario.afterSignup
           "a@x.com" "123456" EmailVerification).
  vm_compute. reflexivity.
Defined.

(** The code of the signup is consumed by its verification. *)
Example verifyOtp_consumed :
  isOk (run (AuthService.verifyOtp (U := Reference.utils)
               (Scenario.env 1060000 0 "" true)
               (mkVerifyOtp "a@x.com" "123456" EmailVerification))
          Scenario.afterSignup) = true
  /\ run (AuthService.verifyOtp (U := Reference.utils)
            (Scenario.env 1061000 0 "" true)
            (mkVerifyOtp "a@x.com" "123456" EmailVerification))
       Scenario.afterVerify = Throw (App invalidOtp).
Proof. vm_compute. split; reflexivity. Qed.

(** C1, counterexample. After a signup and a password-reset request the
    cache stages 123456 for (a@x.com, emailVerification), yet
    [verifyOtp] accepts 222222 for that purpose, through the row; and
    the code 222222 verified once for forgotPassword is accepted a second
    time. *)
Lemma verifyOtp_other_code_and_reuse :
  let e := Scenario.env 1200000 0 "" true in
  let e' := Scenario.env 1210000 0 "" true in
  stagedOtp (now e) Scenario.afterForgot "a@x.com" EmailVerification = Some "123456"
  /\ isOk (run (AuthService.verifyOtp (U := Reference.utils) e
                  (mkVerifyOtp "a@x.com" "222222" EmailVerification))
             Scenario.afterForgot) = true
  /\ run (AuthService.verifyOtp (U := Reference.utils) e
            (mkVerifyOtp "a@x.com" "222222" ForgotPassword)) Scenario.afterForgot
     = Ok (RVerified true "a@x.com")
  /\ run (AuthService.verifyOtp (U := Reference.utils) e'
            (mkVerifyOtp "a@x.com" "222222" ForgotPassword))
       Scenario.afterForgotVerified
     = Ok (RVerified true "a@x.com").
Proof. vm_compute. repeat split. Qed.
Section GateFacts.
Context `{U : Utils}.

Lemma findById_run (e : Env) (i : string) (st : State) :
  exists found, AuthRepository.findById e i st
                = (Ok found, snd (AuthRepository.findById e i st)).
Proof.
  rewrite findById_eq. destruct (liveUser _ _ _); [eauto|].
  destruct (find _ _); eauto.
Qed.

(** ** C7 *)

(** C7, as amended. [authenticate] answers Unauthorized when no token is
    presented, when the token is blacklisted, when it does not verify and
    when its payload has no id. Otherwise, when the gate's own cache
    holds a live entry for the id, that entry is attached and the table
    is not consulted; when it holds none, the user that [findById] yields
    decides: none is Unauthorized, a deactivated or deleted one is
    Forbidden, an active one that is neither verified nor a guest is
    Unauthorized, and an active guest or verified user is accepted with
    the projection of the row. *)
Theorem authenticate_gate (e : Env) (req : Request) (st : State) :
  let r := run (authenticate e req) st in
  (truthyO (bearerToken req) = false -> threwStatus r = Some UNAUTHORIZED)
  /\ (forall t, bearerToken req = Some t -> truthy t = true ->
      (is_Some (live (now e) (cache st) (makeKey ["blacklist"; "token"; t])) ->
       threwStatus r = Some UNAUTHORIZED)
      /\ (verifyToken (now e) t = None -> threwStatus r = Some UNAUTHORIZED)
      /\ (forall d, verifyToken (now e) t = Some d -> truthyO (jwt_id d) = false ->
          threwStatus r = Some UNAUTHORIZED)
      /\ (forall d i,
          live (now e) (cache st) (makeKey ["blacklist"; "token"; t]) = None ->
          verifyToken (now e) t = Some d -> jwt_id d = Some i -> truthy i = true ->
          (forall c, liveAuthUser (now e) (cache st) (makeKey ["auth"; "user"; i]) = Some c ->
             r = Ok c)
          /\ (liveAuthUser (now e) (cache st) (makeKey ["auth"; "user"; i]) = None ->
              forall found, run (AuthRepository.findById e i) st = Ok found ->
                match found with
                | None => threwStatus r = Some UNAUTHORIZED
                | Some u =>
                    (isActive u = false \/ isDeleted u = true ->
                     threwStatus r = Some FORBIDDEN)
                    /\ (isActive u = true -> isDeleted u = false ->
                        isEmailVerified u = false -> userType u <> GUEST ->
                        threwStatus r = Some UNAUTHORIZED)
                    /\ (isActive u = true -> isDeleted u = false ->
                        userType u = GUEST \/ isEmailVerified u = true ->
                        r = Ok (projection u))
                end))).
Proof.
  intros r. subst r. unfold run, authenticate. split.
  { intros ->. reflexivity. }
  intros t Ht Htt. rewrite Ht. simpl. rewrite Htt. simpl.
  rewrite bind_eq, isTokenBlacklisted_eq.
  destruct (live (now e) (cache st) (makeKey ["blacklist"; "token"; t]))
    as [bl|] eqn:Hbl.
  { rewrite bool_decide_eq_true_2 by eauto.
    repeat split; try done; intros d i [=]. }
  rewrite bool_decide_eq_false_2 by (by intros [? [=]]).
  split; [by intros [? [=]]|].
  destruct (verifyToken (now e) t) as [d|] eqn:Hv.
  2:{ repeat split; try done; intros d i _ [=]. }
  split; [done|]. split.
  { intros d' [= <-] Hid. by rewrite Hid. }
  intros d' i _ [= <-] Hi Hit. rewrite Hi. simpl. rewrite Hit. simpl.
  rewrite bind_eq. unfold cacheGetAuthUser. rewrite bind_eq. simpl.
  split.
  { intros c ->. reflexivity. }
  intros ->. intros found Hfound. simpl.
  unfold run in Hfound. rewrite bind_eq.
  destruct (AuthRepository.findById e i st) as [[f|x] s1] eqn:Hfb;
    simpl in Hfound; [|done].
  injection Hfound as ->.
  rewrite (bind_eq (AuthRepository.findById e i)), Hfb.
  destruct found as [u|]; [|reflexivity].
  repeat split.
  - intros [Ha|Hd]; [by rewrite Ha|]. rewrite Hd. by destruct (isActive u).
  - intros Ha Hd Hve Hg. rewrite Ha, Hd, Hve. simpl.
    by rewrite bool_decide_eq_false_2.
  - intros Ha Hd [Hg|Hve]; unfold projection; rewrite Ha, Hd; simpl.
    + rewrite Hg. simpl. rewrite andb_false_r. reflexivity.
    + rewrite Hve. reflexivity.
Qed.

End GateFacts.

(** C7, counterexample. A guest calls a protected route, converts the
    account, and calls a protected route again within five minutes with
    the same access token: the row is then registered and unverified,
    active and not deleted, the token verifies to its id, and the request
    is accepted from the gate's cache. Once that cache entry has lapsed
    the same request is refused. *)
Lemma authenticate_accepts_unverified_from_cache :
  let e := Scenario.env 3030000 0 "" true in
  let st := Scenario.afterConvert in
  bearerToken Scenario.guestBearer = Some "access.g1.3900"
  /\ (jwt_id <$> verifyToken (U := Reference.utils) (now e) "access.g1.3900")
     = Some (Some "g1")
  /\ ((fun u => (isActive u, isDeleted u, isEmailVerified u, userType u))
        <$> find (matches (ById "g1")) (db st))
     = Some (true, false, false, REGISTERED)
  /\ isOk (run (authenticate (U := Reference.utils) e Scenario.guestBearer) st) = true
  /\ threwStatus (run (authenticate (U := Reference.utils)
                         (Scenario.env 3330000 0 "" true) Scenario.guestBearer) st)
     = Some UNAUTHORIZED.
Proof. vm_compute. repeat split. Qed.

Lemma authenticate_gate_witness :
  run (authenticate (U := Reference.utils) (Scenario.env 3010000 0 "" true)
         Scenario.guestBearer) Scenario.afterGuestLogin
  = Ok (mkAuthUser "g1" "Guest_000000" "guest_3000000_k3j9x2m@guest.local"
          USER GUEST true true).
Proof.
  destruct (authenticate_gate (U := Reference.utils)
              (Scenario.env 3010000 0 "" true) Scenario.guestBearer
              Scenario.afterGuestLogin) as [_ H].
  destruct (H "access.g1.3900" eq_refl eq_refl) as (_ & _ & _ & H').
  destruct (H' (mkJwt (Some "g1") (Some 3900)) "g1"
              ltac:(vm_compute; reflexivity) ltac:(vm_compute; reflexivity)
              eq_refl eq_refl) as [_ H''].
  specialize (H'' ltac:(vm_compute; reflexivity)
                (Some (mkUser "g1" "Guest_000000"
                         "guest_3000000_k3j9x2m@guest.local" true None
                         "$2b$saltA$guest_3000000_z8y7x6w5v" USER GUEST
                         (Some "refresh.g1.607800") EMAIL true false None None
                         None None))
                ltac:(vm_compute; reflexivity)).
  cbv beta iota in H''. destruct H'' as (_ & _ & H3).
  exact (H3 eq_refl eq_refl (or_introl eq_refl)).
Defined.

(** On a cold cache the gate follows the row. *)
Example gate_cold_cache_runs :
  let e := Scenario.env 1080000 0 "" true in
  isOk (run (authenticate (U := Reference.utils) e
               (mkRequest (Some "Bearer access.u1.1970") None)) Scenario.afterLogin)
  = true
  /\ threwStatus (run (authenticate (U := Reference.utils) e
               (mkRequest None None)) Scenario.afterLogin) = Some UNAUTHORIZED
  /\ threwStatus (run (authenticate (U := Reference.utils) e
               (mkRequest (Some "Basic xyz") (Some "access.u8.1970")))
               Scenario.stCarolDave) = Some FORBIDDEN
  /\ threwStatus (run (authenticate (U := Reference.utils) e
               (mkRequest None (Some "access.u9.1970")))
               Scenario.stCarolDave) = Some FORBIDDEN
  /\ threwStatus (run (authenticate (U := Reference.utils)
               (Scenario.env 1010000 0 "" true)
               (mkRequest None (Some "access.u1.1970")))
               Scenario.afterSignup) = Some UNAUTHORIZED.
Proof. vm_compute. repeat split. Qed.

(** * Further properties of the service *)

Lemma find_app_new (p : User -> bool) (l : list User) (u : User) :
  find p l = None -> find p (l ++ [u]) = if p u then Some u else None.
Proof.
  induction l as [|v r IH]; simpl; [done|].
  destruct (p v); [done|]. exact IH.
Qed.

Lemma find_app_old (p : User -> bool) (l : list User) (u v : User) :
  find p l = Some v -> find p (l ++ [u]) = Some v.
Proof.
  induction l as [|w r IH]; simpl; [done|].
  destruct (p w); [done|]. exact IH.
Qed.

Lemma existsb_find_none (f g : User -> bool) (l : list User) :
  existsb f l = false -> (forall x, g x = true -> f x = true) ->
  find g l = None.
Proof.
  intros Hex Hfg. induction l as [|v r IH]; simpl; [done|].
  simpl in Hex. apply orb_false_elim in Hex as [Hv Hr].
  destruct (g v) eqn:Hg; [|by apply IH].
  apply Hfg in Hg. congruence.
Qed.

Section ClosedForms.
Context `{U : Utils}.

(** The row [prisma.user.create] inserts. *)
Lemma prisma_user_create_ok (e : Env) (c : CreateData) (st : State)
    (u : User) (st' : State) :
  prisma_user_create e c st = (Ok u, st') ->
  st' = mkState (db st ++ [u]) (cache st) (logs st)
  /\ id u = uuid e /\ username u = c_username c /\ email u = c_email c
  /\ isEmailVerified u = c_isEmailVerified c /\ phone u = c_phone c
  /\ password u = (if truthy (c_password c)
                   then hashPassword (salt e) (c_password c) else c_password c)
  /\ role u = USER /\ userType u = c_userType c /\ refreshToken u = None
  /\ signupMethod u = c_signupMethod c /\ isActive u = true
  /\ isDeleted u = false /\ otpCode u = None /\ otpExpiresAt u = None
  /\ profilePicture u = c_profilePicture c
  /\ find (matches (ById (uuid e))) (db st) = None
  /\ find (matches (ByEmail (c_email c))) (db st) = None.
Proof.
  unfold prisma_user_create, bind, getDb, setDb, throw, ret. simpl.
  destruct (existsb _ _) eqn:Hex; [done|]. intros [= <- <-]. simpl.
  repeat split.
  - eapply existsb_find_none; [exact Hex|]. simpl. intros x ->. reflexivity.
  - eapply existsb_find_none; [exact Hex|]. simpl. intros x Hx.
    unfold clashes. simpl. rewrite (String.eqb_sym (c_email c)), Hx.
    by rewrite orb_true_r.
Qed.

Lemma create_eq (e : Env) (p : CreatePayload) (st : State) :
  AuthRepository.create e p st =
  match prisma_user_create e
          {| c_username := p_username p; c_email := p_email p;
             c_phone := p_phone p; c_password := p_password p;
             c_signupMethod := p_signupMethod p;
             c_isEmailVerified := default false (p_isEmailVerified p);
             c_profilePicture := p_profilePicture p;
             c_userType := default REGISTERED (p_userType p) |} st with
  | (Ok u, s1) =>
      (Ok u,
       mkState (db s1)
         (<[makeKey ["user"; "email"; email u] :=
              mkEntry (CUser u) (now e + USER_CACHE_TTL * 1000)]>
            (<[makeKey ["user"; id u] :=
                 mkEntry (CUser u) (now e + USER_CACHE_TTL * 1000)]> (cache s1)))
         (logs s1))
  | (Throw x, s1) => (Throw x, s1)
  end.
Proof.
  unfold AuthRepository.create. rewrite bind_eq.
  by destruct (prisma_user_create _ _ _) as [[u|x] s1].
Qed.

Lemma updateOtp_eq (e : Env) (mail otp : string) (x : Z) (st : State) :
  AuthRepository.updateOtp e mail otp x st =
  match find (matches (ByEmail mail)) (db st) with
  | None => (Throw (Prisma P2025_NotFound), st)
  | Some u =>
      let d := mkUpdate None None None None None None None None
                 (Some (Some otp)) (Some (Some x)) None in
      (Ok (applyData d u),
       mkState (updateFirst (matches (ByEmail mail)) (applyData d) (db st))
         (delete (makeKey ["user"; id u])
            (delete (makeKey ["user"; "email"; mail]) (cache st)))
         (logs st))
  end.
Proof.
  unfold AuthRepository.updateOtp. rewrite bind_eq, prisma_user_update_eq.
  by destruct (find _ _).
Qed.

Lemma updatePassword_eq (e : Env) (mail pw : string) (st : State) :
  AuthRepository.updatePassword e mail pw st =
  match find (matches (ByEmail mail)) (db st) with
  | None => (Throw (Prisma P2025_NotFound), st)
  | Some u =>
      let d := hashedData e (mkUpdate None None None (Some pw) None None None None
                 (Some None) (Some None) None) in
      (Ok (applyData d u),
       mkState (updateFirst (matches (ByEmail mail)) (applyData d) (db st))
         (delete (makeKey ["user"; id u])
            (delete (makeKey ["user"; "email"; mail]) (cache st)))
         (logs st))
  end.
Proof.
  unfold AuthRepository.updatePassword. rewrite bind_eq, prisma_user_update_eq.
  destruct (find _ _) as [u|]; [|done].
  unfold hashedData, touchesUnique. simpl. by destruct (truthy pw).
Qed.

End ClosedForms.

Lemma updateFirst_app_new (p : User -> bool) (f : User -> User)
    (l : list User) (u : User) :
  find p l = None -> p u = true ->
  updateFirst p f (l ++ [u]) = (l ++ [f u])%list.
Proof.
  intros Hn Hu. induction l as [|v r IH]; simpl in *; [by rewrite Hu|].
  destruct (p v); [done|]. by rewrite IH.
Qed.
Section SignupFlow.
Context `{U : Utils}.

(** What a successful [signup] leaves behind. *)
Lemma signup_ok (e : Env) (p : SignupInput) (st : State) (r : Response)
    (st' : State) :
  AuthService.signup e p st = (Ok r, st') ->
  exists u,
    db st' = (db st ++ [u])%list
    /\ find (matches (ByEmail (su_email p))) (db st) = None
    /\ find (matches (ById (uuid e))) (db st) = None
    /\ id u = uuid e /\ email u = su_email p /\ username u = su_username p
    /\ phone u = su_phone p /\ signupMethod u = su_signupMethod p
    /\ isEmailVerified u = false /\ userType u = REGISTERED /\ role u = USER
    /\ isActive u = true /\ isDeleted u = false /\ refreshToken u = None
    /\ password u = (if truthy (su_password p)
                     then hashPassword (salt e) (su_password p)
                     else su_password p)
    /\ otpCode u = Some (generateOtp e)
    /\ otpExpiresAt u = Some (now e + 600000)
    /\ cache st' !! makeKey ["otp"; "emailVerification"; su_email p]
       = Some (mkEntry (CString (generateOtp e)) (now e + 600000))
    /\ r = RUser (AuthDto.safeData
                    (applyData (mkUpdate None None None None None None None None
                                  (Some None) (Some None) None) u)).
Proof.
  unfold AuthService.signup. rewrite bind_eq, findByEmail_cache_eq.
  destruct (liveUser _ _ _); [done|].
  destruct (find (matches (ByEmail (su_email p))) (db st)) eqn:Hmail; [done|].
  rewrite bind_eq, create_eq.
  destruct (prisma_user_create _ _ _) as [[u0|x] s1] eqn:Hc; [|done].
  apply prisma_user_create_ok in Hc
    as (-> & Hid & Hun & Hem & Hve & Hph & Hpw & Hro & Hty & Hrt & Hsm & Hac
        & Hde & Hoc & Hoe & Hpp & Hfid & Hfm).
  simpl in *. rewrite bind_eq, updateOtp_eq. simpl.
  assert (Hu0 : matches (ByEmail (su_email p)) u0 = true).
  { simpl. rewrite Hem. apply String.eqb_refl. }
  rewrite (find_app_new _ _ _ Hmail), Hu0. simpl.
  rewrite (updateFirst_app_new _ _ _ _ Hmail Hu0).
  rewrite bind_eq. simpl. rewrite bind_eq.
  unfold tryCatch, sendEmail.
  set (u := applyData _ u0).
  intros Hres. exists u.
  assert (Hr : r = RUser (AuthDto.safeData u0)
               /\ db st' = (db st ++ [u])%list
               /\ cache st' !! makeKey ["otp"; "emailVerification"; su_email p]
                  = Some (mkEntry (CString (generateOtp e)) (now e + 600000))).
  { destruct (emailDelivered e); simpl in Hres; injection Hres as <- <-; simpl;
      (split; [done|]; split; [done|]); by rewrite lookup_insert_eq. }
  destruct Hr as (-> & Hdb & Hca).
  subst u. simpl. rewrite Hve, Hty, Hro, Hac, Hde, Hrt, Hpw, Hid, Hem, Hun, Hph, Hsm.
  repeat split; done.
Qed.


(** The verification that follows a signup, within the ten minutes. *)
Lemma verify_after_signup (e1 e2 : Env) (p : SignupInput) (st : State)
    (r : Response) (st1 : State) :
  AuthService.signup e1 p st = (Ok r, st1) ->
  sixDigits (generateOtp e1) = true ->
  now e2 <= now e1 + 600000 ->
  exists u st2,
    AuthService.verifyOtp e2
      (mkVerifyOtp (su_email p) (generateOtp e1) EmailVerification) st1
    = (Ok (AuthDto.toLoginResponse u (generateTokens (now e2) (tokenPayload u))),
       st2)
    /\ db st2 = (db st ++
                 [applyData (mkUpdate None None None None None None None
                    (Some (Some (Token.refreshToken
                                   (generateTokens (now e2) (tokenPayload u)))))
                    None None None) u])%list
    /\ find (matches (ByEmail (su_email p))) (db st) = None
    /\ find (matches (ById (uuid e1))) (db st) = None
    /\ id u = uuid e1 /\ email u = su_email p
    /\ isEmailVerified u = true /\ isActive u = true /\ isDeleted u = false
    /\ otpCode u = None /\ otpExpiresAt u = None
    /\ password u = (if truthy (su_password p)
                     then hashPassword (salt e1) (su_password p)
                     else su_password p)
    /\ cache st2 !! makeKey ["otp"; "emailVerification"; su_email p] = None.
Proof.
  intros Hs Hd Hwin.
  apply signup_ok in Hs
    as (u & Hdb & Hmail & Hfid & Hid & Hem & Hun & Hph & Hsm & Hve & Hty & Hro
        & Hac & Hde & Hrt & Hpw & Hoc & Hoe & Hca & _).
  assert (Hu : matches (ByEmail (su_email p)) u = true).
  { simpl. rewrite Hem. apply String.eqb_refl. }
  assert (Hfind : find (matches (ByEmail (su_email p))) (db st1) = Some u).
  { by rewrite Hdb, (find_app_new _ _ _ Hmail), Hu. }
  assert (Hck : fst (AuthService.checkOtp e2 (su_email p) (generateOtp e1)
                       EmailVerification st1) = Ok tt).
  { apply checkOtp_accepts; [by apply sixDigits_truthy|].
    right. exists u, (now e1 + 600000). by repeat split. }
  rewrite verifyOtp_eq. simpl. rewrite Hck, verifyEmail_eq, Hfind. simpl.
  rewrite Hdb, (updateFirst_app_new _ _ _ _ Hmail Hu).
  rewrite updateRefreshToken_eq. simpl.
  set (u1 := applyData _ u).
  assert (Hu1 : matches (ById (id u)) u1 = true).
  { simpl. apply String.eqb_refl. }
  rewrite Hid in *.
  rewrite (find_app_new _ _ _ Hfid), Hu1. simpl.
  rewrite (updateFirst_app_new _ _ _ _ Hfid Hu1).
  exists u1. eexists. split; [reflexivity|]. simpl.
  rewrite Hid, Hem, Hac, Hde, Hpw.
  repeat split; try done.
  rewrite lookup_delete_ne by done. by rewrite lookup_delete_eq.
Qed.

Lemma isOk_run {A} (m : M A) (st : State) :
  isOk (run m st) = true -> exists a, m st = (Ok a, exec m st).
Proof.
  unfold run, exec. destruct (m st) as [[a|x] s1]; [eauto|done].
Qed.

(** X1. A successful [signup] appends exactly one row to the table: it
    has the id the database drew and the email of the payload, which no
    row had before; it is unverified, holds no refresh token, stores the
    hash of the password, and carries the generated code with an expiry
    ten minutes ahead; the same code is staged in the cache for
    emailVerification; the response is the sanitized row, without
    tokens. *)
Theorem signup_appends_unverified_row (e : Env) (p : SignupInput) (st : State) :
  isOk (run (AuthService.signup e p) st) = true ->
  exists u,
    db (exec (AuthService.signup e p) st) = (db st ++ [u])%list
    /\ find (matches (ByEmail (su_email p))) (db st) = None
    /\ id u = uuid e /\ email u = su_email p
    /\ isEmailVerified u = false /\ userType u = REGISTERED /\ role u = USER
    /\ isActive u = true /\ isDeleted u = false /\ refreshToken u = None
    /\ password u = (if truthy (su_password p)
                     then hashPassword (salt e) (su_password p)
                     else su_password p)
    /\ otpCode u = Some (generateOtp e)
    /\ otpExpiresAt u = Some (now e + 600000)
    /\ cache (exec (AuthService.signup e p) st)
         !! makeKey ["otp"; "emailVerification"; su_email p]
       = Some (mkEntry (CString (generateOtp e)) (now e + 600000))
    /\ exists v, run (AuthService.signup e p) st = Ok (RUser v)
         /\ v_id v = uuid e /\ v_email v = su_email p
         /\ v_isEmailVerified v = false.
Proof.
  intros Hok. apply isOk_run in Hok as [r Hr].
  pose proof Hr as Hr'.
  apply signup_ok in Hr
    as (u & Hdb & Hmail & Hfid & Hid & Hem & Hun & Hph & Hsm & Hve & Hty & Hro
        & Hac & Hde & Hrt & Hpw & Hoc & Hoe & Hca & ->).
  exists u. repeat split; try done.
  eexists. unfold run. rewrite Hr'. split; [reflexivity|]. simpl.
  by rewrite Hid, Hem, Hve.
Qed.


(** X3. After a signup the login with the password of the signup is
    refused with Unauthorized "Please verify your email before logging
    in"; once the code of the signup has been verified in time, the same
    login succeeds. The password is one that verifies against its own
    hash. *)
Theorem signup_verify_then_login (e1 e2 e3 : Env) (p : SignupInput) (st : State) :
  isOk (run (AuthService.signup e1 p) st) = true ->
  sixDigits (generateOtp e1) = true ->
  now e2 <= now e1 + 600000 ->
  truthy (su_password p) = true ->
  comparePassword (su_password p) (hashPassword (salt e1) (su_password p)) = true ->
  let st1 := exec (AuthService.signup e1 p) st in
  let st2 := exec (AuthService.verifyOtp e2
                     (mkVerifyOtp (su_email p) (generateOtp e1) EmailVerification))
               st1 in
  let login := AuthService.login e3 (mkLogin (su_email p) (su_password p)) in
  login st1 = (Throw (App unverifiedLogin), st1)
  /\ isOk (run login st2) = true.
Proof.
  intros Hok Hd Hwin Ht Hcmp st1 st2 login.
  apply isOk_run in Hok as [r Hr]. fold st1 in Hr.
  destruct (verify_after_signup e1 e2 p st r st1 Hr Hd Hwin)
    as (u2 & s2 & Hv & Hdb2 & Hmail & Hfid & Hid2 & Hem2 & Hve2 & Hac2 & Hde2
        & _ & _ & Hpw2 & _).
  assert (Hst2 : st2 = s2) by (unfold st2, exec; by rewrite Hv).
  apply signup_ok in Hr
    as (u & Hdb & _ & _ & Hid & Hem & Hun & Hph & Hsm & Hve & Hty & Hro
        & Hac & Hde & Hrt & Hpw & Hoc & Hoe & Hca & _).
  rewrite Ht in Hpw, Hpw2.
  split.
  - unfold login, AuthService.login, AuthRepository.findByEmailWithPassword,
      findUnique. rewrite !bind_eq. simpl.
    rewrite Hdb, (find_app_new _ _ _ Hmail). simpl.
    rewrite Hem, String.eqb_refl, Hac, Hde, Hpw, Hcmp, Hve. reflexivity.
  - unfold run, login, AuthService.login, AuthRepository.findByEmailWithPassword,
      findUnique. rewrite !bind_eq. simpl.
    rewrite Hst2, Hdb2, (find_app_new _ _ _ Hmail). simpl.
    rewrite Hem2, String.eqb_refl. simpl.
    rewrite Hac2, Hde2, Hpw2, Hcmp, Hve2. simpl.
    rewrite bind_eq, updateRefreshToken_eq. simpl.
    rewrite Hid2, Hdb2, (find_app_new _ _ _ Hfid). simpl.
    by rewrite Hid2, String.eqb_refl.
Qed.

End SignupFlow.

Lemma signup_appends_unverified_row_witness :
  exists u,
    db Scenario.afterSignup = ([] ++ [u])%list
    /\ otpCode u = Some "123456" /\ isEmailVerified u = false.
Proof.
  destruct (signup_appends_unverified_row (U := Reference.utils)
              (Scenario.env 1000000 23456 "u1" true) Scenario.alice st0
              ltac:(vm_compute; reflexivity))
    as (u & Hdb & _ & _ & _ & Hve & _ & _ & _ & _ & _ & _ & Hoc & _).
  exists u. repeat split; assumption.
Defined.


Lemma signup_verify_then_login_witness :
  AuthService.login (U := Reference.utils) (Scenario.env 1070000 0 "" true)
    (mkLogin "a@x.com" "Secret123!") Scenario.afterSignup
  = (Throw (App unverifiedLogin), Scenario.afterSignup)
  /\ isOk (run (AuthService.login (U := Reference.utils)
                  (Scenario.env 1070000 0 "" true)
                  (mkLogin "a@x.com" "Secret123!")) Scenario.afterVerify) = true.
Proof.
  apply (signup_verify_then_login (U := Reference.utils)
           (Scenario.env 1000000 23456 "u1" true)
           (Scenario.env 1060000 0 "" true)
           (Scenario.env 1070000 0 "" true) Scenario.alice st0);
    vm_compute; congruence.
Defined.
Section ResetFacts.
Context `{U : Utils}.

Lemma resetPassword_eq (e : Env) (p : ResetPasswordInput) (st : State) :
  AuthService.resetPassword e p st =
  match find (matches (ByEmail (rp_email p))) (db st) with
  | None => (Throw (App userNotFound), st)
  | Some u =>
      let d := hashedData e (mkUpdate None None None (Some (rp_password p))
                 None None None None (Some None) (Some None) None) in
      (Ok (AuthDto.toResponse (applyData d u)),
       mkState (updateFirst (matches (ByEmail (rp_email p))) (applyData d) (db st))
         (delete (makeKey ["otp"; "forgotPassword"; rp_email p])
            (delete (makeKey ["user"; id u])
               (delete (makeKey ["user"; "email"; rp_email p]) (cache st))))
         (logs st))
  end.
Proof.
  unfold AuthService.resetPassword.
  rewrite bind_eq, findByEmail_nocache_eq.
  destruct (find _ _) as [u|] eqn:Hf; [|done].
  rewrite bind_eq, updatePassword_eq, Hf. reflexivity.
Qed.

(** X4. [resetPassword] asks for no code: it succeeds exactly when a row
    with the email exists, whatever the cache and the row say about a
    one-time code, and then that row stores the hash of the new password
    with its code and expiry cleared; for an unknown email it fails with
    NotFound and changes nothing. *)
Theorem resetPassword_needs_only_a_row (e : Env) (p : ResetPasswordInput)
    (st : State) :
  (isOk (run (AuthService.resetPassword e p) st) = true
   <-> is_Some (find (matches (ByEmail (rp_email p))) (db st)))
  /\ (find (matches (ByEmail (rp_email p))) (db st) = None ->
      AuthService.resetPassword e p st = (Throw (App userNotFound), st))
  /\ (truthy (rp_password p) = true ->
      forall u, find (matches (ByEmail (rp_email p))) (db st) = Some u ->
      exists u',
        find (matches (ByEmail (rp_email p)))
          (db (exec (AuthService.resetPassword e p) st)) = Some u'
        /\ password u' = hashPassword (salt e) (rp_password p)
        /\ otpCode u' = None /\ otpExpiresAt u' = None
        /\ id u' = id u /\ refreshToken u' = refreshToken u
        /\ isEmailVerified u' = isEmailVerified u).
Proof.
  unfold run, exec. rewrite resetPassword_eq.
  destruct (find _ _) as [u|] eqn:Hf; simpl.
  - split; [split; eauto|]. split; [done|].
    intros Ht u0 [= <-]. eexists. split.
    + rewrite find_updateFirst_same, Hf; [reflexivity|].
      intros v Hv. unfold hashedData. simpl. by destruct (truthy _).
    + unfold hashedData. simpl. rewrite Ht. by repeat split.
  - split; [split; [done|by intros [? [=]]]|]. split; [done|]. by intros _ u0.
Qed.

(** X5. After a successful [resetPassword] no code verifies for
    forgotPassword any more, at any clock: the cache entry is deleted and
    the row carries no code. *)
Theorem resetPassword_consumes_code (e e' : Env) (p : ResetPasswordInput)
    (st : State) (otp : string) :
  isOk (run (AuthService.resetPassword e p) st) = true ->
  AuthService.verifyOtp e' (mkVerifyOtp (rp_email p) otp ForgotPassword)
    (exec (AuthService.resetPassword e p) st)
  = (Throw (App invalidOtp), exec (AuthService.resetPassword e p) st).
Proof.
  unfold run, exec. rewrite resetPassword_eq.
  destruct (find _ _) as [u|] eqn:Hf; simpl; [intros _|done].
  rewrite verifyOtp_eq. simpl.
  unfold AuthService.checkOtp. rewrite bind_eq. simpl.
  unfold liveString. rewrite live_delete_eq. simpl.
  rewrite bind_eq, findByEmail_nocache_eq. simpl.
  rewrite find_updateFirst_same, Hf;
    [|intros v Hv; unfold hashedData; simpl; by destruct (truthy _)].
  unfold hashedData. simpl. by destruct (truthy _).
Qed.

End ResetFacts.

Lemma resetPassword_needs_only_a_row_witness :
  isOk (run (AuthService.resetPassword (U := Reference.utils)
               (Scenario.env 1080000 0 "" true)
               (mkReset "a@x.com" "NewSecret456!")) Scenario.afterLogin) = true.
Proof.
  apply (resetPassword_needs_only_a_row (U := Reference.utils)
           (Scenario.env 1080000 0 "" true) (mkReset "a@x.com" "NewSecret456!")
           Scenario.afterLogin).
  vm_compute. eauto.
Defined.

Lemma resetPassword_consumes_code_witness :
  AuthService.verifyOtp (U := Reference.utils) (Scenario.env 1300000 0 "" true)
    (mkVerifyOtp "a@x.com" "222222" ForgotPassword)
    (exec (AuthService.resetPassword (U := Reference.utils)
             (Scenario.env 1250000 0 "" true) (mkReset "a@x.com" "NewSecret456!"))
       Scenario.afterForgotVerified)
  = (Throw (App invalidOtp),
     exec (AuthService.resetPassword (U := Reference.utils)
             (Scenario.env 1250000 0 "" true) (mkReset "a@x.com" "NewSecret456!"))
       Scenario.afterForgotVerified).
Proof.
  apply (resetPassword_consumes_code (U := Reference.utils)).
  vm_compute. reflexivity.
Defined.

Section StagedCode.
Context `{U : Utils}.

(** The verdict of [verifyOtp] in a state where the cache entry of
    (email, type) and the row found by email hold the same code with the
    same expiry. *)
Lemma staged_code_verdict (e' : Env) (st' : State) (mail code : string)
    (type : OtpType) (u : User) (x : Z) :
  find (matches (ByEmail mail)) (db st') = Some u ->
  otpCode u = Some code -> otpExpiresAt u = Some x ->
  cache st' !! makeKey ["otp"; otpTypeName type; mail]
  = Some (mkEntry (CString code) x) ->
  (forall otp, otp <> code ->
     AuthService.verifyOtp e' (mkVerifyOtp mail otp type) st'
     = (Throw (App invalidOtp), st'))
  /\ (truthy code = true -> now e' <= x ->
      isOk (run (AuthService.verifyOtp e' (mkVerifyOtp mail code type)) st') = true).
Proof.
  intros Hf Hoc Hoe Hca. split.
  - intros otp Hne. rewrite verifyOtp_eq. simpl.
    unfold AuthService.checkOtp. rewrite bind_eq. simpl.
    unfold liveString, live. rewrite Hca. simpl.
    assert (Hb : negb (bool_decide (Some code = Some otp)) = true).
    { rewrite bool_decide_eq_false_2; [done|]. congruence. }
    assert (Hfall :
      fst ((let* user := AuthRepository.findByEmail e' mail false in
            if match user with
               | Some u0 => negb (truthyO (otpCode u0))
                            || negb (bool_decide (otpCode u0 = Some otp))
               | None => true
               end
            then throwApp invalidOtp
            else if match user ≫= otpExpiresAt with
                    | Some t => t <? now e'
                    | None => true
                    end
                 then throwApp expiredOtp
                 else ret tt) st') = Throw (App invalidOtp)).
    { rewrite bind_eq, findByEmail_nocache_eq, Hf. simpl. rewrite Hoc.
      rewrite Hb, orb_true_r. reflexivity. }
    destruct (now e' <? x); simpl.
    + rewrite Hb, orb_true_r. unfold invalidOtp, expiredOtp in Hfall.
      by rewrite Hfall.
    + unfold invalidOtp, expiredOtp in Hfall. by rewrite Hfall.
  - intros Ht Hwin.
    assert (Hck : fst (AuthService.checkOtp e' mail code type st') = Ok tt).
    { apply checkOtp_accepts; [done|]. right. exists u, x. by repeat split. }
    unfold run. rewrite verifyOtp_eq. simpl. rewrite Hck.
    destruct type; [done|].
    rewrite verifyEmail_eq, Hf. simpl. rewrite updateRefreshToken_eq. simpl.
    match goal with |- context [find ?q ?l] =>
      assert (Hi : is_Some (find q l)) end.
    { eapply find_is_Some; [by apply updateFirst_In|]. simpl.
      by apply String.eqb_eq. }
    by destruct Hi as [w ->].
Qed.

(** The state in which [resendOtp] leaves the code, whether or not the
    mail goes out. *)
Lemma resendOtp_staged (e : Env) (b : bool) (p : ResendOtpInput) (st : State) :
  isOk (run (AuthService.resendOtp (withMail true e) p) st) = true ->
  let st' := exec (AuthService.resendOtp (withMail b e) p) st in
  exists u,
    find (matches (ByEmail (ro_email p))) (db st') = Some u
    /\ otpCode u = Some (generateOtp e)
    /\ otpExpiresAt u = Some (now e + 600000)
    /\ cache st' !! makeKey ["otp"; otpTypeName (ro_type p); ro_email p]
       = Some (mkEntry (CString (generateOtp e)) (now e + 600000)).
Proof.
  intros Hok st'.
  destruct (resendOtp_mail e p st) as [_ Hbad]. specialize (Hbad Hok).
  destruct Hbad as (_ & Hdb & Hca).
  assert (Hst : db st' = db (exec (AuthService.resendOtp (withMail true e) p) st)
                /\ cache st' = cache (exec (AuthService.resendOtp (withMail true e) p) st)).
  { unfold st', exec. by destruct b. }
  destruct Hst as [-> ->]. clear Hdb Hca st'.
  revert Hok. unfold run, exec, AuthService.resendOtp.
  rewrite findByEmail_withMail, updateOtp_withMail, setOtpCache_withMail,
    generateOtp_withMail.
  change (now (withMail true e)) with (now e).
  rewrite bind_eq.
  destruct (AuthRepository.findByEmail e (ro_email p) true st)
    as [[[u0|]|y] s0] eqn:Hfe; simpl; try done.
  assert (Hdb0 : db s0 = db st).
  { pose proof (findByEmail_db e (ro_email p) true st) as H. by rewrite Hfe in H. }
  rewrite bind_eq, updateOtp_eq, Hdb0.
  destruct (find (matches (ByEmail (ro_email p))) (db st)) as [row|] eqn:Hrow;
    simpl; [|done].
  intros _. eexists. split.
  - rewrite find_updateFirst_same, Hrow; [reflexivity|]. intros v Hv. exact Hv.
  - simpl. repeat split. by rewrite lookup_insert_eq.
Qed.

Lemma forgotPassword_staged (e : Env) (b : bool) (mail : string) (st : State) :
  isOk (run (AuthService.forgotPassword (withMail true e) mail) st) = true ->
  let st' := exec (AuthService.forgotPassword (withMail b e) mail) st in
  exists u,
    find (matches (ByEmail mail)) (db st') = Some u
    /\ otpCode u = Some (generateOtp e)
    /\ otpExpiresAt u = Some (now e + 600000)
    /\ cache st' !! makeKey ["otp"; "forgotPassword"; mail]
       = Some (mkEntry (CString (generateOtp e)) (now e + 600000)).
Proof.
  intros Hok st'.
  destruct (forgotPassword_mail e mail st) as [_ Hbad]. specialize (Hbad Hok).
  destruct Hbad as (_ & Hdb & Hca).
  assert (Hst : db st' = db (exec (AuthService.forgotPassword (withMail true e) mail) st)
                /\ cache st' = cache (exec (AuthService.forgotPassword (withMail true e) mail) st)).
  { unfold st', exec. by destruct b. }
  destruct Hst as [-> ->]. clear Hdb Hca st'.
  revert Hok. unfold run, exec, AuthService.forgotPassword.
  rewrite findByEmail_withMail, updateOtp_withMail, setOtpCache_withMail,
    generateOtp_withMail.
  change (now (withMail true e)) with (now e).
  rewrite bind_eq.
  destruct (AuthRepository.findByEmail e mail true st)
    as [[[u0|]|y] s0] eqn:Hfe; simpl; try done.
  assert (Hdb0 : db s0 = db st).
  { pose proof (findByEmail_db e mail true st) as H. by rewrite Hfe in H. }
  rewrite bind_eq, updateOtp_eq, Hdb0.
  destruct (find (matches (ByEmail mail)) (db st)) as [row|] eqn:Hrow;
    simpl; [|done].
  intros _. eexists. split.
  - rewrite find_updateFirst_same, Hrow; [reflexivity|]. intros v Hv. exact Hv.
  - simpl. repeat split. by rewrite lookup_insert_eq.
Qed.

(** X6. Where [resendOtp] gets as far as the mail, the new code replaces
    the old one for its (email, type) whether or not the mail goes out:
    afterwards every other code is refused for that type with BadRequest
    "Invalid or expired OTP code", and the new code verifies until its
    expiry ten minutes later. *)
Theorem resendOtp_replaces_code (e e' : Env) (b : bool) (p : ResendOtpInput)
    (st : State) :
  isOk (run (AuthService.resendOtp (withMail true e) p) st) = true ->
  let st' := exec (AuthService.resendOtp (withMail b e) p) st in
  (forall otp, otp <> generateOtp e ->
     AuthService.verifyOtp e' (mkVerifyOtp (ro_email p) otp (ro_type p)) st'
     = (Throw (App invalidOtp), st'))
  /\ (sixDigits (generateOtp e) = true -> now e' <= now e + 600000 ->
      isOk (run (AuthService.verifyOtp e'
                   (mkVerifyOtp (ro_email p) (generateOtp e) (ro_type p))) st')
      = true).
Proof.
  intros Hok st'.
  destruct (resendOtp_staged e b p st Hok) as (u & Hf & Hoc & Hoe & Hca).
  fold st' in Hf, Hca.
  destruct (staged_code_verdict e' st' _ _ _ u _ Hf Hoc Hoe Hca) as [H1 H2].
  split; [exact H1|]. intros Hd. apply H2. by apply sixDigits_truthy.
Qed.

(** X7. The same for [forgotPassword] and the purpose forgotPassword. *)
Theorem forgotPassword_replaces_code (e e' : Env) (b : bool) (mail : string)
    (st : State) :
  isOk (run (AuthService.forgotPassword (withMail true e) mail) st) = true ->
  let st' := exec (AuthService.forgotPassword (withMail b e) mail) st in
  (forall otp, otp <> generateOtp e ->
     AuthService.verifyOtp e' (mkVerifyOtp mail otp ForgotPassword) st'
     = (Throw (App invalidOtp), st'))
  /\ (sixDigits (generateOtp e) = true -> now e' <= now e + 600000 ->
      run (AuthService.verifyOtp e'
             (mkVerifyOtp mail (generateOtp e) ForgotPassword)) st'
      = Ok (RVerified true mail)).
Proof.
  intros Hok st'.
  destruct (forgotPassword_staged e b mail st Hok) as (u & Hf & Hoc & Hoe & Hca).
  fold st' in Hf, Hca.
  destruct (staged_code_verdict e' st' mail _ ForgotPassword u _ Hf Hoc Hoe Hca)
    as [H1 H2].
  split; [exact H1|]. intros Hd Hwin.
  specialize (H2 (sixDigits_truthy _ Hd) Hwin).
  unfold run in *. rewrite verifyOtp_eq in *. simpl in *.
  by destruct (fst (AuthService.checkOtp _ _ _ _ _)).
Qed.

End StagedCode.

Lemma resendOtp_replaces_code_witness :
  let st' := exec (AuthService.resendOtp (U := Reference.utils)
                     (Scenario.env 1100000 122222 "" false)
                     (mkResend "a@x.com" EmailVerification)) Scenario.afterSignup in
  AuthService.verifyOtp (U := Reference.utils) (Scenario.env 1200000 0 "" true)
    (mkVerifyOtp "a@x.com" "123456" EmailVerification) st'
  = (Throw (App invalidOtp), st')
  /\ isOk (run (AuthService.verifyOtp (U := Reference.utils)
                  (Scenario.env 1200000 0 "" true)
                  (mkVerifyOtp "a@x.com" "222222" EmailVerification)) st') = true.
Proof.
  intros st'.
  destruct (resendOtp_replaces_code (U := Reference.utils)
              (Scenario.env 1100000 122222 "" true)
              (Scenario.env 1200000 0 "" true) false
              (mkResend "a@x.com" EmailVerification) Scenario.afterSignup
              ltac:(vm_compute; reflexivity)) as [H1 H2].
  split.
  - apply (H1 "123456"). vm_compute. discriminate.
  - apply H2; vm_compute; congruence.
Defined.

Lemma forgotPassword_replaces_code_witness :
  AuthService.verifyOtp (U := Reference.utils) (Scenario.env 1200000 0 "" true)
    (mkVerifyOtp "a@x.com" "123456" ForgotPassword) Scenario.afterForgot
  = (Throw (App invalidOtp), Scenario.afterForgot)
  /\ run (AuthService.verifyOtp (U := Reference.utils)
            (Scenario.env 1200000 0 "" true)
            (mkVerifyOtp "a@x.com" "222222" ForgotPassword)) Scenario.afterForgot
     = Ok (RVerified true "a@x.com").
Proof.
  destruct (forgotPassword_replaces_code (U := Reference.utils)
              (Scenario.env 1100000 122222 "" true)
              (Scenario.env 1200000 0 "" true) true "a@x.com"
              Scenario.afterSignup ltac:(vm_compute; reflexivity)) as [H1 H2].
  split.
  - apply (H1 "123456"). vm_compute. discriminate.
  - apply H2; vm_compute; congruence.
Defined.

Section LogoutRefresh.
Context `{U : Utils}.

(** X8. A refresh token that carries an expiry and was presented to a
    successful [logout] is refused by [refreshToken] with Unauthorized at
    every clock afterwards: while its blacklist entry lives it is
    reported revoked, and the entry does not lapse before the token
    itself has expired. *)
Theorem logout_revokes_refresh (e1 e2 : Env) (userId presented : string)
    (st : State) (d : JwtPayload) (exp : Z) :
  isOk (run (AuthService.logout e1 userId presented) st) = true ->
  decodeRefresh presented = Some d -> jwt_exp d = Some exp -> exp <> 0 ->
  threwStatus (run (AuthService.refreshToken e2 presented)
                 (exec (AuthService.logout e1 userId presented) st))
  = Some UNAUTHORIZED.
Proof.
  intros Hok Hdec Hexp Hnz.
  assert (Hv : verifyRefreshToken (now e1) presented = Some d
               /\ now e1 / 1000 < exp).
  { revert Hok. unfold run, AuthService.logout. rewrite bind_eq.
    unfold verifyRefreshToken. rewrite Hdec. unfold unexpired. rewrite Hexp.
    destruct (now e1 / 1000 <? exp) eqn:Hlt; [|done]. intros _. split; [done|lia]. }
  destruct Hv as [Hv Hlt].
  assert (Hca : cache (exec (AuthService.logout e1 userId presented) st)
                  !! makeKey ["blacklist"; "token"; presented]
                = Some (mkEntry (CString "1")
                          (now e1 + (exp - now e1 / 1000) * 1000))).
  { revert Hok. unfold run, exec, AuthService.logout. rewrite bind_eq, Hv. simpl.
    rewrite bind_eq. unfold truthyZ. rewrite Hexp. simpl.
    replace (exp =? 0) with false by lia.
    replace (0 <? exp - now e1 / 1000) with true by lia. simpl.
    rewrite bind_eq, updateRefreshToken_eq. simpl.
    destruct (find _ _); simpl; [|done]. intros _.
    rewrite lookup_delete_ne by done. by rewrite lookup_insert_eq. }
  set (st' := exec (AuthService.logout e1 userId presented) st) in *.
  unfold run, AuthService.refreshToken.
  rewrite bind_eq, isTokenBlacklisted_eq. unfold live. rewrite Hca. simpl.
  destruct (now e2 <? now e1 + (exp - now e1 / 1000) * 1000) eqn:Hlive.
  - rewrite bool_decide_eq_true_2 by eauto. reflexivity.
  - rewrite bool_decide_eq_false_2 by (by intros [? [=]]).
    assert (Hexpired : verifyRefreshToken (now e2) presented = None).
    { unfold verifyRefreshToken. rewrite Hdec. unfold unexpired. rewrite Hexp.
      pose proof (Z.div_mod (now e1) 1000 ltac:(lia)).
      pose proof (Z.mod_pos_bound (now e1) 1000 ltac:(lia)).
      assert (exp <= now e2 / 1000) by (apply Z.div_le_lower_bound; lia).
      by replace (now e2 / 1000 <? exp) with false by lia. }
    by rewrite Hexpired.
Qed.

End LogoutRefresh.

Lemma logout_revokes_refresh_witness :
  threwStatus
    (run (AuthService.refreshToken (U := Reference.utils)
            (Scenario.env 1200000 0 "" true) Scenario.aliceRefresh)
       (exec (AuthService.logout (U := Reference.utils)
                (Scenario.env 1100000 0 "" true) "u1" Scenario.aliceRefresh)
          Scenario.afterLogin))
  = Some UNAUTHORIZED.
Proof.
  apply (logout_revokes_refresh (U := Reference.utils)
           (Scenario.env 1100000 0 "" true) (Scenario.env 1200000 0 "" true)
           "u1" Scenario.aliceRefresh Scenario.afterLogin
           (mkJwt (Some "u1") (Some 605870)) 605870);
    vm_compute; congruence.
Defined.

Section GuestFacts.
Context `{U : Utils}.

Lemma updateProfile_ok (e : Env) (userId : string) (d : UpdateData) (st : State)
    (u' : User) (st' : State) :
  AuthRepository.updateProfile e userId d st = (Ok u', st') ->
  exists u,
    find (matches (ById userId)) (db st) = Some u
    /\ u' = applyData (hashedData e d) u
    /\ db st' = updateFirst (matches (ById userId)) (applyData (hashedData e d)) (db st)
    /\ logs st' = logs st
    /\ forall k, (forall a, k <> makeKey ["user"; a]) ->
                 (forall a b, k <> makeKey ["user"; a; b]) ->
                 cache st' !! k = cache st !! k.
Proof.
  unfold AuthRepository.updateProfile. rewrite bind_eq, prisma_user_update_eq.
  destruct (find _ _) as [u|] eqn:Hf; [|done].
  destruct (_ && _); [done|].
  remember (applyData (hashedData e d) u) as u1 eqn:Hu1.
  intros Hres. exists u. split; [done|].
  unfold bind, cacheDel, ret in Hres.
  destruct (truthyO (phone u1)); cbn in Hres; injection Hres as <- <-; cbn;
    (repeat split; try done); intros k H1 H2;
    rewrite ?lookup_delete_ne; try done; auto.
Qed.

(** What a successful [guestLogin] leaves behind. *)
Lemma guestLogin_ok (e : Env) (n : option string) (st : State) (r : Response)
    (st' : State) :
  AuthService.guestLogin e n st = (Ok r, st') ->
  exists u,
    db st' = (db st ++ [u])%list
    /\ find (matches (ById (uuid e))) (db st) = None
    /\ id u = uuid e
    /\ email u = "guest_" +:+ pretty (now e) +:+ "_"
                 +:+ substring_2_9 (random36 e) +:+ "@guest.local"
    /\ userType u = GUEST /\ isEmailVerified u = true /\ role u = USER
    /\ isActive u = true /\ isDeleted u = false
    /\ otpCode u = None /\ otpExpiresAt u = None
    /\ refreshToken u
       = Some (Token.refreshToken (generateTokens (now e) (tokenPayload u)))
    /\ r = AuthDto.toLoginResponse u (generateTokens (now e) (tokenPayload u))
    /\ cache st' !! makeKey ["user"; uuid e] = None
    /\ (forall k, cache st' !! makeKey ["auth"; "user"; k]
                  = cache st !! makeKey ["auth"; "user"; k])
    /\ (forall t, cache st' !! makeKey ["blacklist"; "token"; t]
                  = cache st !! makeKey ["blacklist"; "token"; t]).
Proof.
  unfold AuthService.guestLogin. rewrite bind_eq, create_eq.
  destruct (prisma_user_create _ _ _) as [[u0|x] s1] eqn:Hc; [|done].
  apply prisma_user_create_ok in Hc
    as (-> & Hid & Hun & Hem & Hve & Hph & Hpw & Hro & Hty & Hrt & Hsm & Hac
        & Hde & Hoc & Hoe & Hpp & Hfid & Hfm).
  simpl in *. rewrite bind_eq, updateRefreshToken_eq. simpl.
  assert (Hu0 : matches (ById (id u0)) u0 = true).
  { simpl. apply String.eqb_refl. }
  rewrite Hid in *.
  rewrite (find_app_new _ _ _ Hfid), Hu0. simpl.
  rewrite (updateFirst_app_new _ _ _ _ Hfid Hu0).
  rewrite bind_eq. simpl.
  intros [= <- <-]. eexists. split; [reflexivity|]. simpl.
  rewrite Hid, Hem, Hve, Hty, Hro, Hac, Hde, Hoc, Hoe.
  repeat split; try done.
  - by rewrite lookup_delete_eq.
  - intros k. rewrite lookup_delete_ne by done.
    by rewrite !lookup_insert_ne.
  - intros t. rewrite lookup_delete_ne by done.
    by rewrite !lookup_insert_ne.
Qed.

(** X9. A successful [guestLogin] appends one row under the id the
    database drew: a GUEST with a synthesized [@guest.local] address,
    verified from the start, with no one-time code, whose stored refresh
    token is the one of the returned pair. *)
Theorem guestLogin_creates_verified_guest (e : Env) (n : option string)
    (st : State) :
  isOk (run (AuthService.guestLogin e n) st) = true ->
  exists u,
    db (exec (AuthService.guestLogin e n) st) = (db st ++ [u])%list
    /\ id u = uuid e
    /\ email u = "guest_" +:+ pretty (now e) +:+ "_"
                 +:+ substring_2_9 (random36 e) +:+ "@guest.local"
    /\ userType u = GUEST /\ isEmailVerified u = true
    /\ otpCode u = None /\ otpExpiresAt u = None
    /\ exists v pair,
         run (AuthService.guestLogin e n) st = Ok (RLogin v pair)
         /\ pair = generateTokens (now e) (tokenPayload u)
         /\ refreshToken u = Some (Token.refreshToken pair)
         /\ v_id v = uuid e /\ v_userType v = GUEST /\ v_isEmailVerified v = true.
Proof.
  intros Hok. apply isOk_run in Hok as [r Hr]. pose proof Hr as Hr'.
  apply guestLogin_ok in Hr
    as (u & Hdb & _ & Hid & Hem & Hty & Hve & _ & _ & _ & Hoc & Hoe & Hrt & -> & _).
  exists u. repeat split; try done.
  eexists _, _. unfold run. rewrite Hr'. split; [reflexivity|].
  simpl. by rewrite Hid, Hty, Hve.
Qed.

(** X10. After a [guestLogin] the request gate accepts, with no
    verification step in between, every request whose token verifies to
    the new id, is not blacklisted, and for whose id the gate's cache has
    no live entry: the guest row itself is attached. *)
Theorem guest_passes_gate (e e2 : Env) (n : option string) (st : State)
    (req : Request) (t : string) (d : JwtPayload) :
  isOk (run (AuthService.guestLogin e n) st) = true ->
  truthy (uuid e) = true ->
  bearerToken req = Some t -> truthy t = true ->
  live (now e2) (cache st) (makeKey ["blacklist"; "token"; t]) = None ->
  verifyToken (now e2) t = Some d -> jwt_id d = Some (uuid e) ->
  liveAuthUser (now e2) (cache st) (makeKey ["auth"; "user"; uuid e]) = None ->
  exists u,
    last (db (exec (AuthService.guestLogin e n) st)) = Some u
    /\ run (authenticate e2 req) (exec (AuthService.guestLogin e n) st)
       = Ok (projection u)
    /\ au_userType (projection u) = GUEST.
Proof.
  intros Hok Hti Hb Htt Hbl Hv Hi Hau.
  apply isOk_run in Hok as [r Hr].
  apply guestLogin_ok in Hr
    as (u & Hdb & Hfid & Hid & Hem & Hty & Hve & Hro & Hac & Hde & Hoc & Hoe & Hrt
        & _ & Hcu & Hca & Hcb).
  set (st' := exec (AuthService.guestLogin e n) st) in *.
  exists u. split; [by rewrite Hdb, last_snoc|]. split; [|exact Hty].
  unfold run, authenticate. rewrite Hb. simpl. rewrite Htt. simpl.
  rewrite bind_eq, isTokenBlacklisted_eq.
  assert (Hbl' : live (now e2) (cache st') (makeKey ["blacklist"; "token"; t]) = None).
  { unfold live in *. by rewrite Hcb. }
  rewrite Hbl', bool_decide_eq_false_2 by (by intros [? [=]]).
  rewrite Hv, Hi. simpl. rewrite Hti. simpl.
  rewrite bind_eq. unfold cacheGetAuthUser. rewrite bind_eq. simpl.
  assert (Hau' : liveAuthUser (now e2) (cache st')
                   (makeKey ["auth"; "user"; uuid e]) = None).
  { unfold liveAuthUser, live in *. by rewrite Hca. }
  rewrite Hau'. rewrite !bind_eq, findById_eq.
  unfold liveUser, live. rewrite Hcu.
  assert (Hu : matches (ById (uuid e)) u = true).
  { simpl. rewrite Hid. apply String.eqb_refl. }
  rewrite Hdb, (find_app_new _ _ _ Hfid), Hu. simpl.
  rewrite Hac, Hde, Hve. simpl. unfold projection. by rewrite Hve, Hac.
Qed.

End GuestFacts.

Lemma guestLogin_creates_verified_guest_witness :
  exists u,
    db Scenario.afterGuestLogin = (db Scenario.afterLogin ++ [u])%list
    /\ userType u = GUEST /\ isEmailVerified u = true.
Proof.
  destruct (guestLogin_creates_verified_guest (U := Reference.utils)
              (Scenario.env 3000000 0 "g1" true) None Scenario.afterLogin
              ltac:(vm_compute; reflexivity))
    as (u & Hdb & _ & _ & Hty & Hve & _).
  exists u. repeat split; assumption.
Defined.

Lemma guest_passes_gate_witness :
  exists u,
    last (db Scenario.afterGuestLogin) = Some u
    /\ run (authenticate (U := Reference.utils) (Scenario.env 3010000 0 "" true)
              Scenario.guestBearer) Scenario.afterGuestLogin
       = Ok (projection u)
    /\ au_userType (projection u) = GUEST.
Proof.
  apply (guest_passes_gate (U := Reference.utils)
           (Scenario.env 3000000 0 "g1" true) (Scenario.env 3010000 0 "" true)
           None Scenario.afterLogin Scenario.guestBearer "access.g1.3900"
           (mkJwt (Some "g1") (Some 3900)));
    vm_compute; reflexivity.
Defined.

Lemma isOk_false_run {A} (m : M A) (st : State) :
  isOk (run m st) = false -> exists x, m st = (Throw x, exec m st).
Proof.
  unfold run, exec. destruct (m st) as [[a|x] s]; [done|]. by exists x.
Qed.

Section LoginFacts.
Context `{U : Utils}.

Lemma updateRefreshToken_found (e : Env) (u : User) (t : option string)
    (st : State) :
  In u (db st) ->
  exists v, find (matches (ById (id u))) (db st) = Some v
    /\ AuthRepository.updateRefreshToken e (id u) t st
       = (Ok (applyData (mkUpdate None None None None None None None (Some t)
                           None None None) v),
          mkState (updateFirst (matches (ById (id u)))
                     (applyData (mkUpdate None None None None None None None
                                   (Some t) None None None)) (db st))
            (delete (makeKey ["user"; id u]) (cache st)) (logs st)).
Proof.
  intros Hin. rewrite updateRefreshToken_eq.
  destruct (find_is_Some (matches (ById (id u))) (db st) u Hin) as [v Hv].
  { simpl. apply String.eqb_refl. }
  exists v. by rewrite Hv.
Qed.

(** X11. A [login] that fails changes nothing (no row, no cache entry,
    no log line), and fails with 401 or 403, never with an error of the
    persistence layer. *)
Theorem login_failure_is_silent (e : Env) (p : LoginInput) (st : State) :
  isOk (run (AuthService.login e p) st) = false ->
  exec (AuthService.login e p) st = st
  /\ (threwStatus (run (AuthService.login e p) st) = Some UNAUTHORIZED
      \/ threwStatus (run (AuthService.login e p) st) = Some FORBIDDEN).
Proof.
  unfold run, exec, AuthService.login, AuthRepository.findByEmailWithPassword.
  rewrite bind_eq. simpl.
  destruct (find _ _) as [u|] eqn:Hf; [|intros _; split; [done|by left]].
  destruct (isActive u); simpl; [|intros _; split; [done|by right]].
  destruct (isDeleted u); simpl; [intros _; split; [done|by right]|].
  destruct (comparePassword _ _); simpl; [|intros _; split; [done|by left]].
  destruct (isEmailVerified u); simpl; [|intros _; split; [done|by left]].
  rewrite bind_eq.
  apply find_some in Hf as [Hin _].
  destruct (updateRefreshToken_found e u
              (Some (Token.refreshToken (generateTokens (now e) (tokenPayload u))))
              st Hin) as (v & _ & ->).
  done.
Qed.

(** X12. A [login] succeeds only for the row found by the email when it
    is active, not deleted, verified and the password compares equal; it
    answers that row's sanitized view with a fresh pair, and the only
    write is the pair's refresh token on the row with that id. *)
Theorem login_success_writes_refresh_only (e : Env) (p : LoginInput)
    (st : State) :
  isOk (run (AuthService.login e p) st) = true ->
  exists u,
    find (matches (ByEmail (li_email p))) (db st) = Some u
    /\ isActive u = true /\ isDeleted u = false /\ isEmailVerified u = true
    /\ comparePassword (li_password p) (password u) = true
    /\ run (AuthService.login e p) st
       = Ok (RLogin (AuthDto.safeData u) (generateTokens (now e) (tokenPayload u)))
    /\ db (exec (AuthService.login e p) st)
       = updateFirst (matches (ById (id u)))
           (applyData (mkUpdate None None None None None None None
              (Some (Some (Token.refreshToken
                             (generateTokens (now e) (tokenPayload u)))))
              None None None))
           (db st)
    /\ logs (exec (AuthService.login e p) st) = logs st.
Proof.
  unfold run, exec, AuthService.login, AuthRepository.findByEmailWithPassword.
  rewrite bind_eq. simpl.
  destruct (find _ _) as [u|] eqn:Hf; [|done].
  destruct (isActive u) eqn:Ha; simpl; [|done].
  destruct (isDeleted u) eqn:Hd; simpl; [done|].
  destruct (comparePassword _ _) eqn:Hc; simpl; [|done].
  destruct (isEmailVerified u) eqn:Hv; simpl; [|done].
  rewrite bind_eq.
  pose proof Hf as Hf'. apply find_some in Hf' as [Hin _].
  destruct (updateRefreshToken_found e u
              (Some (Token.refreshToken (generateTokens (now e) (tokenPayload u))))
              st Hin) as (v & _ & ->).
  intros _. exists u. by repeat split.
Qed.

(** X13. [updateProfile] of the service: for an id with no row the
    caller gets the persistence layer's not-found error, not an
    application error, and nothing changes; when it succeeds, the row
    with that id has the submitted username, phone and picture (each kept
    when not submitted) and every other column as before, and the answer
    is that row's sanitized view. *)
Theorem updateProfile_touches_only_profile (e : Env) (userId : string)
    (p : UpdateProfileInput) (st : State) :
  (find (matches (ById userId)) (db st) = None ->
   AuthService.updateProfile e userId p st = (Throw (Prisma P2025_NotFound), st))
  /\ (isOk (run (AuthService.updateProfile e userId p) st) = true ->
      exists u u',
        find (matches (ById userId)) (db st) = Some u
        /\ find (matches (ById userId))
             (db (exec (AuthService.updateProfile e userId p) st)) = Some u'
        /\ run (AuthService.updateProfile e userId p) st
           = Ok (RUser (AuthDto.safeData u'))
        /\ username u' = default (username u) (up_username p)
        /\ phone u' = match up_phone p with Some x => Some x | None => phone u end
        /\ profilePicture u'
           = match up_profilePicture p with
             | Some x => Some x
             | None => profilePicture u
             end
        /\ id u' = id u /\ email u' = email u /\ password u' = password u
        /\ role u' = role u /\ userType u' = userType u
        /\ isEmailVerified u' = isEmailVerified u
        /\ refreshToken u' = refreshToken u
        /\ signupMethod u' = signupMethod u
        /\ isActive u' = isActive u /\ isDeleted u' = isDeleted u
        /\ otpCode u' = otpCode u /\ otpExpiresAt u' = otpExpiresAt u).
Proof.
  split.
  - intros Hf. unfold AuthService.updateProfile, AuthRepository.updateProfile.
    rewrite !bind_eq, prisma_user_update_eq, Hf. reflexivity.
  - intros Hok. apply isOk_run in Hok as [r Hr].
    unfold run, exec. unfold AuthService.updateProfile in *.
    rewrite bind_eq in Hr. rewrite bind_eq.
    destruct (AuthRepository.updateProfile _ _ _ _) as [[u'|x] s1] eqn:Hu; [|done].
    apply updateProfile_ok in Hu as (u & Hf & -> & Hdb & _).
    exists u, (applyData (mkUpdate (up_username p) None (up_phone p) None None
                            None None None None None (up_profilePicture p)) u).
    simpl. rewrite Hdb.
    rewrite find_updateFirst_same, Hf; [by repeat split|].
    by intros v Hv.
Qed.

End LoginFacts.

Lemma login_failure_is_silent_witness :
  exec (AuthService.login (U := Reference.utils) (Scenario.env 2000000 0 "" true)
          (mkLogin "a@x.com" "wrong")) Scenario.afterVerify
  = Scenario.afterVerify.
Proof.
  apply (login_failure_is_silent (U := Reference.utils)
           (Scenario.env 2000000 0 "" true)
           (mkLogin "a@x.com" "wrong") Scenario.afterVerify).
  vm_compute; reflexivity.
Defined.

Lemma login_success_writes_refresh_only_witness :
  exists u,
    find (matches (ByEmail "a@x.com")) (db Scenario.afterVerify) = Some u
    /\ isEmailVerified u = true.
Proof.
  destruct (login_success_writes_refresh_only (U := Reference.utils)
              (Scenario.env 2000000 0 "" true)
              (mkLogin "a@x.com" "Secret123!") Scenario.afterVerify
              ltac:(vm_compute; reflexivity))
    as (u & Hf & _ & _ & Hv & _).
  exists u. split; assumption.
Defined.

Lemma updateProfile_touches_only_profile_witness :
  exists u',
    find (matches (ById "u1"))
      (db (exec (AuthService.updateProfile (U := Reference.utils)
                   (Scenario.env 2000000 0 "" true) "u1"
                   (mkProfile (Some "alice2") None None)) Scenario.afterVerify))
    = Some u'
    /\ username u' = "alice2" /\ email u' = "a@x.com".
Proof.
  destruct (updateProfile_touches_only_profile (U := Reference.utils)
              (Scenario.env 2000000 0 "" true) "u1"
              (mkProfile (Some "alice2") None None) Scenario.afterVerify)
    as [_ H].
  destruct (H ltac:(vm_compute; reflexivity))
    as (u & u' & Hf & Hf' & _ & Hn & _ & _ & _ & Hm & _).
  exists u'. split; [exact Hf'|].
  vm_compute in Hf. injection Hf as <-. split; [exact Hn|exact Hm].
Defined.

Section ConvertFacts.
Context `{U : Utils}.

Lemma findById_db (e : Env) (i : string) (st : State) :
  db (snd (AuthRepository.findById e i st)) = db st
  /\ logs (snd (AuthRepository.findById e i st)) = logs st.
Proof.
  rewrite findById_eq. destruct (liveUser _ _ _); [done|].
  by destruct (find _ _).
Qed.

Lemma findByEmail_logs (e : Env) (mail : string) (st : State) :
  logs (snd (AuthRepository.findByEmail e mail true st)) = logs st.
Proof.
  rewrite findByEmail_cache_eq. destruct (liveUser _ _ _); [done|].
  by destruct (find _ _).
Qed.

Lemma matches_ById_id (i : string) (u : User) :
  matches (ById i) u = true -> id u = i.
Proof. simpl. by intros ?%String.eqb_eq. Qed.

(** What a successful [convertGuestToRegistered] leaves behind. *)
Lemma convertGuestToRegistered_ok (e : Env) (userId : string)
    (p : ConvertGuestToRegisteredInput) (st : State) (r : Response)
    (st' : State) :
  AuthService.convertGuestToRegistered e userId p st = (Ok r, st') ->
  exists g row u',
    fst (AuthRepository.findById e userId st) = Ok (Some g)
    /\ userType g = GUEST
    /\ find (matches (ById userId)) (db st) = Some row
    /\ find (matches (ById userId)) (db st') = Some u'
    /\ id u' = userId /\ email u' = cg_email p
    /\ userType u' = REGISTERED /\ isEmailVerified u' = false
    /\ signupMethod u' = EMAIL /\ role u' = role row
    /\ isActive u' = isActive row /\ isDeleted u' = isDeleted row
    /\ password u' = (if truthy (cg_password p)
                      then hashPassword (salt e) (cg_password p)
                      else cg_password p)
    /\ refreshToken u'
       = Some (Token.refreshToken
                 (generateTokens (now e)
                    (mkTokenPayload userId (cg_email p) (role row))))
    /\ (exists v, r = RLogin v (generateTokens (now e)
                                  (mkTokenPayload userId (cg_email p) (role row)))
                  /\ v_id v = userId /\ v_email v = cg_email p
                  /\ v_userType v = REGISTERED /\ v_isEmailVerified v = false
                  /\ v_password v = None /\ v_refreshToken v = None
                  /\ v_otpCode v = None)
    /\ cache st' !! makeKey ["user"; userId] = None
    /\ cache st' !! makeKey ["otp"; "emailVerification"; cg_email p]
       = Some (mkEntry (CString (generateOtp e)) (now e + 600000)).
Proof.
  unfold AuthService.convertGuestToRegistered. rewrite bind_eq.
  destruct (AuthRepository.findById e userId st) as [[[g|]|x] s1] eqn:Hg; try done.
  pose proof (findById_db e userId st) as [Hdb1 _]. rewrite Hg in Hdb1. simpl in Hdb1.
  destruct (bool_decide (userType g = GUEST)) eqn:Hgt; [|done].
  apply bool_decide_eq_true_1 in Hgt. simpl.
  rewrite bind_eq.
  destruct (AuthRepository.findByEmail e (cg_email p) true s1) as [[ex|x] s2] eqn:Hex;
    [|done].
  pose proof (findByEmail_db e (cg_email p) true s1) as Hdb2.
  rewrite Hex in Hdb2. simpl in Hdb2.
  destruct (match ex with Some x => _ | None => false end); [done|].
  rewrite bind_eq.
  destruct (AuthRepository.updateProfile _ _ _ s2) as [[up|x] s3] eqn:Hup; [|done].
  apply updateProfile_ok in Hup as (row & Hrow & -> & Hdb3 & _ & Hc3).
  rewrite Hdb2, Hdb1 in Hrow, Hdb3.
  remember (hashedData e _) as d1 eqn:Hd1 in Hdb3.
  assert (Hd1f : d_email d1 = Some (cg_email p) /\ d_userType d1 = None
                 /\ d_isEmailVerified d1 = None /\ d_signupMethod d1 = Some EMAIL
                 /\ d_refreshToken d1 = None
                 /\ d_password d1 = Some (if truthy (cg_password p)
                                          then hashPassword (salt e) (cg_password p)
                                          else cg_password p)).
  { subst d1. unfold hashedData. simpl. by destruct (truthy (cg_password p)). }
  destruct Hd1f as (Hd1e & Hd1t & Hd1v & Hd1s & Hd1r & Hd1p).
  clear Hd1.
  rewrite bind_eq, prisma_user_update_eq, Hdb3.
  rewrite find_updateFirst_same, Hrow by (by intros v Hv).
  cbn [fmap option_fmap option_map].
  replace (hashedData e _) with
    (mkUpdate None None None None None (Some false) (Some REGISTERED)
       None None None None) by reflexivity.
  set (d2 := mkUpdate None None None None None (Some false) (Some REGISTERED)
                None None None None).
  assert (Ht : touchesUnique d2 = false) by reflexivity.
  rewrite Ht. cbn [andb].
  set (fu := applyData d2 (applyData d1 row)).
  assert (Hid : id row = userId) by (apply matches_ById_id; by apply find_some in Hrow as [_ ?]).
  assert (Hfu : id fu = userId) by exact Hid.
  rewrite bind_eq, updateRefreshToken_eq, Hfu.
  cbn [db].
  rewrite !find_updateFirst_same, Hrow by (by intros v Hv).
  cbn [fmap option_fmap option_map].
  cbv zeta.
  set (tok := generateTokens (now e) (tokenPayload fu)).
  set (d3 := mkUpdate None None None None None None None
               (Some (Some (Token.refreshToken tok))) None None None).
  rewrite bind_eq, updateOtp_eq. cbn [db cache logs].
  set (db5 := updateFirst (matches (ById userId)) (applyData d3) _).
  assert (H5 : find (matches (ById userId)) db5 = Some (applyData d3 fu)).
  { subst db5. rewrite !find_updateFirst_same, Hrow by (by intros v Hv). done. }
  destruct (find (matches (ByEmail (cg_email p))) db5) as [w|] eqn:Hw; [|done].
  cbv zeta.
  set (d4 := mkUpdate None None None None None None None None
               (Some (Some (generateOtp e))) (Some (Some (now e + 10 * 60 * 1000)))
               None).
  pose proof (find_updateFirst_other (matches (ById userId))
                (matches (ByEmail (cg_email p))) (applyData d4) db5
                ltac:(done)) as H6.
  rewrite H5 in H6.
  set (db6 := updateFirst (matches (ByEmail (cg_email p))) (applyData d4) db5) in *.
  set (c6 := delete (makeKey ["user"; id w]) _).
  intros Hres.
  assert (Hr : r = AuthDto.toLoginResponse fu tok /\ db st' = db6
               /\ cache st' = <[makeKey ["otp"; "emailVerification"; cg_email p] :=
                                  mkEntry (CString (generateOtp e)) (now e + 600000)]> c6).
  { unfold bind, AuthRepository.setOtpCache, cacheSet, tryCatch, sendEmail, logger,
      ret, throw, getCache, setCache, bind in Hres.
    destruct (emailDelivered e); cbn in Hres; injection Hres as <- <-; done. }
  destruct Hr as (-> & Hdb' & Hc').
  assert (Hfields : forall u', u' = applyData d3 fu \/ u' = applyData d4 (applyData d3 fu) ->
            id u' = userId /\ email u' = cg_email p
            /\ userType u' = REGISTERED /\ isEmailVerified u' = false
            /\ signupMethod u' = EMAIL /\ role u' = role row
            /\ isActive u' = isActive row /\ isDeleted u' = isDeleted row
            /\ password u' = (if truthy (cg_password p)
                              then hashPassword (salt e) (cg_password p)
                              else cg_password p)
            /\ refreshToken u' = Some (Token.refreshToken tok)).
  { intros u' [-> | ->]; subst fu; simpl; rewrite Hd1e, Hd1s, Hd1p; by repeat split. }
  assert (Htok : tok = generateTokens (now e)
                         (mkTokenPayload userId (cg_email p) (role row))).
  { subst tok fu. unfold tokenPayload. simpl. by rewrite Hd1e, Hid. }
  exists g, row.
  assert (Hex' : exists u', find (matches (ById userId)) db6 = Some u'
            /\ (u' = applyData d3 fu \/ u' = applyData d4 (applyData d3 fu))).
  { destruct H6 as [H6|H6]; eexists; (split; [exact H6|]); [by left|by right]. }
  destruct Hex' as (u' & Hu' & Hcase).
  exists u'. rewrite Hdb', Hu', <- Htok.
  destruct (Hfields u' Hcase) as (? & ? & ? & ? & ? & ? & ? & ? & ? & ?).
  repeat split; try done.
  - eexists. split; [reflexivity|]. subst fu. simpl. rewrite Hd1e. by repeat split.
  - rewrite Hc', lookup_insert_ne by done. subst c6.
    apply lookup_delete_None. right. apply lookup_delete_None. right.
    apply lookup_delete_eq.
  - rewrite Hc'. apply lookup_insert_eq.
Qed.

(** X14. [convertGuestToRegistered] refuses every account that is not a
    guest with 400 "User is already registered", writing no row and
    no log line, whatever email and password are submitted. *)
Theorem convertGuest_refuses_registered (e : Env) (userId : string)
    (p : ConvertGuestToRegisteredInput) (st : State) (u : User) :
  run (AuthRepository.findById e userId) st = Ok (Some u) ->
  userType u = REGISTERED ->
  run (AuthService.convertGuestToRegistered e userId p) st
  = Throw (App (AppErr.badRequest "User is already registered"
                  [mkVE "userType" "User is already registered"]))
  /\ db (exec (AuthService.convertGuestToRegistered e userId p) st) = db st
  /\ logs (exec (AuthService.convertGuestToRegistered e userId p) st) = logs st.
Proof.
  unfold run, exec, AuthService.convertGuestToRegistered. intros Hf Hty.
  rewrite bind_eq.
  pose proof (findById_db e userId st) as [Hdb Hlg].
  destruct (AuthRepository.findById e userId st) as [[[g|]|x] s1]; simpl in Hf;
    try done.
  injection Hf as ->. rewrite Hty. simpl. done.
Qed.

(** X15. A successful [convertGuestToRegistered] leaves the row of that
    id REGISTERED, unverified, EMAIL-signed-up under the submitted
    address, with the submitted password hashed once and the refresh
    token of the returned pair; role, activity and deletion flags are
    kept; the answer carries no password, token or code; and the
    verification code is staged in the cache for ten minutes. *)
Theorem convertGuest_effects (e : Env) (userId : string)
    (p : ConvertGuestToRegisteredInput) (st : State) :
  isOk (run (AuthService.convertGuestToRegistered e userId p) st) = true ->
  exists row u' v pair,
    find (matches (ById userId)) (db st) = Some row
    /\ find (matches (ById userId))
         (db (exec (AuthService.convertGuestToRegistered e userId p) st)) = Some u'
    /\ run (AuthService.convertGuestToRegistered e userId p) st = Ok (RLogin v pair)
    /\ pair = generateTokens (now e)
                (mkTokenPayload userId (cg_email p) (role row))
    /\ id u' = userId /\ email u' = cg_email p
    /\ userType u' = REGISTERED /\ isEmailVerified u' = false
    /\ signupMethod u' = EMAIL /\ role u' = role row
    /\ isActive u' = isActive row /\ isDeleted u' = isDeleted row
    /\ password u' = (if truthy (cg_password p)
                      then hashPassword (salt e) (cg_password p)
                      else cg_password p)
    /\ refreshToken u' = Some (Token.refreshToken pair)
    /\ v_id v = userId /\ v_email v = cg_email p
    /\ v_userType v = REGISTERED /\ v_isEmailVerified v = false
    /\ v_password v = None /\ v_refreshToken v = None /\ v_otpCode v = None
    /\ cache (exec (AuthService.convertGuestToRegistered e userId p) st)
         !! makeKey ["otp"; "emailVerification"; cg_email p]
       = Some (mkEntry (CString (generateOtp e)) (now e + 600000)).
Proof.
  intros Hok. apply isOk_run in Hok as [r Hr]. pose proof Hr as Hr'.
  apply convertGuestToRegistered_ok in Hr
    as (g & row & u' & _ & _ & Hrow & Hu' & H1 & H2 & H3 & H4 & H5 & H6 & H7 & H8
        & H9 & H10 & (v & -> & V1 & V2 & V3 & V4 & V5 & V6 & V7) & _ & Hc).
  exists row, u', v, (generateTokens (now e)
                        (mkTokenPayload userId (cg_email p) (role row))).
  unfold run. rewrite Hr'. by repeat split.
Qed.

(** X16. Conversion is one-shot: after a successful
    [convertGuestToRegistered], every further conversion of the same id
    is refused with 400 "User is already registered". *)
Theorem convertGuest_is_one_shot (e1 e2 : Env) (userId : string)
    (p1 p2 : ConvertGuestToRegisteredInput) (st : State) :
  isOk (run (AuthService.convertGuestToRegistered e1 userId p1) st) = true ->
  run (AuthService.convertGuestToRegistered e2 userId p2)
    (exec (AuthService.convertGuestToRegistered e1 userId p1) st)
  = Throw (App (AppErr.badRequest "User is already registered"
                  [mkVE "userType" "User is already registered"])).
Proof.
  intros Hok. apply isOk_run in Hok as [r Hr].
  apply convertGuestToRegistered_ok in Hr
    as (g & row & u' & _ & _ & _ & Hu' & _ & _ & Hty & _ & _ & _ & _ & _ & _ & _ & _
        & Hc & _).
  set (st1 := exec _ st) in *.
  unfold run, AuthService.convertGuestToRegistered.
  rewrite bind_eq, findById_eq.
  unfold liveUser, live. rewrite Hc, Hu'. rewrite Hty. reflexivity.
Qed.

End ConvertFacts.

Lemma convertGuest_refuses_registered_witness :
  db (exec (AuthService.convertGuestToRegistered (U := Reference.utils)
              (Scenario.env 2000000 0 "" true) "u1"
              (mkConvert "b@x.com" "Another123!" None)) Scenario.afterVerify)
  = db Scenario.afterVerify.
Proof.
  eapply (convertGuest_refuses_registered (U := Reference.utils)
            (Scenario.env 2000000 0 "" true) "u1"
            (mkConvert "b@x.com" "Another123!" None) Scenario.afterVerify);
    vm_compute; reflexivity.
Defined.

Lemma convertGuest_effects_witness :
  exists u',
    find (matches (ById "g1")) (db Scenario.afterConvert) = Some u'
    /\ userType u' = REGISTERED /\ isEmailVerified u' = false.
Proof.
  destruct (convertGuest_effects (U := Reference.utils)
              (Scenario.env 3020000 33333 "" true) "g1" (mkConvert "g@x.com" "GuestPw1!" None)
              Scenario.afterGuestRequest ltac:(vm_compute; reflexivity))
    as (row & u' & v & pair & _ & Hu' & _ & _ & _ & _ & Hty & Hve & _).
  exists u'. repeat split; assumption.
Defined.

Lemma convertGuest_is_one_shot_witness :
  threwStatus
    (run (AuthService.convertGuestToRegistered (U := Reference.utils)
            (Scenario.env 4000000 0 "" true) "g1"
            (mkConvert "c@x.com" "Another123!" None)) Scenario.afterConvert)
  = Some BAD_REQUEST.
Proof.
  unfold Scenario.afterConvert.
  rewrite (convertGuest_is_one_shot (U := Reference.utils)
             (Scenario.env 3020000 33333 "" true) (Scenario.env 4000000 0 "" true) "g1"
             (mkConvert "g@x.com" "GuestPw1!" None) (mkConvert "c@x.com" "Another123!" None)
             Scenario.afterGuestRequest ltac:(vm_compute; reflexivity)).
  reflexivity.
Defined.

Section GoogleFacts.
Context `{U : Utils}.

(** X17. [googleAuth] with an id token that Firebase rejects answers
    401 after one error log line and writes no row; with a token that
    carries no email it answers 400 and changes nothing at all. *)
Theorem googleAuth_token_rejections (e : Env) (p : GoogleAuthInput) (st : State) :
  (verifyIdToken (idToken p) = None ->
   AuthService.googleAuth e p st
   = (Throw (App (AppErr.unauthorized "Invalid or expired Firebase token" [])),
      mkState (db st) (cache st)
        (logs st ++ [(LError, "Firebase token verification failed")])))
  /\ (forall d, verifyIdToken (idToken p) = Some d ->
        truthyO (dt_email d) = false ->
        AuthService.googleAuth e p st
        = (Throw (App (AppErr.badRequest
                         "Email is required for Google authentication"
                         [mkVE "idToken"
                            "Email is required for Google authentication"])),
           st)).
Proof.
  split.
  - intros Hv. unfold AuthService.googleAuth, verifyFirebaseToken.
    rewrite Hv. reflexivity.
  - intros d Hv He. unfold AuthService.googleAuth, verifyFirebaseToken.
    rewrite Hv, bind_eq. simpl. rewrite He. reflexivity.
Qed.

Lemma updateProfile_throws (e : Env) (userId : string) (d : UpdateData)
    (st : State) (x : Thrown) (st' : State) :
  AuthRepository.updateProfile e userId d st = (Throw x, st') ->
  exists pe, x = Prisma pe.
Proof.
  unfold AuthRepository.updateProfile. rewrite bind_eq.
  destruct (prisma_user_update e (ById userId) d st) as [[u|y] s1] eqn:Hu.
  - unfold bind, cacheDel, ret, getCache, setCache.
    destruct (truthyO (phone u)); cbn; discriminate.
  - intros [= <- _]. by apply prisma_user_update_throws in Hu as [? _].
Qed.

(** X18. When the email of the token finds an account, [googleAuth]
    decides by the signupMethod column of that account alone, whatever
    password the account has: for EMAIL the answer is 409 and no row and
    no log line is written; for GOOGLE the answer is never 409. The
    column holds what the signup payload chose. *)
Theorem googleAuth_conflict_by_signupMethod (e : Env) (p : GoogleAuthInput)
    (st : State) (d : DecodedIdToken) (mail : string) (u : User) :
  verifyIdToken (idToken p) = Some d ->
  dt_email d = Some mail -> truthy mail = true ->
  run (AuthRepository.findByEmail e mail true) st = Ok (Some u) ->
  (signupMethod u = EMAIL ->
   run (AuthService.googleAuth e p) st
   = Throw (App (AppErr.conflict
       "An account with this email already exists. Please use email/password login."
       [mkVE "email" "Account already exists with email/password"]))
   /\ db (exec (AuthService.googleAuth e p) st) = db st
   /\ logs (exec (AuthService.googleAuth e p) st) = logs st)
  /\ (signupMethod u = GOOGLE ->
      threwStatus (run (AuthService.googleAuth e p) st) <> Some CONFLICT).
Proof.
  intros Hv He Ht Hf.
  unfold run, exec, AuthService.googleAuth, verifyFirebaseToken in *.
  rewrite Hv, bind_eq. simpl. rewrite He. simpl. rewrite Ht. simpl.
  rewrite ?Ht. simpl. rewrite ?bind_eq.
  pose proof (findByEmail_db e mail true st) as Hdb.
  pose proof (findByEmail_logs e mail st) as Hlg.
  destruct (AuthRepository.findByEmail e mail true st) as [[[g|]|x] s1];
    simpl in Hf; try done.
  injection Hf as ->. split; intros Hs; rewrite Hs; simpl; [done|].
  rewrite bind_eq.
  match goal with
  | |- context [(if AuthService.hasKeys ?k then ?a else ?b) s1] =>
      destruct (AuthService.hasKeys k);
      [destruct (a s1) as [[u'|x] s2] eqn:Hm|
       destruct (b s1) as [[u'|x] s2] eqn:Hm]
  end.
  - destruct (negb (isActive u') || isDeleted u'); [done|].
    rewrite bind_eq, updateRefreshToken_eq. by destruct (find _ _).
  - apply updateProfile_throws in Hm as [pe ->]. done.
  - destruct (negb (isActive u') || isDeleted u'); [done|].
    rewrite bind_eq, updateRefreshToken_eq. by destruct (find _ _).
  - done.
Qed.

(** X19. A first [googleAuth] for an address (no cached or stored
    account under it) appends one row: GOOGLE, REGISTERED, verified
    exactly when the token says so, with the hash of a generated
    password and the refresh token of the returned pair. The follow-up
    profile update of the new-user branch never runs. *)
Theorem googleAuth_first_login (e : Env) (p : GoogleAuthInput) (st : State)
    (d : DecodedIdToken) (mail : string) :
  isOk (run (AuthService.googleAuth e p) st) = true ->
  verifyIdToken (idToken p) = Some d ->
  dt_email d = Some mail ->
  run (AuthRepository.findByEmail e mail true) st = Ok None ->
  exists u,
    db (exec (AuthService.googleAuth e p) st) = (db st ++ [u])%list
    /\ id u = uuid e /\ email u = mail
    /\ signupMethod u = GOOGLE /\ userType u = REGISTERED
    /\ isEmailVerified u = default false (dt_email_verified d)
    /\ password u
       = hashPassword (salt e)
           ("google_" +:+ pretty (now e) +:+ "_" +:+ slice2 (random36 e))
    /\ profilePicture u = dt_picture d
    /\ otpCode u = None
    /\ refreshToken u
       = Some (Token.refreshToken (generateTokens (now e) (tokenPayload u)))
    /\ run (AuthService.googleAuth e p) st
       = Ok (RLogin (AuthDto.safeData u) (generateTokens (now e) (tokenPayload u))).
Proof.
  intros Hok Hv He Hf. unfold run, exec in Hok, Hf |- *.
  destruct (AuthService.googleAuth e p st) as [[r|x] st'] eqn:Hr; [|done].
  clear Hok. simpl.
  unfold AuthService.googleAuth, verifyFirebaseToken in Hr.
  rewrite Hv, bind_eq in Hr. simpl in Hr. rewrite He in Hr. simpl in Hr.
  destruct (truthy mail) eqn:Ht; simpl in Hr; rewrite ?Ht in Hr; simpl in Hr;
    [|done].
  rewrite ?bind_eq in Hr.
  assert (Hst : snd (AuthRepository.findByEmail e mail true st) = st).
  { rewrite findByEmail_cache_eq in *. destruct (liveUser _ _ _); [done|].
    by destruct (find _ _). }
  destruct (AuthRepository.findByEmail e mail true st) as [[[g|]|x] s1];
    simpl in Hf, Hst; try done.
  subst s1. clear Hf.
  rewrite bind_eq, create_eq in Hr.
  destruct (prisma_user_create _ _ _) as [[u0|x] s1] eqn:Hc; [|done].
  apply prisma_user_create_ok in Hc
    as (-> & Hid & Hun & Hem & Hve & Hph & Hpw & Hro & Hty & Hrt & Hsm & Hac
        & Hde & Hoc & Hoe & Hpp & Hfid & Hfm).
  simpl in Hid, Hun, Hem, Hve, Hph, Hpw, Hro, Hty, Hrt, Hsm, Hpp, Hfm.
  rewrite bind_eq in Hr. rewrite Hve, Hpp in Hr.
  assert (H1 : default false (dt_email_verified d)
               && negb (default false (dt_email_verified d)) = false)
    by (by destruct (default false _)).
  assert (H2 : truthyO (dt_picture d)
               && negb (bool_decide (dt_picture d = dt_picture d)) = false).
  { rewrite bool_decide_eq_true_2 by done. destruct (truthyO (dt_picture d)); reflexivity. }
  rewrite H1, H2 in Hr.
  assert (Hk : AuthService.hasKeys
                 (mkUpdate None None None None None None None None None None None)
               = false) by reflexivity.
  rewrite Hk in Hr. cbn [ret db cache logs] in Hr.
  rewrite bind_eq, updateRefreshToken_eq in Hr. cbn [db cache logs] in Hr.
  assert (Hu0 : matches (ById (id u0)) u0 = true).
  { simpl. apply String.eqb_refl. }
  rewrite Hid in Hr, Hu0.
  rewrite (find_app_new _ _ _ Hfid), Hu0 in Hr. cbv zeta in Hr.
  rewrite (updateFirst_app_new _ _ _ _ Hfid Hu0) in Hr.
  rewrite bind_eq in Hr. cbn in Hr. injection Hr as <- <-.
  eexists. split; [reflexivity|]. simpl.
  rewrite Hid, Hem, Hsm, Hty, Hve, Hpw, Hpp, Hoc. by repeat split.
Qed.

End GoogleFacts.

(** An account signed up with a password under signupMethod GOOGLE, once
    verified: [googleAuth] with a token for its address signs in to
    it. *)
Example googleAuth_signs_in_to_google_method_password_account :
  let st1 := exec (AuthService.signup (U := Reference.utils)
                     (Scenario.env 1000000 23456 "u1" true)
                     (mkSignup "bob" "b@x.com" None "Secret123!" GOOGLE)) st0 in
  (password <$> find (matches (ByEmail "b@x.com")) (db st1))
  = Some "$2b$saltA$Secret123!"
  /\ isOk (run (AuthService.googleAuth (U := Reference.utils)
                  (Scenario.env 2000000 0 "u9" true)
                  (mkGoogle "google:bob:b@x.com" None)) st1) = true
  /\ (isEmailVerified
       <$> find (matches (ByEmail "b@x.com"))
             (db (exec (AuthService.googleAuth (U := Reference.utils)
                          (Scenario.env 2000000 0 "u9" true)
                          (mkGoogle "google:bob:b@x.com" None)) st1)))
     = Some true.
Proof. vm_compute. repeat split; reflexivity. Qed.

Lemma googleAuth_conflict_by_signupMethod_witness :
  threwStatus
    (run (AuthService.googleAuth (U := Reference.utils)
            (Scenario.env 2000000 0 "u9" true)
            (mkGoogle "google:alice:a@x.com" None)) Scenario.afterVerify)
  = Some CONFLICT.
Proof.
  destruct (googleAuth_conflict_by_signupMethod (U := Reference.utils)
              (Scenario.env 2000000 0 "u9" true)
              (mkGoogle "google:alice:a@x.com" None) Scenario.afterVerify
              (mkDecoded "alice" (Some "a@x.com") (Some true) (Some "alice")
                 None None)
              "a@x.com"
              (default Scenario.carol
                 (find (matches (ByEmail "a@x.com")) (db Scenario.afterVerify)))
              ltac:(vm_compute; reflexivity) ltac:(vm_compute; reflexivity)
              ltac:(vm_compute; reflexivity) ltac:(vm_compute; reflexivity))
    as [H _].
  destruct (H ltac:(vm_compute; reflexivity)) as [-> _].
  reflexivity.
Defined.

Lemma googleAuth_first_login_witness :
  exists u,
    db (exec (AuthService.googleAuth (U := Reference.utils)
                (Scenario.env 2000000 0 "u9" true)
                (mkGoogle "google:bob:b@x.com" None)) Scenario.afterVerify)
    = (db Scenario.afterVerify ++ [u])%list
    /\ signupMethod u = GOOGLE /\ isEmailVerified u = true.
Proof.
  destruct (googleAuth_first_login (U := Reference.utils)
              (Scenario.env 2000000 0 "u9" true)
              (mkGoogle "google:bob:b@x.com" None) Scenario.afterVerify
              (mkDecoded "bob" (Some "b@x.com") (Some true) (Some "bob")
                 None None)
              "b@x.com"
              ltac:(vm_compute; reflexivity) ltac:(vm_compute; reflexivity)
              ltac:(vm_compute; reflexivity) ltac:(vm_compute; reflexivity))
    as (u & Hdb & _ & _ & Hs & _ & Hv & _).
  exists u. repeat split; assumption.
Defined.

Section OptionalAuthFacts.
Context `{U : Utils}.

(** The user the two gates look up for a token's subject: the live entry
    of the gate's cache, else what [findById] yields. *)
Lemma findById_cases (e : Env) (i : string) (st : State) :
  (exists u s1, AuthRepository.findById e i st = (Ok (Some u), s1)
                /\ db s1 = db st /\ logs s1 = logs st)
  \/ AuthRepository.findById e i st = (Ok None, st).
Proof.
  rewrite findById_eq. destruct (liveUser _ _ _) as [u|]; [left; by eexists _, _|].
  destruct (find _ _) as [u|]; [left; by eexists _, _|by right].
Qed.

Lemma cacheGetAuthUser_eq (t : Z) (k : CacheKey) (st : State) :
  cacheGetAuthUser t k st = (Ok (liveAuthUser t (cache st) k), st).
Proof. reflexivity. Qed.

(** X20. [optionalAuth] never rejects a request and never writes a row:
    whatever the token, it ends without an error. *)
Theorem optionalAuth_never_rejects (e : Env) (req : Request) (st : State) :
  isOk (run (optionalAuth e req) st) = true
  /\ db (exec (optionalAuth e req) st) = db st.
Proof.
  unfold run, exec, optionalAuth.
  destruct (truthyO (bearerToken req)); simpl; [|done].
  unfold tryCatch. rewrite bind_eq, isTokenBlacklisted_eq.
  destruct (bool_decide _); [done|].
  destruct (verifyToken _ _) as [d|]; [|done].
  destruct (truthyO (jwt_id d)); [|done].
  rewrite bind_eq, cacheGetAuthUser_eq.
  destruct (liveAuthUser _ _ _) as [c|]; [done|].
  rewrite bind_eq.
  destruct (findById_cases e (default "" (jwt_id d)) st)
    as [(u & s1 & -> & Hdb & _)| ->]; [|done].
  destruct (isActive u && negb (isDeleted u) && isEmailVerified u); done.
Qed.

(** X21. [optionalAuth] attaches only what [authenticate] accepts: when
    it attaches a user to a request, [authenticate] lets the same request
    through in the same state, with the same user. *)
Theorem optionalAuth_within_gate (e : Env) (req : Request) (st : State)
    (c : AuthUser) :
  run (optionalAuth e req) st = Ok (Some c) ->
  run (authenticate e req) st = Ok c.
Proof.
  unfold run, optionalAuth, authenticate.
  destruct (truthyO (bearerToken req)); simpl; [|done].
  unfold tryCatch. rewrite !bind_eq, isTokenBlacklisted_eq.
  destruct (bool_decide _); [done|].
  destruct (verifyToken _ _) as [d|]; [|done].
  destruct (truthyO (jwt_id d)); simpl; [|done].
  rewrite !bind_eq, cacheGetAuthUser_eq.
  destruct (liveAuthUser _ _ _) as [c'|]; [by intros [= ->]|].
  rewrite !bind_eq.
  destruct (findById_cases e (default "" (jwt_id d)) st)
    as [(u & s1 & -> & _)| ->]; [|done].
  destruct (isActive u) eqn:Ha; [|done].
  destruct (isDeleted u) eqn:Hd; [done|].
  destruct (isEmailVerified u) eqn:Hv; [|done].
  simpl. by intros [= <-].
Qed.

End OptionalAuthFacts.

Lemma optionalAuth_within_gate_witness :
  run (authenticate (U := Reference.utils) (Scenario.env 3010000 0 "" true)
         Scenario.guestBearer) Scenario.afterGuestLogin
  = Ok (mkAuthUser "g1" "Guest_000000" "guest_3000000_k3j9x2m@guest.local"
          USER GUEST true true).
Proof.
  apply (optionalAuth_within_gate (U := Reference.utils)).
  vm_compute. reflexivity.
Defined.

(** ** Invariants of the rows and of the cached users *)

Lemma In_updateFirst (q : User -> bool) (f : User -> User) (l : list User)
    (v : User) :
  In v (updateFirst q f l) -> In v l \/ exists u, In u l /\ v = f u.
Proof.
  induction l as [|a l IH]; simpl; [tauto|].
  destruct (q a); simpl.
  - intros [<-|H]; [right; exists a; auto|left; auto].
  - intros [<-|H]; [left; auto|].
    destruct (IH H) as [?|(u & ? & ?)]; [left; auto|right; exists u; auto].
Qed.

Section Satisfy.
Context `{U : Utils}.
Variable P : User -> Prop.
Variable Q : AuthUser -> Prop.
Hypothesis Hupd : forall d u, benign d -> P u -> P (applyData d u).
Hypothesis Hnew : forall u,
  role u = USER -> (userType u = GUEST -> isEmailVerified u = true) -> P u.
Hypothesis HPQ : forall u,
  P u -> isEmailVerified u = true \/ userType u = GUEST -> Q (projection u).

Local Abbreviation inv := (usersSatisfy P Q).

Lemma sat_same (st st' : State) :
  db st' = db st -> cache st' = cache st -> inv st -> inv st'.
Proof. intros Hd Hc. unfold usersSatisfy. by rewrite Hd, Hc. Qed.

Lemma sat_logger (l : Level) (msg : string) : preserves inv (logger l msg).
Proof. intros st. by apply sat_same. Qed.

Lemma sat_sendEmail (e : Env) (to subject : string) :
  preserves inv (sendEmail e to subject).
Proof. intros st. unfold sendEmail. by destruct (emailDelivered e). Qed.

Lemma sat_cacheDel (k : CacheKey) : preserves inv (cacheDel k).
Proof.
  intros st (H1 & H2 & H3). split; [exact H1|]. simpl.
  split; intros k' en x Hl; apply lookup_delete_Some in Hl as [_ Hl]; eauto.
Qed.

Lemma sat_cacheSet_string (t : Z) (k : CacheKey) (s : string) (ttl : Z) :
  preserves inv (cacheSet t k (CString s) ttl).
Proof.
  intros st (H1 & H2 & H3). split; [exact H1|]. simpl.
  split; intros k' en x Hl Hv;
    apply lookup_insert_Some in Hl as [[_ <-]|[_ Hl]]; try done; eauto.
Qed.

Lemma sat_cacheSet_user (t : Z) (k : CacheKey) (u : User) (ttl : Z) (st : State) :
  P u -> inv st -> inv (snd (cacheSet t k (CUser u) ttl st)).
Proof.
  intros Hu (H1 & H2 & H3). split; [exact H1|]. simpl.
  split; intros k' en x Hl Hv;
    apply lookup_insert_Some in Hl as [[_ <-]|[_ Hl]]; try done; eauto.
  simpl in Hv. by injection Hv as <-.
Qed.

Lemma sat_cacheSet_auth (t : Z) (k : CacheKey) (c : AuthUser) (ttl : Z)
    (st : State) :
  Q c -> inv st -> inv (snd (cacheSet t k (CAuthUser c) ttl st)).
Proof.
  intros Hc (H1 & H2 & H3). split; [exact H1|]. simpl.
  split; intros k' en x Hl Hv;
    apply lookup_insert_Some in Hl as [[_ <-]|[_ Hl]]; try done; eauto.
  simpl in Hv. by injection Hv as <-.
Qed.

Lemma sat_cacheGetAuthUser (t : Z) (k : CacheKey) :
  preserves inv (cacheGetAuthUser t k).
Proof. by intros st. Qed.

Lemma benign_hashedData (e : Env) (d : UpdateData) :
  benign d -> benign (hashedData e d).
Proof. unfold hashedData. by destruct (truthyO _). Qed.

Lemma sat_update (e : Env) (w : Where) (d : UpdateData) :
  benign d -> preserves inv (prisma_user_update e w d).
Proof.
  intros Hd st H. rewrite prisma_user_update_eq.
  destruct (find _ _); [|done]. destruct (_ && _); [done|].
  destruct H as (H1 & H2 & H3). split; [|by split]. simpl.
  intros v Hv. apply In_updateFirst in Hv as [Hv|(u' & Hu' & ->)]; [by apply H1|].
  apply Hupd; [by apply benign_hashedData|by apply H1].
Qed.

Lemma liveUser_sat (t : Z) (k : CacheKey) (u : User) (st : State) :
  inv st -> liveUser t (cache st) k = Some u -> P u.
Proof.
  intros (_ & H2 & _) Hl. apply liveUser_lookup in Hl as (en & Hl & Hv). eauto.
Qed.

Lemma liveAuthUser_sat (t : Z) (k : CacheKey) (c : AuthUser) (st : State) :
  inv st -> liveAuthUser t (cache st) k = Some c -> Q c.
Proof.
  intros (_ & _ & H3). unfold liveAuthUser, live.
  destruct (cache st !! k) as [en|] eqn:Hl; [|done].
  destruct (t <? expiresAt en); [|done].
  destruct (value en) eqn:Hv; try done. intros [= ->]. eauto.
Qed.

(** What [findById] yields satisfies [P], and the state it leaves the
    invariant. *)
Lemma findById_sat (e : Env) (i : string) (st : State) :
  inv st ->
  inv (snd (AuthRepository.findById e i st))
  /\ forall u, fst (AuthRepository.findById e i st) = Ok (Some u) -> P u.
Proof.
  intros H. rewrite findById_eq.
  destruct (liveUser _ _ _) as [u|] eqn:Hl.
  - split; [done|]. intros v [= <-]. by apply (liveUser_sat _ _ _ _ H Hl).
  - destruct (find _ _) as [u|] eqn:Hf; [|by split].
    assert (Hu : P u).
    { destruct H as (H1 & _). apply H1. by apply find_some in Hf as [? _]. }
    split; [|by intros v [= <-]].
    apply (sat_cacheSet_user (now e) _ u USER_CACHE_TTL st Hu H).
Qed.

Lemma sat_findById (e : Env) (i : string) :
  preserves inv (AuthRepository.findById e i).
Proof. intros st H. by apply findById_sat. Qed.

Lemma sat_findByEmail (e : Env) (mail : string) (b : bool) :
  preserves inv (AuthRepository.findByEmail e mail b).
Proof.
  intros st H. destruct b;
    [rewrite findByEmail_cache_eq|by rewrite findByEmail_nocache_eq].
  destruct (liveUser _ _ _); [done|].
  destruct (find _ _) as [u|] eqn:Hf; [|done].
  apply (sat_cacheSet_user (now e) _ u USER_CACHE_TTL st); [|done].
  destruct H as (H1 & _). apply H1. by apply find_some in Hf as [? _].
Qed.

Lemma sat_findByEmailWithPassword (mail : string) :
  preserves inv (AuthRepository.findByEmailWithPassword mail).
Proof. by intros st. Qed.

Lemma sat_create (e : Env) (p : CreatePayload) :
  p_userType p <> Some GUEST \/ p_isEmailVerified p = Some true ->
  preserves inv (AuthRepository.create e p).
Proof.
  intros Hp st H. rewrite create_eq.
  destruct (prisma_user_create _ _ _) as [[u|x] s1] eqn:Hc.
  - apply prisma_user_create_ok in Hc
      as (-> & _ & _ & _ & Hve & _ & _ & Hro & Hty & _).
    simpl in Hve, Hty.
    assert (Hu : P u).
    { apply Hnew; [done|]. rewrite Hty, Hve. intros Hg.
      destruct Hp as [Hp| ->]; [|done].
      destruct (p_userType p) as [[]|]; simpl in Hg; congruence. }
    destruct H as (H1 & H2 & H3). simpl. split; [|split].
    + intros v Hv. simpl in Hv. apply in_app_iff in Hv as [Hv|[<-|[]]]; auto.
    + intros k en v Hl Hv. simpl in Hl.
      apply lookup_insert_Some in Hl as [[_ <-]|[_ Hl]];
        [simpl in Hv; by injection Hv as <-|].
      apply lookup_insert_Some in Hl as [[_ <-]|[_ Hl]];
        [simpl in Hv; by injection Hv as <-|]. eauto.
    + intros k en v Hl Hv. simpl in Hl.
      apply lookup_insert_Some in Hl as [[_ <-]|[_ Hl]]; [done|].
      apply lookup_insert_Some in Hl as [[_ <-]|[_ Hl]]; [done|]. eauto.
  - unfold prisma_user_create in Hc. rewrite bind_eq in Hc. simpl in Hc.
    destruct (existsb _ _); simpl in Hc; [injection Hc as _ <-; exact H|discriminate Hc].
Qed.

Ltac sat_repo :=
  repeat first
    [ apply sat_update; solve [by left | by right]
    | apply sat_cacheDel | apply preserves_ret
    | match goal with
      | |- preserves _ (if ?b then _ else _) => destruct b
      end
    | apply preserves_bind; [|intros ?] ].

Lemma sat_updateOtp (e : Env) (mail otp : string) (x : Z) :
  preserves inv (AuthRepository.updateOtp e mail otp x).
Proof. unfold AuthRepository.updateOtp. sat_repo. Qed.

Lemma sat_verifyEmail (e : Env) (mail : string) :
  preserves inv (AuthRepository.verifyEmail e mail).
Proof. unfold AuthRepository.verifyEmail. sat_repo. Qed.

Lemma sat_updatePassword (e : Env) (mail pw : string) :
  preserves inv (AuthRepository.updatePassword e mail pw).
Proof. unfold AuthRepository.updatePassword. sat_repo. Qed.

Lemma sat_updateRefreshToken (e : Env) (i : string) (t : option string) :
  preserves inv (AuthRepository.updateRefreshToken e i t).
Proof. unfold AuthRepository.updateRefreshToken. sat_repo. Qed.

Lemma sat_updateProfile (e : Env) (i : string) (d : UpdateData) :
  benign d -> preserves inv (AuthRepository.updateProfile e i d).
Proof.
  intros Hd. unfold AuthRepository.updateProfile.
  apply preserves_bind; [by apply sat_update|intros ?]. sat_repo.
Qed.

Lemma sat_setOtpCache (e : Env) (mail : string) (t : OtpType) (otp : string) :
  preserves inv (AuthRepository.setOtpCache e mail t otp).
Proof. apply sat_cacheSet_string. Qed.

Lemma sat_getOtpCache (e : Env) (mail : string) (t : OtpType) :
  preserves inv (AuthRepository.getOtpCache e mail t).
Proof. by intros st. Qed.

Lemma sat_deleteOtpCache (mail : string) (t : OtpType) :
  preserves inv (AuthRepository.deleteOtpCache mail t).
Proof. apply sat_cacheDel. Qed.

Lemma sat_blacklistToken (e : Env) (token : string) (x : Z) :
  preserves inv (AuthRepository.blacklistToken e token x).
Proof. apply sat_cacheSet_string. Qed.

Lemma sat_isTokenBlacklisted (e : Env) (token : string) :
  preserves inv (AuthRepository.isTokenBlacklisted e token).
Proof. by intros st. Qed.

Lemma sat_verifyFirebaseToken (t : string) :
  preserves inv (verifyFirebaseToken t).
Proof.
  unfold verifyFirebaseToken. destruct (verifyIdToken t); [apply preserves_ret|].
  apply preserves_bind; [apply sat_logger|intros _]. apply preserves_throwApp.
Qed.

Ltac sat :=
  repeat first
    [ match goal with
      | |- preserves _ (ret _) => apply preserves_ret
      | |- preserves _ (throw _) => apply preserves_throw
      | |- preserves _ (throwApp _) => apply preserves_throwApp
      | |- preserves _ (logger _ _) => apply sat_logger
      | |- preserves _ (sendEmail _ _ _) => apply sat_sendEmail
      | |- preserves _ (cacheDel _) => apply sat_cacheDel
      | |- preserves _ (AuthRepository.findById _ _) => apply sat_findById
      | |- preserves _ (AuthRepository.findByEmail _ _ _) => apply sat_findByEmail
      | |- preserves _ (AuthRepository.findByEmailWithPassword _) =>
          apply sat_findByEmailWithPassword
      | |- preserves _ (AuthRepository.updateOtp _ _ _ _) => apply sat_updateOtp
      | |- preserves _ (AuthRepository.verifyEmail _ _) => apply sat_verifyEmail
      | |- preserves _ (AuthRepository.updatePassword _ _ _) =>
          apply sat_updatePassword
      | |- preserves _ (AuthRepository.updateRefreshToken _ _ _) =>
          apply sat_updateRefreshToken
      | |- preserves _ (AuthRepository.setOtpCache _ _ _ _) => apply sat_setOtpCache
      | |- preserves _ (AuthRepository.getOtpCache _ _ _) => apply sat_getOtpCache
      | |- preserves _ (AuthRepository.deleteOtpCache _ _) =>
          apply sat_deleteOtpCache
      | |- preserves _ (AuthRepository.blacklistToken _ _ _) =>
          apply sat_blacklistToken
      | |- preserves _ (AuthRepository.isTokenBlacklisted _ _) =>
          apply sat_isTokenBlacklisted
      | |- preserves _ (verifyFirebaseToken _) => apply sat_verifyFirebaseToken
      | |- preserves _ (AuthRepository.create _ _) =>
          apply sat_create; solve [by left | by right]
      | |- preserves _ (AuthRepository.updateProfile _ _ _) =>
          apply sat_updateProfile;
          solve [by left | right; split; [done|]; repeat case_match; done]
      | |- preserves _ (prisma_user_update _ _ _) =>
          apply sat_update; solve [by left | by right]
      | |- preserves _ (if ?b then _ else _) => destruct b
      | |- preserves _ (match ?x with _ => _ end) => destruct x
      | |- preserves _ (tryCatch _ _) => apply preserves_tryCatch; [|intros ?]
      | |- preserves _ (bind _ _) => apply preserves_bind; [|intros ?]
      end
    | progress cbv zeta ].

Lemma sat_perform (e : Env) (op : Operation) : preserves inv (perform e op).
Proof.
  destruct op; simpl.
  - unfold AuthService.signup, signupPayload. sat.
  - unfold AuthService.login. sat.
  - unfold AuthService.verifyOtp, AuthService.checkOtp. sat.
  - unfold AuthService.resetPassword. sat.
  - unfold AuthService.refreshToken. sat.
  - unfold AuthService.changePassword. sat.
  - unfold AuthService.getMe. sat.
  - unfold AuthService.updateProfile. sat.
  - unfold AuthService.googleAuth. sat.
  - unfold AuthService.guestLogin. sat.
  - unfold AuthService.convertGuestToRegistered. sat.
  - unfold AuthService.resendOtp. sat.
  - unfold AuthService.forgotPassword. sat.
  - unfold AuthService.logout. sat.
Qed.

(** The request gate keeps the invariant, and what it attaches
    satisfies [Q]. *)
Lemma authenticate_sat (e : Env) (req : Request) (st : State) :
  inv st ->
  inv (snd (authenticate e req st))
  /\ forall c, fst (authenticate e req st) = Ok c -> Q c.
Proof.
  intros H. unfold authenticate.
  destruct (truthyO (bearerToken req)); simpl; [|by split].
  rewrite bind_eq, isTokenBlacklisted_eq.
  destruct (bool_decide _); [by split|].
  destruct (verifyToken _ _) as [d|]; [|split; [by apply (sat_same st)|done]].
  destruct (truthyO (jwt_id d)); simpl; [|by split].
  rewrite !bind_eq, cacheGetAuthUser_eq.
  destruct (liveAuthUser _ _ _) as [c'|] eqn:Hl.
  - rewrite bind_eq. simpl. split; [by apply (sat_same st)|].
    intros c [= <-]. by apply (liveAuthUser_sat _ _ _ _ H Hl).
  - rewrite !bind_eq.
    destruct (findById_sat e (default "" (jwt_id d)) st H) as [Hs Hu].
    destruct (AuthRepository.findById e _ st) as [[[u|]|x] s1]; simpl in Hs, Hu;
      [|by split|by split].
    specialize (Hu u eq_refl).
    destruct (isActive u) eqn:Ha; simpl; [|by split].
    destruct (isDeleted u) eqn:Hd; simpl; [by split|].
    destruct (negb (isEmailVerified u) && negb (bool_decide (userType u = GUEST)))
      eqn:Hg; [by split|].
    assert (Hc : Q (projection u)).
    { apply HPQ; [done|]. destruct (isEmailVerified u); [by left|right].
      simpl in Hg. apply negb_false_iff in Hg. by apply bool_decide_eq_true_1 in Hg. }
    rewrite !bind_eq.
    pose proof (sat_cacheSet_auth (now e)
                  (makeKey ["auth"; "user"; default "" (jwt_id d)])
                  (projection u) USER_MIDDLEWARE_CACHE_TTL s1 Hc Hs) as Hs'.
    unfold projection in Hs', Hc. rewrite Ha in Hs', Hc.
    simpl. split; [exact Hs'|]. by intros c [= <-].
Qed.

Lemma reachable_sat (st : State) : inv st0 -> reachable st -> inv st.
Proof.
  intros H0. induction 1 as [|e op st _ IH|e req st _ IH].
  - exact H0.
  - by apply sat_perform.
  - by apply authenticate_sat.
Qed.

End Satisfy.

Section ReachableFacts.
Context `{U : Utils}.

Lemma usersSatisfy_st0 (P : User -> Prop) (Q : AuthUser -> Prop) :
  usersSatisfy P Q st0.
Proof.
  split; [by intros u []|]. split; intros k en x Hl; simpl in Hl; by rewrite lookup_empty in Hl.
Qed.

Lemma reachable_onlyUsers (st : State) : reachable st -> onlyUsers st.
Proof.
  apply reachable_sat; [done|done|done|apply usersSatisfy_st0].
Qed.

Lemma reachable_guestsVerified (st : State) : reachable st -> guestsVerified st.
Proof.
  apply reachable_sat; [| | |apply usersSatisfy_st0].
  - intros d u [Hd|[Hd Hv]]; simpl; rewrite Hd; simpl; [done|].
    intros Hg. destruct (d_isEmailVerified d) as [[]|]; simpl; auto; done.
  - by intros u _ Hu.
  - intros u Hu [Hv|Hg]; simpl; auto.
Qed.

(** X22. The service never makes an administrator: in every state it
    and the request gate can bring about from the empty one, every row
    has the role USER, and [authorize(ADMIN)] refuses with 403 every
    request the gate lets through. *)
Theorem admin_routes_closed (st : State) (e : Env) (req : Request)
    (c : AuthUser) :
  reachable st ->
  run (authenticate e req) st = Ok c ->
  (forall u, In u (db st) -> role u = USER)
  /\ run (authorize [ADMIN] (Some c)) (exec (authenticate e req) st)
     = Throw (App (AppErr.forbidden "Access denied. Required roles: ADMIN" [])).
Proof.
  intros Hr Hc. apply reachable_onlyUsers in Hr.
  split; [by destruct Hr|].
  destruct (authenticate_sat (fun u => role u = USER) (fun c => au_role c = USER)
              ltac:(by intros u Hu _) e req st Hr) as [_ Hq].
  specialize (Hq c Hc). simpl in Hq.
  unfold run, authorize. rewrite Hq.
  rewrite bool_decide_eq_false_2; [reflexivity|].
  intros Hin. apply list_elem_of_In in Hin. by destruct Hin as [|[]].
Qed.

(** X23. On every state the service and the gate can bring about,
    [optionalAuth] attaches exactly what [authenticate] lets through: the
    guest exemption of [authenticate] never makes a difference, because
    every guest row is verified. *)
Theorem gates_agree_when_reachable (st : State) (e : Env) (req : Request)
    (c : AuthUser) :
  reachable st ->
  run (authenticate e req) st = Ok c ->
  run (optionalAuth e req) st = Ok (Some c).
Proof.
  intros Hr. apply reachable_guestsVerified in Hr.
  unfold run, optionalAuth, authenticate.
  destruct (truthyO (bearerToken req)); simpl; [|done].
  unfold tryCatch. rewrite !bind_eq, isTokenBlacklisted_eq.
  destruct (bool_decide _); [done|].
  destruct (verifyToken _ _) as [d|]; [|done].
  destruct (truthyO (jwt_id d)); simpl; [|done].
  rewrite !bind_eq, cacheGetAuthUser_eq.
  destruct (liveAuthUser _ _ _) as [c'|]; [by intros [= ->]|].
  rewrite !bind_eq.
  destruct (findById_sat _ _ e (default "" (jwt_id d)) st Hr) as [_ Hu].
  destruct (AuthRepository.findById e _ st) as [[[u|]|x] s1]; simpl in Hu;
    try done.
  specialize (Hu u eq_refl). simpl in Hu.
  destruct (isActive u) eqn:Ha; [|done].
  destruct (isDeleted u) eqn:Hd; [done|].
  destruct (isEmailVerified u) eqn:Hv; simpl; [by intros [= <-]|].
  destruct (bool_decide (userType u = GUEST)) eqn:Hg; simpl; [|done].
  apply bool_decide_eq_true_1 in Hg. by specialize (Hu Hg).
Qed.

(** X24. On every state the service and the gate can bring about, a
    request that passed [authenticate] passes [requireEmailVerification]
    as well: the gate only ever attaches users marked verified. *)
Theorem requireEmailVerification_after_gate (st : State) (e : Env)
    (req : Request) (c : AuthUser) :
  reachable st ->
  run (authenticate e req) st = Ok c ->
  au_isEmailVerified c = true
  /\ run (requireEmailVerification (Some c)) (exec (authenticate e req) st)
     = Ok tt.
Proof.
  intros Hr Hc. pose proof (reachable_guestsVerified st Hr) as Hg.
  assert (Hq : au_isEmailVerified c = true).
  { refine (proj2 (authenticate_sat _ _ _ e req st Hg) c Hc).
    intros u Hu [Hv|Hgu]; simpl; auto. }
  split; [exact Hq|]. unfold run, requireEmailVerification. by rewrite Hq.
Qed.

End ReachableFacts.

Lemma reachable_afterGuestLogin :
  reachable (U := Reference.utils) Scenario.afterGuestLogin.
Proof. apply (reach_perform _ (OpGuestLogin _)), reachable_afterLogin. Qed.

Lemma admin_routes_closed_witness :
  threwStatus
    (run (authorize [ADMIN]
            (Some (mkAuthUser "g1" "Guest_000000"
                     "guest_3000000_k3j9x2m@guest.local" USER GUEST true true)))
       Scenario.afterGuestRequest)
  = Some FORBIDDEN.
Proof.
  destruct (admin_routes_closed (U := Reference.utils) Scenario.afterGuestLogin
              (Scenario.env 3010000 0 "" true) Scenario.guestBearer
              (mkAuthUser "g1" "Guest_000000"
                 "guest_3000000_k3j9x2m@guest.local" USER GUEST true true)
              reachable_afterGuestLogin ltac:(vm_compute; reflexivity))
    as [_ H].
  unfold Scenario.afterGuestRequest. rewrite H. reflexivity.
Defined.

Lemma gates_agree_when_reachable_witness :
  run (optionalAuth (U := Reference.utils) (Scenario.env 3010000 0 "" true)
         Scenario.guestBearer) Scenario.afterGuestLogin
  = Ok (Some (mkAuthUser "g1" "Guest_000000"
                "guest_3000000_k3j9x2m@guest.local" USER GUEST true true)).
Proof.
  apply (gates_agree_when_reachable (U := Reference.utils)).
  - exact reachable_afterGuestLogin.
  - vm_compute. reflexivity.
Defined.

Lemma requireEmailVerification_after_gate_witness :
  run (requireEmailVerification
         (Some (mkAuthUser "g1" "Guest_000000"
                  "guest_3000000_k3j9x2m@guest.local" USER GUEST true true)))
    Scenario.afterGuestRequest
  = Ok tt.
Proof.
  apply (requireEmailVerification_after_gate (U := Reference.utils)
           Scenario.afterGuestLogin (Scenario.env 3010000 0 "" true)
           Scenario.guestBearer).
  - exact reachable_afterGuestLogin.
  - vm_compute. reflexivity.
Defined.

Section SessionFacts.
Context `{U : Utils}.

(** [logout] touches two cache keys at most: the blacklist entry of the
    presented token and the cached user of the id. *)
Lemma logout_cache_frame (e : Env) (userId presented : string) (st : State)
    (k : CacheKey) :
  k <> makeKey ["blacklist"; "token"; presented] ->
  k <> makeKey ["user"; userId] ->
  cache (exec (AuthService.logout e userId presented) st) !! k = cache st !! k.
Proof.
  intros Hk1 Hk2. unfold exec, AuthService.logout. rewrite bind_eq.
  destruct (verifyRefreshToken _ _) as [d|]; [|done]. simpl.
  rewrite bind_eq.
  set (m := if truthyZ (jwt_exp d) then _ else _).
  assert (Hm : exists s1, m st = (Ok tt, s1) /\ db s1 = db st
                          /\ cache s1 !! k = cache st !! k).
  { subst m. destruct (truthyZ _); [|by eexists].
    destruct (0 <? _); [|by eexists].
    eexists. split; [reflexivity|]. split; [done|]. simpl.
    by rewrite lookup_insert_ne. }
  destruct Hm as (s1 & -> & Hdb & Hc).
  rewrite bind_eq, updateRefreshToken_eq.
  destruct (find _ _); [|done]. simpl. by rewrite lookup_delete_ne.
Qed.

(** X25. [logout] does not end the session of the access token: a
    request whose access token the gate accepts from its cache is
    accepted with the same user after a logout of that user (or of any
    other), whether or not the logout succeeded. *)
Theorem logout_keeps_access_token (e e2 : Env) (userId presented : string)
    (st : State) (req : Request) (t : string) (d : JwtPayload) (c : AuthUser) :
  bearerToken req = Some t -> t <> presented ->
  verifyToken (now e2) t = Some d ->
  liveAuthUser (now e2) (cache st)
    (makeKey ["auth"; "user"; default "" (jwt_id d)]) = Some c ->
  run (authenticate e2 req) st = Ok c ->
  run (authenticate e2 req) (exec (AuthService.logout e userId presented) st)
  = Ok c.
Proof.
  intros Hb Hne Hv Hl.
  set (st' := exec (AuthService.logout e userId presented) st).
  assert (Hbl : live (now e2) (cache st') (makeKey ["blacklist"; "token"; t])
                = live (now e2) (cache st) (makeKey ["blacklist"; "token"; t])).
  { unfold live, st'. rewrite logout_cache_frame; [done| |done].
    intros [= ?]. by apply Hne. }
  assert (Hl' : liveAuthUser (now e2) (cache st')
                  (makeKey ["auth"; "user"; default "" (jwt_id d)]) = Some c).
  { unfold liveAuthUser, live, st' in *. by rewrite logout_cache_frame. }
  unfold run, authenticate. rewrite Hb. simpl.
  destruct (truthy t); simpl; [|done].
  rewrite !bind_eq, !isTokenBlacklisted_eq, Hbl.
  destruct (bool_decide _); [done|].
  rewrite Hv. destruct (truthyO (jwt_id d)); simpl; [|done].
  rewrite !bind_eq, !cacheGetAuthUser_eq, Hl, Hl'. done.
Qed.

(** X26. A password reset keeps the session and the standing of the
    account: on the row it updates, the stored refresh token, the
    verification flag, the role, the activity flags, the id and the email
    are as before. *)
Theorem resetPassword_keeps_session (e : Env) (p : ResetPasswordInput)
    (st : State) :
  isOk (run (AuthService.resetPassword e p) st) = true ->
  exists u u',
    find (matches (ByEmail (rp_email p))) (db st) = Some u
    /\ find (matches (ByEmail (rp_email p)))
         (db (exec (AuthService.resetPassword e p) st)) = Some u'
    /\ refreshToken u' = refreshToken u
    /\ isEmailVerified u' = isEmailVerified u
    /\ role u' = role u /\ userType u' = userType u
    /\ isActive u' = isActive u /\ isDeleted u' = isDeleted u
    /\ id u' = id u /\ email u' = email u.
Proof.
  unfold run, exec. rewrite resetPassword_eq.
  destruct (find _ _) as [u|] eqn:Hf; [|done]. intros _.
  eexists u, _. split; [done|]. simpl.
  rewrite find_updateFirst_same, Hf.
  - split; [reflexivity|]. unfold hashedData. simpl.
    by destruct (truthy (rp_password p)).
  - intros v Hv. unfold hashedData. simpl. by destruct (truthy (rp_password p)).
Qed.

(** X27. The list and the nullable forms of the DTO answer one
    sanitized view per user, in order, and [null] only for no user. *)
Theorem list_responses_are_sanitized (l : list User) (o : option User) :
  length (AuthDto.toListResponse l) = length l
  /\ (forall i u, l !! i = Some u ->
        AuthDto.toListResponse l !! i = Some (AuthDto.toResponse u))
  /\ Forall safeResponse (AuthDto.toListResponse l)
  /\ (forall r, AuthDto.toNullableResponse o = Some r ->
        safeResponse r /\ exists u, o = Some u /\ r = AuthDto.toResponse u)
  /\ (AuthDto.toNullableResponse o = None <-> o = None).
Proof.
  unfold AuthDto.toListResponse, AuthDto.toNullableResponse.
  split; [apply length_map|].
  split; [intros i u Hi; by rewrite list_lookup_fmap_Some; eauto|].
  split.
  - induction l as [|u l IH]; constructor; [|exact IH].
    intros v [= <-]. by repeat split.
  - split.
    + intros r Hr. destruct o as [u|]; [|done]. injection Hr as <-.
      split; [|by exists u]. intros v [= <-]. by repeat split.
    + by destruct o.
Qed.

(** X28. A row the repository has created is the one [findById] and
    [findByEmail] return afterwards, at any later instant and with or
    without the cache. *)
Theorem create_then_find (e e2 : Env) (p : CreatePayload) (st : State)
    (b : bool) :
  isOk (run (AuthRepository.create e p) st) = true ->
  exists u,
    run (AuthRepository.create e p) st = Ok u
    /\ id u = uuid e /\ email u = p_email p
    /\ run (AuthRepository.findById e2 (uuid e))
         (exec (AuthRepository.create e p) st) = Ok (Some u)
    /\ run (AuthRepository.findByEmail e2 (p_email p) b)
         (exec (AuthRepository.create e p) st) = Ok (Some u).
Proof.
  unfold run, exec. rewrite create_eq.
  destruct (prisma_user_create _ _ _) as [[u|x] s1] eqn:Hc; [|done].
  apply prisma_user_create_ok in Hc as (-> & Hid & _ & Hem & _ & _ & _ & _ & _ & _
      & _ & _ & _ & _ & _ & _ & Hfid & Hfm).
  simpl in Hem, Hfm. intros _. exists u. simpl.
  split; [done|]. split; [done|]. split; [done|].
  assert (Hdb : find (matches (ById (uuid e))) (db st ++ [u]) = Some u
                /\ find (matches (ByEmail (p_email p))) (db st ++ [u]) = Some u).
  { split; rewrite find_app_new; try done; simpl.
    - by rewrite Hid, String.eqb_refl.
    - by rewrite Hem, String.eqb_refl. }
  destruct Hdb as [Hdi Hde]. rewrite Hid, Hem. split.
  - rewrite findById_eq. unfold liveUser, live. simpl.
    rewrite lookup_insert_ne by done. rewrite lookup_insert_eq. simpl.
    destruct (now e2 <? _); [done|]. by rewrite Hdi.
  - destruct b; [|by rewrite findByEmail_nocache_eq; simpl; rewrite Hde].
    rewrite findByEmail_cache_eq. unfold liveUser, live. simpl.
    rewrite lookup_insert_eq. simpl.
    destruct (now e2 <? _); [done|]. by rewrite Hde.
Qed.

End SessionFacts.

Lemma logout_keeps_access_token_witness :
  run (authenticate (U := Reference.utils) (Scenario.env 3012000 0 "" true)
         Scenario.guestBearer)
    (exec (AuthService.logout (U := Reference.utils)
             (Scenario.env 3011000 0 "" true) "g1" "refresh.g1.607800")
       Scenario.afterGuestRequest)
  = Ok (mkAuthUser "g1" "Guest_000000" "guest_3000000_k3j9x2m@guest.local"
          USER GUEST true true).
Proof.
  apply (logout_keeps_access_token (U := Reference.utils)
           (Scenario.env 3011000 0 "" true) (Scenario.env 3012000 0 "" true)
           "g1" "refresh.g1.607800" Scenario.afterGuestRequest
           Scenario.guestBearer "access.g1.3900"
           (mkJwt (Some "g1") (Some 3900)));
    vm_compute; solve [reflexivity | discriminate].
Defined.

Lemma resetPassword_keeps_session_witness :
  exists u',
    find (matches (ByEmail "a@x.com"))
      (db (exec (AuthService.resetPassword (U := Reference.utils)
                   (Scenario.env 1200000 0 "" true)
                   (mkReset "a@x.com" "Another123!")) Scenario.afterLogin))
    = Some u'
    /\ refreshToken u' = Some Scenario.aliceRefresh.
Proof.
  destruct (resetPassword_keeps_session (U := Reference.utils)
              (Scenario.env 1200000 0 "" true)
              (mkReset "a@x.com" "Another123!") Scenario.afterLogin
              ltac:(vm_compute; reflexivity))
    as (u & u' & Hf & Hf' & Hrt & _).
  exists u'. split; [exact Hf'|].
  vm_compute in Hf. injection Hf as <-. exact Hrt.
Defined.

Lemma create_then_find_witness :
  exists u,
    run (AuthRepository.findByEmail (Scenario.env 9000000 0 "" true)
           "n@x.com" true)
      (exec (AuthRepository.create (U := Reference.utils)
               (Scenario.env 1000 0 "n1" true)
               (mkPayload "nina" "n@x.com" None "Secret123!" EMAIL None None None))
         st0)
    = Ok (Some u)
    /\ id u = "n1".
Proof.
  destruct (create_then_find (U := Reference.utils)
              (Scenario.env 1000 0 "n1" true) (Scenario.env 9000000 0 "" true)
              (mkPayload "nina" "n@x.com" None "Secret123!" EMAIL None None None)
              st0 true ltac:(vm_compute; reflexivity))
    as (u & _ & Hid & _ & _ & Hf).
  exists u. split; [exact Hf|exact Hid].
Defined.

Lemma googleAuth_token_rejections_witness :
  threwStatus
    (run (AuthService.googleAuth (U := Reference.utils)
            (Scenario.env 1000 0 "" true) (mkGoogle "garbage" None)) st0)
  = Some UNAUTHORIZED.
Proof.
  destruct (googleAuth_token_rejections (U := Reference.utils)
              (Scenario.env 1000 0 "" true) (mkGoogle "garbage" None) st0)
    as [H _].
  unfold run. rewrite (H ltac:(vm_compute; reflexivity)). reflexivity.
Defined.

(** ** C9 *)


Section MailOutcome.
Context `{U : Utils}.









End MailOutcome.



